(** * python-bydhvs: the BYD HVS battery protocol driver

    A shallow embedding of [bydhvs/__init__.py]: the Modbus-style packet
    validator, the field decoders, the payload decoders that fill the
    battery snapshot, and the polling state machine that drives the
    request/response dialogue over a byte-stream transport.

    Python values are modelled as follows.
    - [bytes] is [list byte]; indexing and slicing follow Python (negative
      indices count from the end, indexing out of range raises [IndexError],
      slicing never raises).
    - [int] is [Z]; [float] is the binary64 [float] of the standard library,
      so true division, products and [round] are computed, not idealised.
    - [str] is [string]; a [dict] with string keys is a [gmap string pyval].
    - An instance of the class is the record [BYDHVS]; attribute assignment
      is a record update, performed in program order inside a state and
      exception monad, so an exception leaves the object as far as the code
      had written it.
    - The transport (asyncio streams) is an oracle [Env] that fixes the
      outcome of the connection attempt, of the k-th write and read, and of
      waiting for the connection to close. *)

From Stdlib Require Import ZArith List Lia Bool Floats Uint63.
From Stdlib Require Import Strings.Byte Strings.String Strings.Ascii DecimalString.
From stdpp Require Import gmap strings list.
From coqutil Require Import Datatypes.RecordSetters.
Import RecordSetters.TriangleBracketNotations.

Open Scope Z_scope.

(** ** Exceptions and results *)

(** The exceptions that can leave the module: Python's built-in ones that
    the decoders can trigger, the two classes the module defines for
    connection failures, and the errors of the transport that
    [wait_closed] re-raises. *)
Inductive exn : Set :=
| IndexError
| KeyError
| ValueError
| AttributeError
| UnicodeDecodeError
| ZeroDivisionError
| BYDHVSTimeoutError
| BYDHVSConnectionError
| ConnectionResetError
| BrokenPipeError
| OSError.

(** The outcome of a computation: a value, a raised exception, or (for the
    fuelled polling loop only) the fuel running out. *)
Inductive res (A : Type) : Type :=
| Ok (a : A)
| Raise (e : exn)
| OutOfFuel.

Arguments Ok {A} a.
Arguments Raise {A} e.
Arguments OutOfFuel {A}.

Definition res_bind {A B} (r : res A) (k : A -> res B) : res B :=
  match r with
  | Ok a => k a
  | Raise e => Raise e
  | OutOfFuel => OutOfFuel
  end.

(** ** Python built-ins used by the driver *)

Module Py.

Definition bytes := list byte.

Definition byte_val (b : byte) : Z := Z.of_N (Byte.to_N b).

(** The byte with a given value (values outside 0..255 are taken modulo 256;
    only used to write literals). *)
Definition byte_of_Z (z : Z) : byte :=
  match Byte.of_N (Z.to_N (z mod 256)) with
  | Some b => b
  | None => "000"%byte
  end.

Definition bytes_of (l : list Z) : bytes := map byte_of_Z l.

Definition len {A} (l : list A) : Z := Z.of_nat (length l).

(** [l[i]]: a negative index counts from the end; out of range raises. *)
Definition getitem {A} (l : list A) (i : Z) : res A :=
  let j := if i <? 0 then i + len l else i in
  if j <? 0 then Raise IndexError
  else match l !! Z.to_nat j with
       | Some x => Ok x
       | None => Raise IndexError
       end.

(** How a slice bound is resolved against a sequence of length [n]. *)
Definition slice_bound (n i : Z) : Z :=
  if i <? 0 then Z.max (i + n) 0 else Z.min i n.

(** [l[lo:hi]]: never raises; bounds are clamped, negative bounds count
    from the end. *)
Definition slice {A} (l : list A) (lo hi : Z) : list A :=
  let lo' := slice_bound (len l) lo in
  let hi' := slice_bound (len l) hi in
  take (Z.to_nat (hi' - lo')) (drop (Z.to_nat lo') l).

(** [range(n)]: empty when [n <= 0]. *)
Definition range (n : Z) : list Z := map Z.of_nat (seq 0 (Z.to_nat n)).

(** [int.from_bytes(bs, byteorder='big', signed=False)]. *)
Definition int_from_bytes_big (bs : bytes) : Z :=
  fold_left (fun acc b => acc * 256 + byte_val b) bs 0.

(** [int.from_bytes(bs, byteorder='big', signed=True)]: two's complement on
    [8 * len(bs)] bits; the empty sequence gives 0. *)
Definition int_from_bytes_big_signed (bs : bytes) : Z :=
  let v := int_from_bytes_big bs in
  let bits := 8 * len bs in
  if bits =? 0 then 0
  else if v <? 2 ^ (bits - 1) then v else v - 2 ^ bits.

(** [bs.decode('ascii')]. *)
Definition decode_ascii (bs : bytes) : res string :=
  if forallb (fun b => byte_val b <? 128) bs
  then Ok (string_of_list_byte bs)
  else Raise UnicodeDecodeError.

(** [str.isspace] on the characters a decoded ASCII string can hold. *)
Definition isspace (c : ascii) : bool :=
  let n := Z.of_N (N_of_ascii c) in
  ((9 <=? n) && (n <=? 13)) || ((28 <=? n) && (n <=? 32)).

Fixpoint lstrip_list (l : list ascii) : list ascii :=
  match l with
  | c :: l' => if isspace c then lstrip_list l' else l
  | [] => []
  end.

(** [s.strip()]. *)
Definition strip (s : string) : string :=
  string_of_list_ascii
    (rev (lstrip_list (rev (lstrip_list (list_ascii_of_string s))))).

(** [str(n)] for an integer, as an f-string renders it. *)
Definition str (z : Z) : string := NilZero.string_of_int (Z.to_int z).

(** [int(s)] on a string of decimal digits. *)
Definition int_of_str (s : string) : res Z :=
  match NilZero.int_of_string s with
  | Some d => Ok (Z.of_int d)
  | None => Raise ValueError
  end.

Definition hex_digit (n : Z) : ascii :=
  ascii_of_N (Z.to_N (if n <? 10 then 48 + n else 87 + n)).

(** [bs.hex()]: two lower-case digits per byte. *)
Fixpoint hex (bs : bytes) : string :=
  match bs with
  | [] => EmptyString
  | b :: bs' =>
      String (hex_digit (byte_val b / 16))
        (String (hex_digit (byte_val b mod 16)) (hex bs'))
  end.

Definition hex_value (c : ascii) : option Z :=
  let n := Z.of_N (N_of_ascii c) in
  if (48 <=? n) && (n <=? 57) then Some (n - 48)
  else if (97 <=? n) && (n <=? 102) then Some (n - 87)
  else if (65 <=? n) && (n <=? 70) then Some (n - 55)
  else None.

Fixpoint int_of_hex_from (acc : Z) (s : string) : res Z :=
  match s with
  | EmptyString => Ok acc
  | String c s' =>
      match hex_value c with
      | Some v => int_of_hex_from (acc * 16 + v) s'
      | None => Raise ValueError
      end
  end.

(** [int(s, 16)] on a string of hexadecimal digits; the empty string is a
    [ValueError]. *)
Definition int_of_hex (s : string) : res Z :=
  match s with
  | EmptyString => Raise ValueError
  | _ => int_of_hex_from 0 s
  end.

Fixpoint popcount (p : positive) : Z :=
  match p with
  | xH => 1
  | xO p' => popcount p'
  | xI p' => 1 + popcount p'
  end.

(** [bin(z).count('1')]. *)
Definition bin_count_ones (z : Z) : Z :=
  match z with
  | Z0 => 0
  | Zpos p => popcount p
  | Zneg p => popcount p
  end.

(** [chr(n)] as a string, in UTF-8 for code points above 127 (the driver
    only builds code points below 2048). *)
Definition chr (n : Z) : string :=
  if n <? 128 then String (ascii_of_N (Z.to_N n)) EmptyString
  else String (ascii_of_N (Z.to_N (192 + n / 64)))
         (String (ascii_of_N (Z.to_N (128 + n mod 64))) EmptyString).

(** [sep.join(l)]. *)
Definition join (sep : string) (l : list string) : string := String.concat sep l.

(** [s or d] on strings. *)
Definition str_or (s d : string) : string :=
  match s with
  | EmptyString => d
  | _ => s
  end.

(** [enumerate(l)]. *)
Definition enumerate {A} (l : list A) : list (Z * A) :=
  combine (map Z.of_nat (seq 0 (length l))) l.

(** *** Floats *)

(** [float(z)]; exact for [|z| < 2^53], which covers every integer the
    driver converts. *)
Definition float_of_int (z : Z) : float :=
  if z <? 0 then PrimFloat.opp (PrimFloat.of_uint63 (Uint63.of_Z (- z)))
  else PrimFloat.of_uint63 (Uint63.of_Z z).

(** Truth value of a float: everything but zero. *)
Definition float_truthy (x : float) : bool := negb (PrimFloat.eqb x 0%float).

(** [x / y] on floats. *)
Definition truediv (x y : float) : res float :=
  if PrimFloat.eqb y 0%float then Raise ZeroDivisionError
  else Ok (PrimFloat.div x y).

(** [a / b] on integers (true division). For operands below [2^53] the
    correctly rounded quotient is the quotient of the converted operands. *)
Definition int_truediv (a b : Z) : res float :=
  if b =? 0 then Raise ZeroDivisionError
  else Ok (PrimFloat.div (float_of_int a) (float_of_int b)).

(** Nearest integer to [num / den], ties to even ([den > 0]). *)
Definition div_half_even (num den : Z) : Z :=
  let q := num / den in
  let r := num mod den in
  if 2 * r <? den then q
  else if den <? 2 * r then q + 1
  else if Z.even q then q else q + 1.

(** [round(x, ndigits)] on a float, [ndigits >= 0]: the exact binary value
    is rounded half-even to [ndigits] decimals and the decimal result is
    converted back to the nearest float. *)
Definition round (x : float) (ndigits : Z) : float :=
  match Prim2SF x with
  | S754_finite s m e =>
      let p := 10 ^ ndigits in
      let num := Zpos m * p in
      let n := if 0 <=? e then num * 2 ^ e else div_half_even num (2 ^ (- e)) in
      let r := PrimFloat.div (float_of_int n) (float_of_int p) in
      if s then PrimFloat.opp r else r
  | _ => x
  end.

End Py.

(** A dynamically typed Python value, for attributes whose type changes and
    for the values of the per-tower dictionaries. *)
Inductive pyval : Type :=
| PInt (z : Z)
| PFloat (f : float)
| PStr (s : string)
| PList (l : list Z).

(** ** crcmod: the predefined 'modbus' CRC

    [crcmod.predefined.mkCrcFun('modbus')] is CRC-16 with polynomial 0x18005
    processed bit-reflected (0xA001), initial value 0xFFFF and no final
    xor. *)

Module Crcmod.

Definition shift_bit (crc : Z) : Z :=
  if Z.testbit crc 0 then Z.lxor (Z.shiftr crc 1) 0xA001 else Z.shiftr crc 1.

Definition update_byte (crc : Z) (b : byte) : Z :=
  Nat.iter 8 shift_bit (Z.lxor crc (Py.byte_val b)).

Definition modbus (data : Py.bytes) : Z := fold_left update_byte data 0xFFFF.

End Crcmod.

Definition CRC16 : Py.bytes -> Z := Crcmod.modbus.

(** ** Packet validation and field decoders *)

Definition read_byte (data : Py.bytes) (i : Z) : res Z :=
  res_bind (Py.getitem data i) (fun b => Ok (Py.byte_val b)).

(** [_check_packet]. *)
Definition _check_packet (data : Py.bytes) : res bool :=
  if Py.len data <? 5 then Ok false
  else
    res_bind (read_byte data 0) (fun d0 =>
    if negb (d0 =? 1) then Ok false
    else
      res_bind (read_byte data 1) (fun function_code =>
      res_bind (read_byte data 2) (fun data_length =>
      let packet_length := data_length + 5 in
      if function_code =? 3 then
        if negb (packet_length =? Py.len data) then Ok false
        else Ok (CRC16 data =? 0)
      else if negb (function_code =? 16) then Ok false
      else Ok (CRC16 data =? 0)))).

(** [_buf2int16_si]. *)
Definition _buf2int16_si (data : Py.bytes) (pos : Z) : Z :=
  Py.int_from_bytes_big_signed (Py.slice data pos (pos + 2)).

(** [_buf2int16_us]. *)
Definition _buf2int16_us (data : Py.bytes) (pos : Z) : Z :=
  Py.int_from_bytes_big (Py.slice data pos (pos + 2)).

(** [_buf2int32_us]. The operands are evaluated left to right. *)
Definition _buf2int32_us (data : Py.bytes) (pos : Z) : res Z :=
  res_bind (read_byte data (pos + 2)) (fun b2 =>
  res_bind (read_byte data (pos + 3)) (fun b3 =>
  res_bind (read_byte data pos) (fun b0 =>
  res_bind (read_byte data (pos + 1)) (fun b1 =>
  Ok (b2 * 16777216 + b3 * 65536 + b0 * 256 + b1))))).

(** ** The constant tables of the class *)

Fixpoint fromhex_list (l : list ascii) : Py.bytes :=
  match l with
  | h :: l' =>
      match l' with
      | lo :: rest =>
          match Py.hex_value h, Py.hex_value lo with
          | Some a, Some b => Py.byte_of_Z (a * 16 + b) :: fromhex_list rest
          | _, _ => []
          end
      | [] => []
      end
  | [] => []
  end.

(** [bytes.fromhex] on the well-formed literals of the request table. *)
Definition fromhex (s : string) : Py.bytes := fromhex_list (list_ascii_of_string s).

(** The keys of the [_requests] dictionary. *)
Inductive request : Set :=
| read_serial_number
| read_status_information
| read_battery_info
| start_measure_box_1
| read_measurement_status
| read_cell_volt_temp
| switch_pass
| start_measure_box_2
| start_measure_box_3
| EVT_MSG_0_0
| EVT_MSG_0_1
| EVT_MSG_0_2
| EVT_MSG_0_3.

Definition _requests (r : request) : Py.bytes :=
  match r with
  | read_serial_number => fromhex "010300000066c5e0"
  | read_status_information => fromhex "01030500001984cc"
  | read_battery_info => fromhex "010300100003040e"
  | start_measure_box_1 => fromhex "0110055000020400018100f853"
  | read_measurement_status => fromhex "010305510001d517"
  | read_cell_volt_temp => fromhex "01030558004104e5"
  | switch_pass => fromhex "01100100000306444542554700176f"
  | start_measure_box_2 => fromhex "01100550000204000281000853"
  | start_measure_box_3 => fromhex "01100550000204000381005993"
  | EVT_MSG_0_0 => fromhex "011005a000020400008100A6D7"
  | EVT_MSG_0_1 => fromhex "011005a000020400018100f717"
  | EVT_MSG_0_2 => fromhex "011005a0000204000281000717"
  | EVT_MSG_0_3 => fromhex "011005a00002040003810056D7"
  end.

Definition _errors : list string :=
  [ "High temperature during charging (cells)";
    "Low temperature during charging (cells)";
    "Overcurrent during discharging";
    "Overcurrent during charging";
    "Main circuit failure";
    "Short circuit alarm";
    "Cell imbalance";
    "Current sensor error";
    "Battery overvoltage";
    "Battery undervoltage";
    "Cell overvoltage";
    "Cell undervoltage";
    "Voltage sensor error";
    "Temperature sensor error";
    "High temperature during discharging (cells)";
    "Low temperature during discharging (cells)" ]%string.

Definition _stat_tower : list string :=
  [ "Battery Over Voltage";
    "Battery Under Voltage";
    "Cells OverVoltage";
    "Cells UnderVoltage";
    "Cells Imbalance";
    "Charging High Temperature(Cells)";
    "Charging Low Temperature(Cells)";
    "DisCharging High Temperature(Cells)";
    "DisCharging Low Temperature(Cells)";
    "Charging OverCurrent(Cells)";
    "DisCharging OverCurrent(Cells)";
    "Charging OverCurrent(Hardware)";
    "Short Circuit";
    "Inversly Connection";
    "Interlock switch Abnormal";
    "AirSwitch Abnormal" ]%string.

Definition _inverters : list string :=
  [ "Fronius HV"; "Goodwe HV"; "Fronius HV"; "Kostal HV"; "Goodwe HV";
    "SMA SBS3.7/5.0"; "Kostal HV"; "SMA SBS3.7/5.0"; "Sungrow HV";
    "Sungrow HV"; "Kaco HV"; "Kaco HV"; "Ingeteam HV"; "Ingeteam HV";
    "SMA SBS 2.5 HV"; "undefined"; "SMA SBS 2.5 HV"; "Fronius HV";
    "undefined"; "SMA STP" ]%string.

Definition _lvs_inverters : list string :=
  [ "Fronius HV"; "Goodwe HV"; "Goodwe HV"; "Kostal HV"; "Selectronic LV";
    "SMA SBS3.7/5.0"; "SMA LV"; "Victron LV"; "Suntech LV"; "Sungrow HV";
    "Kaco HV"; "Studer LV"; "Solar Edge LV"; "Ingeteam HV"; "Sungrow LV";
    "Schneider LV"; "SMA SBS2.5 HV"; "Solar Edge LV"; "Solar Edge LV";
    "Solar Edge LV"; "unknown" ]%string.

Definition MAX_CELLS : Z := 160.
Definition MAX_TEMPS : Z := 64.
Definition SLEEP_TIME : Z := 4.

(** The names of a status word's set bits, joined, or "No Error":
    ["; ".join([err for i, err in enumerate(table) if word & (1 << i)])
     or "No Error"]. *)
Definition bit_names (table : list string) (word : Z) : string :=
  Py.str_or
    (Py.join "; "
       (map snd
          (filter (fun p => Z.land word (Z.shiftl 1 (fst p)) <> 0)
             (Py.enumerate table))))
    "No Error".

(** ** The object *)

(** An asyncio stream end, identified by the connection it belongs to. *)
Inductive stream : Set := Stream (conn : nat).

(** The attributes of a [BYDHVS] instance, as [__init__] creates them (the
    constant tables above are left out of the record: nothing assigns
    them). *)
Record BYDHVS : Type := {
  _ip_address : string;
  _port : Z;
  _reader : option stream;
  _writer : option stream;
  _state : Z;
  hvs_soc : Z;
  hvs_max_volt : float;
  hvs_min_volt : float;
  hvs_soh : Z;
  hvs_serial : string;
  hvs_bmu : string;
  hvs_bmu_a : string;
  hvs_bmu_b : string;
  hvs_bms : string;
  hvs_modules : Z;
  hvs_module_cell_count : Z;
  hvs_module_cell_temp_count : Z;
  hvs_towers : Z;
  hvs_grid : string;
  hvs_current : pyval;
  hvs_batt_volt : float;
  hvs_max_temp : Z;
  hvs_min_temp : Z;
  hvs_batt_temp : Z;
  hvs_error : Z;
  hvs_param_t : string;
  hvs_out_volt : float;
  hvs_power : float;
  hvs_diff_volt : float;
  hvs_error_string : string;
  hvs_charge_total : float;
  hvs_discharge_total : float;
  hvs_eta : pyval;
  hvs_batt_type_from_serial : string;
  hvs_batt_type : pyval;
  hvs_batt_type_string : string;
  hvs_inv_type : pyval;
  hvs_num_cells : Z;
  hvs_num_temps : Z;
  tower_attributes : list (gmap string pyval);
  hvs_inv_type_string : string;
  balancing_status : string;
  balancing_count : Z;
  max_cell_voltage_mv : Z;
  min_cell_voltage_mv : Z;
  max_cell_voltage_cell : Z;
  min_cell_voltage_cell : Z;
  max_cell_temp_cell : Z;
  min_cell_temp_cell : Z;
  current_tower : Z;
  state_action_list : list Z
}.

(** [BYDHVS.__init__]. *)
Definition __init__ (ip_address : string) (port : Z) : BYDHVS := {|
  _ip_address := ip_address;
  _port := port;
  _reader := None;
  _writer := None;
  _state := 0;
  hvs_soc := 0;
  hvs_max_volt := 0%float;
  hvs_min_volt := 0%float;
  hvs_soh := 0;
  hvs_serial := "";
  hvs_bmu := "";
  hvs_bmu_a := "";
  hvs_bmu_b := "";
  hvs_bms := "";
  hvs_modules := 0;
  hvs_module_cell_count := 0;
  hvs_module_cell_temp_count := 0;
  hvs_towers := 0;
  hvs_grid := "";
  hvs_current := PInt 0;
  hvs_batt_volt := 0%float;
  hvs_max_temp := 0;
  hvs_min_temp := 0;
  hvs_batt_temp := 0;
  hvs_error := 0;
  hvs_param_t := "";
  hvs_out_volt := 0%float;
  hvs_power := 0%float;
  hvs_diff_volt := 0%float;
  hvs_error_string := "";
  hvs_charge_total := 0%float;
  hvs_discharge_total := 0%float;
  hvs_eta := PFloat 0%float;
  hvs_batt_type_from_serial := "";
  hvs_batt_type := PStr "";
  hvs_batt_type_string := "";
  hvs_inv_type := PStr "";
  hvs_num_cells := 0;
  hvs_num_temps := 0;
  tower_attributes := [];
  hvs_inv_type_string := "";
  balancing_status := "";
  balancing_count := 0;
  max_cell_voltage_mv := 0;
  min_cell_voltage_mv := 0;
  max_cell_voltage_cell := 0;
  min_cell_voltage_cell := 0;
  max_cell_temp_cell := 0;
  min_cell_temp_cell := 0;
  current_tower := 0;
  state_action_list := []
|}.

(** The attribute setters behind [self.attr = v], one per attribute. *)
#[local] Instance set__ip_address : Setter _ip_address := _.
#[local] Instance set__port : Setter _port := _.
#[local] Instance set__reader : Setter _reader := _.
#[local] Instance set__writer : Setter _writer := _.
#[local] Instance set__state : Setter _state := _.
#[local] Instance set_hvs_soc : Setter hvs_soc := _.
#[local] Instance set_hvs_max_volt : Setter hvs_max_volt := _.
#[local] Instance set_hvs_min_volt : Setter hvs_min_volt := _.
#[local] Instance set_hvs_soh : Setter hvs_soh := _.
#[local] Instance set_hvs_serial : Setter hvs_serial := _.
#[local] Instance set_hvs_bmu : Setter hvs_bmu := _.
#[local] Instance set_hvs_bmu_a : Setter hvs_bmu_a := _.
#[local] Instance set_hvs_bmu_b : Setter hvs_bmu_b := _.
#[local] Instance set_hvs_bms : Setter hvs_bms := _.
#[local] Instance set_hvs_modules : Setter hvs_modules := _.
#[local] Instance set_hvs_module_cell_count : Setter hvs_module_cell_count := _.
#[local] Instance set_hvs_module_cell_temp_count : Setter hvs_module_cell_temp_count := _.
#[local] Instance set_hvs_towers : Setter hvs_towers := _.
#[local] Instance set_hvs_grid : Setter hvs_grid := _.
#[local] Instance set_hvs_current : Setter hvs_current := _.
#[local] Instance set_hvs_batt_volt : Setter hvs_batt_volt := _.
#[local] Instance set_hvs_max_temp : Setter hvs_max_temp := _.
#[local] Instance set_hvs_min_temp : Setter hvs_min_temp := _.
#[local] Instance set_hvs_batt_temp : Setter hvs_batt_temp := _.
#[local] Instance set_hvs_error : Setter hvs_error := _.
#[local] Instance set_hvs_param_t : Setter hvs_param_t := _.
#[local] Instance set_hvs_out_volt : Setter hvs_out_volt := _.
#[local] Instance set_hvs_power : Setter hvs_power := _.
#[local] Instance set_hvs_diff_volt : Setter hvs_diff_volt := _.
#[local] Instance set_hvs_error_string : Setter hvs_error_string := _.
#[local] Instance set_hvs_charge_total : Setter hvs_charge_total := _.
#[local] Instance set_hvs_discharge_total : Setter hvs_discharge_total := _.
#[local] Instance set_hvs_eta : Setter hvs_eta := _.
#[local] Instance set_hvs_batt_type_from_serial : Setter hvs_batt_type_from_serial := _.
#[local] Instance set_hvs_batt_type : Setter hvs_batt_type := _.
#[local] Instance set_hvs_batt_type_string : Setter hvs_batt_type_string := _.
#[local] Instance set_hvs_inv_type : Setter hvs_inv_type := _.
#[local] Instance set_hvs_num_cells : Setter hvs_num_cells := _.
#[local] Instance set_hvs_num_temps : Setter hvs_num_temps := _.
#[local] Instance set_tower_attributes : Setter tower_attributes := _.
#[local] Instance set_hvs_inv_type_string : Setter hvs_inv_type_string := _.
#[local] Instance set_balancing_status : Setter balancing_status := _.
#[local] Instance set_balancing_count : Setter balancing_count := _.
#[local] Instance set_max_cell_voltage_mv : Setter max_cell_voltage_mv := _.
#[local] Instance set_min_cell_voltage_mv : Setter min_cell_voltage_mv := _.
#[local] Instance set_max_cell_voltage_cell : Setter max_cell_voltage_cell := _.
#[local] Instance set_min_cell_voltage_cell : Setter min_cell_voltage_cell := _.
#[local] Instance set_max_cell_temp_cell : Setter max_cell_temp_cell := _.
#[local] Instance set_min_cell_temp_cell : Setter min_cell_temp_cell := _.
#[local] Instance set_current_tower : Setter current_tower := _.
#[local] Instance set_state_action_list : Setter state_action_list := _.

(** ** The transport and the world around the object *)

Inductive connect_outcome : Set :=
| ConnectOk
| ConnectTimeoutError
| ConnectOSError.

(** A write (with its drain) succeeds or raises one of the errors
    [_send_request] catches. *)
Inductive send_outcome : Set :=
| SendOk
| SendError.

(** A read delivers bytes (possibly none, at end of stream) or raises one of
    the errors [_receive_response] catches. *)
Inductive recv_outcome : Set :=
| RecvData (data : Py.bytes)
| RecvTimeoutError
| RecvIncompleteReadError
| RecvOSError.

(** [await self._writer.wait_closed()] returns once the connection is
    closed, or re-raises the error the connection was lost with; nothing in
    the module catches it. *)
Inductive close_outcome : Set :=
| CloseOk
| CloseConnectionResetError
| CloseBrokenPipeError
| CloseOSError.

(** The exception [wait_closed] raises, if any. *)
Definition close_exn (o : close_outcome) : option exn :=
  match o with
  | CloseOk => None
  | CloseConnectionResetError => Some ConnectionResetError
  | CloseBrokenPipeError => Some BrokenPipeError
  | CloseOSError => Some OSError
  end.

(** The behaviour of the peer and the network during a cycle: the outcome
    of [open_connection], of the k-th write, of the k-th read and of
    [wait_closed]. *)
Record Env : Type := {
  env_connect : connect_outcome;
  env_send : nat -> send_outcome;
  env_recv : nat -> recv_outcome;
  env_close : close_outcome
}.

(** What has happened outside the object: the connections opened so far and
    those still open, the requests written, the number of reads and of
    settle sleeps, and a log of the decoder calls (decoder number and
    buffer), kept to state which buffers were decoded. *)
Record World : Type := {
  w_opened : nat;
  w_open : gset nat;
  w_sent : list Py.bytes;
  w_reads : nat;
  w_sleeps : nat;
  w_decoded : list (Z * Py.bytes)
}.

Definition world0 : World := {|
  w_opened := 0;
  w_open := ∅;
  w_sent := [];
  w_reads := 0;
  w_sleeps := 0;
  w_decoded := []
|}.

(** The setters of the world's components. *)
#[local] Instance set_w_opened : Setter w_opened := _.
#[local] Instance set_w_open : Setter w_open := _.
#[local] Instance set_w_sent : Setter w_sent := _.
#[local] Instance set_w_reads : Setter w_reads := _.
#[local] Instance set_w_sleeps : Setter w_sleeps := _.
#[local] Instance set_w_decoded : Setter w_decoded := _.

(** ** The monad: object and world state, with exceptions

    A computation runs on the pair of the object and the world and ends with
    a value or an exception; the state it reached is kept in both cases. *)

Definition St : Type := BYDHVS * World.

Definition M (A : Type) : Type := St -> res A * St.

Definition ret {A} (a : A) : M A := fun s => (Ok a, s).

Definition raise {A} (e : exn) : M A := fun s => (Raise e, s).

Definition bind {A B} (m : M A) (k : A -> M B) : M B :=
  fun s =>
    match m s with
    | (Ok a, s') => k a s'
    | (Raise e, s') => (Raise e, s')
    | (OutOfFuel, s') => (OutOfFuel, s')
    end.

Definition lift {A} (r : res A) : M A := fun s => (r, s).

Definition get_self : M BYDHVS := fun s => (Ok (fst s), s).

Definition set_self (f : BYDHVS -> BYDHVS) : M unit :=
  fun s => (Ok tt, (f (fst s), snd s)).

Definition get_world : M World := fun s => (Ok (snd s), s).

Definition set_world (f : World -> World) : M unit :=
  fun s => (Ok tt, (fst s, f (snd s))).

Notation "'let!' x ':=' m 'in' k" := (bind m (fun x => k))
  (at level 10, x name, m at level 100, k at level 200,
   format "'[v' 'let!'  x  ':='  m  'in' '/' k ']'").

Notation "m ';;;' k" := (bind m (fun _ => k))
  (at level 100, k at level 200, right associativity,
   format "'[v' m  ';;;' '/' k ']'").

(** [self.attr = v]. *)
Notation "'setattr' u" := (set_self (apply_update u))
  (at level 10, u custom field_update at level 1).

(** *** The per-tower dictionaries *)

(** [tower = self.tower_attributes[tower_number]]: the position of the
    dictionary in the list, or [IndexError]. *)
Definition tower_ref (tower_number : Z) : M nat :=
  let! self := get_self in
  let l := tower_attributes self in
  let! _ := lift (Py.getitem l tower_number) in
  ret (Z.to_nat (if tower_number <? 0 then tower_number + Py.len l else tower_number)).

(** [tower[key] = v]. *)
Definition tower_set (tower : nat) (key : string) (v : pyval) : M unit :=
  setattr tower_attributes ::= alter (insert key v) tower.

(** [tower[key]]. *)
Definition tower_get (tower : nat) (key : string) : M pyval :=
  let! self := get_self in
  match tower_attributes self !! tower with
  | Some d =>
      match d !! key with
      | Some v => ret v
      | None => raise KeyError
      end
  | None => raise IndexError
  end.

(** [tower[key].extend(items)]. *)
Definition tower_extend (tower : nat) (key : string) (items : list Z) : M unit :=
  let! v := tower_get tower key in
  match v with
  | PList l => tower_set tower key (PList (l ++ items))
  | _ => raise AttributeError
  end.

(** ** Payload decoders *)

(** [data[i]] as an integer. *)
Definition byte_at (data : Py.bytes) (i : Z) : M Z := lift (read_byte data i).

(** Entry of a decoder in the log of decoder calls. *)
Definition log_decoder (k : Z) (data : Py.bytes) : M unit :=
  set_world (fun w => w <| w_decoded ::= fun l => l ++ [(k, data)] |>).

(** [_parse_packet0]: serial number, firmware versions, towers, modules. *)
Definition _parse_packet0 (data : Py.bytes) : M unit :=
  log_decoder 0 data ;;;
  let! serial := lift (Py.decode_ascii (Py.slice data 3 22)) in
  setattr hvs_serial := Py.strip serial ;;;
  let! hardware_type := byte_at data 5 in
  (if hardware_type =? 51 then setattr hvs_batt_type_from_serial := "HVS"
   else if (hardware_type =? 49) || (hardware_type =? 50)
        then setattr hvs_batt_type_from_serial := "LVS"
        else ret tt) ;;;
  let! d27 := byte_at data 27 in
  let! d28 := byte_at data 28 in
  setattr hvs_bmu_a := "V" +:+ Py.str d27 +:+ "." +:+ Py.str d28 ;;;
  let! d29 := byte_at data 29 in
  let! d30 := byte_at data 30 in
  setattr hvs_bmu_b := "V" +:+ Py.str d29 +:+ "." +:+ Py.str d30 ;;;
  let! d33 := byte_at data 33 in
  let! self := get_self in
  (if d33 =? 0 then setattr hvs_bmu := hvs_bmu_a self +:+ "-A"
   else setattr hvs_bmu := hvs_bmu_b self +:+ "-B") ;;;
  let! d31 := byte_at data 31 in
  let! d32 := byte_at data 32 in
  let! d34 := byte_at data 34 in
  setattr hvs_bms :=
    "V" +:+ Py.str d31 +:+ "." +:+ Py.str d32 +:+ "-" +:+ Py.chr (d34 + 65) ;;;
  let! d36 := byte_at data 36 in
  setattr hvs_modules := d36 mod 16 ;;;
  let! d36 := byte_at data 36 in
  setattr hvs_towers := d36 / 16 ;;;
  let! d38 := byte_at data 38 in
  setattr hvs_grid :=
    if d38 =? 0 then "OffGrid"
    else if d38 =? 1 then "OnGrid"
    else if d38 =? 2 then "Backup"
    else "Unknown".

(** [_parse_packet1]: battery status. Divisions by the literals 100.0 and
    10.0 cannot fault and are written with the float division directly. *)
Definition _parse_packet1 (data : Py.bytes) : M unit :=
  log_decoder 1 data ;;;
  setattr hvs_soc := _buf2int16_si data 3 ;;;
  setattr hvs_max_volt :=
    Py.round (PrimFloat.div (Py.float_of_int (_buf2int16_si data 5)) 100) 2 ;;;
  setattr hvs_min_volt :=
    Py.round (PrimFloat.div (Py.float_of_int (_buf2int16_si data 7)) 100) 2 ;;;
  setattr hvs_soh := _buf2int16_si data 9 ;;;
  let current :=
    Py.round (PrimFloat.div (Py.float_of_int (_buf2int16_si data 11)) 10) 1 in
  setattr hvs_current := PFloat current ;;;
  setattr hvs_batt_volt :=
    Py.round (PrimFloat.div (Py.float_of_int (_buf2int16_us data 13)) 100) 1 ;;;
  setattr hvs_max_temp := _buf2int16_si data 15 ;;;
  setattr hvs_min_temp := _buf2int16_si data 17 ;;;
  setattr hvs_batt_temp := _buf2int16_si data 19 ;;;
  setattr hvs_error := _buf2int16_si data 29 ;;;
  let! d31 := byte_at data 31 in
  let! d32 := byte_at data 32 in
  setattr hvs_param_t := Py.str d31 +:+ "." +:+ Py.str d32 ;;;
  setattr hvs_out_volt :=
    Py.round (PrimFloat.div (Py.float_of_int (_buf2int16_us data 35)) 100) 1 ;;;
  let! self := get_self in
  setattr hvs_power := Py.round (PrimFloat.mul current (hvs_out_volt self)) 2 ;;;
  setattr hvs_diff_volt :=
    Py.round (PrimFloat.sub (hvs_max_volt self) (hvs_min_volt self)) 2 ;;;
  setattr hvs_error_string := bit_names _errors (hvs_error self) ;;;
  let! charge := lift (_buf2int32_us data 37) in
  let! charge_total := lift (Py.int_truediv charge 10) in
  setattr hvs_charge_total := charge_total ;;;
  let! discharge := lift (_buf2int32_us data 41) in
  let! discharge_total := lift (Py.int_truediv discharge 10) in
  setattr hvs_discharge_total := discharge_total ;;;
  let! self := get_self in
  if Py.float_truthy (hvs_charge_total self) then
    let! eta :=
      lift (Py.truediv (PrimFloat.mul 100 (hvs_discharge_total self))
              (hvs_charge_total self)) in
    setattr hvs_eta := PFloat eta
  else
    setattr hvs_eta := PInt 0.

(** The [batt_type_map] of [_parse_packet2]: name, cells and temperature
    sensors per module. *)
Definition batt_type_map (batt_type : Z) : option (string * Z * Z) :=
  if batt_type =? 0 then Some ("LVS"%string, 0, 0)
  else if batt_type =? 1 then Some ("HVM"%string, 16, 8)
  else if batt_type =? 2 then Some ("HVS"%string, 32, 12)
  else None.

(** [_parse_packet2]: battery type, inverter type, cell and temperature
    counts. *)
Definition _parse_packet2 (data : Py.bytes) : M unit :=
  log_decoder 2 data ;;;
  let! batt_type := byte_at data 5 in
  setattr hvs_batt_type := PInt batt_type ;;;
  let! inv_type := byte_at data 3 in
  setattr hvs_inv_type := PInt inv_type ;;;
  let batt_info := batt_type_map batt_type in
  setattr hvs_batt_type_string :=
    match batt_info with Some (s, _, _) => s | None => ""%string end ;;;
  setattr hvs_module_cell_count :=
    match batt_info with Some (_, c, _) => c | None => 0 end ;;;
  setattr hvs_module_cell_temp_count :=
    match batt_info with Some (_, _, t) => t | None => 0 end ;;;
  let! self := get_self in
  setattr hvs_num_cells := hvs_modules self * hvs_module_cell_count self ;;;
  setattr hvs_num_temps := hvs_modules self * hvs_module_cell_temp_count self ;;;
  (if inv_type <? Py.len _inverters then
     let! name := lift (Py.getitem _inverters inv_type) in
     setattr hvs_inv_type_string := name
   else setattr hvs_inv_type_string := "undefined") ;;;
  (if String.eqb (hvs_batt_type_from_serial self) "LVS" then
     setattr hvs_batt_type := PStr "LVS" ;;;
     setattr hvs_module_cell_count := 8 ;;;
     setattr hvs_module_cell_temp_count := 4 ;;;
     let! self := get_self in
     setattr hvs_num_cells := hvs_modules self * hvs_module_cell_count self ;;;
     setattr hvs_num_temps := hvs_modules self * hvs_module_cell_temp_count self ;;;
     if inv_type <? Py.len _lvs_inverters then
       let! name := lift (Py.getitem _lvs_inverters inv_type) in
       setattr hvs_inv_type_string := name
     else setattr hvs_inv_type_string := "undefined"
   else ret tt) ;;;
  let! self := get_self in
  setattr hvs_num_cells := Z.min (hvs_num_cells self) MAX_CELLS ;;;
  let! self := get_self in
  setattr hvs_num_temps := Z.min (hvs_num_temps self) MAX_TEMPS.

(** [[self._buf2int16_si(data, start + i * 2) for i in range(count)]]. *)
Definition cell_block (data : Py.bytes) (start count : Z) : list Z :=
  map (fun i => _buf2int16_si data (start + i * 2)) (Py.range count).

(** [_parse_packet5]: the tower summary and the first 16 cell voltages. The
    values read back from the dictionary right after being stored
    ([charge_total], [discharge_total], [state]) are taken from the local
    that was stored. *)
Definition _parse_packet5 (data : Py.bytes) (tower_number : Z) : M unit :=
  log_decoder 5 data ;;;
  let! tower := tower_ref tower_number in
  tower_set tower "no" (PInt tower_number) ;;;
  tower_set tower "max_cell_voltage_mv" (PInt (_buf2int16_si data 5)) ;;;
  tower_set tower "min_cell_voltage_mv" (PInt (_buf2int16_si data 7)) ;;;
  let! d9 := byte_at data 9 in
  tower_set tower "max_cell_voltage_cell" (PInt d9) ;;;
  let! d10 := byte_at data 10 in
  tower_set tower "min_cell_voltage_cell" (PInt d10) ;;;
  let! d12 := byte_at data 12 in
  tower_set tower "max_cell_temp" (PInt d12) ;;;
  let! d14 := byte_at data 14 in
  tower_set tower "min_cell_temp" (PInt d14) ;;;
  let! d15 := byte_at data 15 in
  tower_set tower "max_cell_temp_cell" (PInt d15) ;;;
  let! d16 := byte_at data 16 in
  tower_set tower "min_cell_temp_cell" (PInt d16) ;;;
  tower_set tower "balancing_status" (PStr (Py.hex (Py.slice data 17 33))) ;;;
  let! flags := lift (Py.int_of_hex (Py.hex (Py.slice data 17 33))) in
  tower_set tower "balancing_count" (PInt (Py.bin_count_ones flags)) ;;;
  let! charge_total := lift (_buf2int32_us data 33) in
  tower_set tower "charge_total" (PInt charge_total) ;;;
  let! discharge_total := lift (_buf2int32_us data 37) in
  tower_set tower "discharge_total" (PInt discharge_total) ;;;
  (if negb (charge_total =? 0) then
     let! eta := lift (Py.int_truediv (100 * discharge_total) charge_total) in
     tower_set tower "eta" (PFloat eta)
   else tower_set tower "eta" (PInt 0)) ;;;
  tower_set tower "battery_volt"
    (PFloat (Py.round (PrimFloat.div (Py.float_of_int (_buf2int16_si data 45)) 10) 1)) ;;;
  tower_set tower "out_volt"
    (PFloat (Py.round (PrimFloat.div (Py.float_of_int (_buf2int16_si data 51)) 10) 1)) ;;;
  tower_set tower "hvs_soc_diagnosis"
    (PFloat (Py.round (PrimFloat.div (Py.float_of_int (_buf2int16_si data 53)) 10) 1)) ;;;
  tower_set tower "soh" (PInt (_buf2int16_si data 55)) ;;;
  let! d59 := byte_at data 59 in
  let! d60 := byte_at data 60 in
  let state := (Py.str d59 +:+ Py.str d60)%string in
  tower_set tower "state" (PStr state) ;;;
  let! state_int := lift (Py.int_of_str state) in
  tower_set tower "state_string" (PStr (bit_names _stat_tower state_int)) ;;;
  tower_set tower "cell_voltages" (PList (cell_block data 101 16)).

(** [_parse_packet6]: cell voltages 17 to 80. *)
Definition _parse_packet6 (data : Py.bytes) (tower_number : Z) : M unit :=
  log_decoder 6 data ;;;
  let! tower := tower_ref tower_number in
  let! self := get_self in
  let max_cells := Z.min (hvs_num_cells self - 16) 64 in
  tower_extend tower "cell_voltages" (cell_block data 5 max_cells).

(** [_parse_packet7]: cell voltages 81 to 128 and the first temperatures. *)
Definition _parse_packet7 (data : Py.bytes) (tower_number : Z) : M unit :=
  log_decoder 7 data ;;;
  let! tower := tower_ref tower_number in
  let! self := get_self in
  let max_cells := Z.min (hvs_num_cells self - 80) 48 in
  tower_extend tower "cell_voltages" (cell_block data 5 max_cells) ;;;
  let! self := get_self in
  let max_temps := Z.min (hvs_num_temps self) 30 in
  tower_set tower "cell_temperatures"
    (PList (map Py.byte_val (Py.slice data 103 (103 + max_temps)))).

(** [_parse_packet8]: the remaining temperatures. *)
Definition _parse_packet8 (data : Py.bytes) (tower_number : Z) : M unit :=
  log_decoder 8 data ;;;
  let! tower := tower_ref tower_number in
  let! self := get_self in
  let max_temps := Z.min (hvs_num_temps self - 30) 34 in
  tower_extend tower "cell_temperatures"
    (map Py.byte_val (Py.slice data 5 (5 + max_temps))).

(** [_parse_packet12]: second pass, cell voltages 129 to 144. *)
Definition _parse_packet12 (data : Py.bytes) (tower_number : Z) : M unit :=
  log_decoder 12 data ;;;
  let! tower := tower_ref tower_number in
  let balancing_data := Py.int_from_bytes_big (Py.slice data 17 33) in
  tower_set tower "balancing_count" (PInt (Py.bin_count_ones balancing_data)) ;;;
  tower_extend tower "cell_voltages" (cell_block data 101 16).

(** [_parse_packet13]: second pass, cell voltages 145 to 160. *)
Definition _parse_packet13 (data : Py.bytes) (tower_number : Z) : M unit :=
  log_decoder 13 data ;;;
  let! tower := tower_ref tower_number in
  let! self := get_self in
  let start_cell := 144 in
  let max_cells := Z.min (hvs_num_cells self - start_cell) 16 in
  tower_extend tower "cell_voltages" (cell_block data 5 max_cells).

(** ** Transport operations and the state machine *)

Section Protocol.

Variable E : Env.

(** [_connect]. A [TimeoutError] or [OSError] of [open_connection] is
    re-raised as the module's own exception; [_state] is then still 1. *)
Definition _connect : M unit :=
  match env_connect E with
  | ConnectOk =>
      let! w := get_world in
      let c := w_opened w in
      set_world (fun w => w <| w_opened := S c |> <| w_open ::= fun o => {[c]} ∪ o |>) ;;;
      setattr _reader := Some (Stream c) ;;;
      setattr _writer := Some (Stream c) ;;;
      setattr _state := 2
  | ConnectTimeoutError => raise BYDHVSTimeoutError
  | ConnectOSError => raise BYDHVSConnectionError
  end.

(** [_send_request]: the request is handed to the writer; an error of the
    write or of the drain sets [_state] to 0 and is swallowed. *)
Definition _send_request (request : Py.bytes) : M unit :=
  let! self := get_self in
  match _writer self with
  | Some _ =>
      let! w := get_world in
      set_world (fun w => w <| w_sent ::= fun l => l ++ [request] |>) ;;;
      match env_send E (length (w_sent w)) with
      | SendOk => ret tt
      | SendError => setattr _state := 0
      end
  | None => ret tt
  end.

(** [_receive_response]: the bytes read, or [None] after an error (which
    sets [_state] to 0) or without a reader. *)
Definition _receive_response : M (option Py.bytes) :=
  let! self := get_self in
  match _reader self with
  | Some _ =>
      let! w := get_world in
      set_world (fun w => w <| w_reads ::= S |>) ;;;
      match env_recv E (w_reads w) with
      | RecvData data => ret (Some data)
      | RecvTimeoutError => setattr _state := 0 ;;; ret None
      | RecvIncompleteReadError => setattr _state := 0 ;;; ret None
      | RecvOSError => setattr _state := 0 ;;; ret None
      end
  | None => ret None
  end.

(** [_close]: with a writer, [close()] closes the stream and
    [wait_closed()] is awaited; when that raises, the exception leaves
    [_close] before reader and writer are cleared. *)
Definition _close : M unit :=
  let! self := get_self in
  match _writer self with
  | Some (Stream c) =>
      set_world (fun w => w <| w_open ::= fun o => o ∖ {[c]} |>) ;;;
      match close_exn (env_close E) with
      | Some e => raise e
      | None =>
          setattr _reader := None ;;;
          setattr _writer := None
      end
  | None => ret tt
  end.

(** [await asyncio.sleep(self.SLEEP_TIME)]. *)
Definition sleep : M unit := set_world (fun w => w <| w_sleeps ::= S |>).

(** The test [data and self._check_packet(data)] of every state: the
    buffer when it is present, not empty and valid. *)
Definition data_and_check_packet (data : option Py.bytes) : M (option Py.bytes) :=
  match data with
  | Some (b :: rest) =>
      let! valid := lift (_check_packet (b :: rest)) in
      ret (if valid then Some (b :: rest) else None)
  | Some [] => ret None
  | None => ret None
  end.

(** The request of states 5 and 12, chosen by the tower; none is sent for a
    fourth tower or beyond. *)
Definition send_start_measurement : M unit :=
  let! self := get_self in
  if current_tower self =? 0 then _send_request (_requests start_measure_box_1)
  else if current_tower self =? 1 then _send_request (_requests start_measure_box_2)
  else if current_tower self =? 2 then _send_request (_requests start_measure_box_3)
  else ret tt.

(** After the last block of a tower: on to the next tower or done. *)
Definition next_tower_or_done : M unit :=
  let! self := get_self in
  if current_tower self + 1 <? hvs_towers self then
    setattr current_tower := current_tower self + 1 ;;;
    setattr _state := 5
  else setattr _state := 0.

Definition _state2_send_request0 : M unit :=
  _send_request (_requests read_serial_number) ;;;
  let! data := _receive_response in
  let! checked := data_and_check_packet data in
  match checked with
  | Some data =>
      _parse_packet0 data ;;;
      let! self := get_self in
      setattr tower_attributes :=
        map (fun _ => ∅)
          (Py.range (if hvs_towers self =? 0 then 1 else hvs_towers self)) ;;;
      setattr tower_attributes ::=
        map (fun tower =>
               <["cell_temperatures" := PList []]>
                 (<["cell_voltages" := PList []]> tower)) ;;;
      setattr _state := 3
  | None => setattr _state := 0
  end.

Definition _state3_send_request1 : M unit :=
  _send_request (_requests read_status_information) ;;;
  let! data := _receive_response in
  let! checked := data_and_check_packet data in
  match checked with
  | Some data =>
      _parse_packet1 data ;;;
      setattr _state := 4
  | None => setattr _state := 0
  end.

Definition _state4_send_request2 : M unit :=
  _send_request (_requests read_battery_info) ;;;
  let! data := _receive_response in
  let! checked := data_and_check_packet data in
  match checked with
  | Some data =>
      _parse_packet2 data ;;;
      let! self := get_self in
      if (0 <? hvs_num_cells self) && (0 <? hvs_num_temps self)
      then setattr _state := 5
      else setattr _state := 0
  | None => setattr _state := 0
  end.

Definition _state5_start_measurement : M unit :=
  send_start_measurement ;;;
  let! data := _receive_response in
  let! checked := data_and_check_packet data in
  match checked with
  | Some data =>
      sleep ;;;
      setattr _state := 6
  | None => setattr _state := 0
  end.

Definition _state6_send_request4 : M unit :=
  _send_request (_requests read_measurement_status) ;;;
  let! data := _receive_response in
  let! checked := data_and_check_packet data in
  match checked with
  | Some data => setattr _state := 7
  | None => setattr _state := 0
  end.

Definition _state7_send_request5 : M unit :=
  _send_request (_requests read_cell_volt_temp) ;;;
  let! data := _receive_response in
  let! checked := data_and_check_packet data in
  match checked with
  | Some data =>
      let! self := get_self in
      _parse_packet5 data (current_tower self) ;;;
      setattr _state := 8
  | None => setattr _state := 0
  end.

Definition _state8_send_request6 : M unit :=
  _send_request (_requests read_cell_volt_temp) ;;;
  let! data := _receive_response in
  let! checked := data_and_check_packet data in
  match checked with
  | Some data =>
      let! self := get_self in
      _parse_packet6 data (current_tower self) ;;;
      setattr _state := 9
  | None => setattr _state := 0
  end.

Definition _state9_send_request7 : M unit :=
  _send_request (_requests read_cell_volt_temp) ;;;
  let! data := _receive_response in
  let! checked := data_and_check_packet data in
  match checked with
  | Some data =>
      let! self := get_self in
      _parse_packet7 data (current_tower self) ;;;
      setattr _state := 10
  | None => setattr _state := 0
  end.

Definition _state10_send_request8 : M unit :=
  _send_request (_requests read_cell_volt_temp) ;;;
  let! data := _receive_response in
  let! checked := data_and_check_packet data in
  match checked with
  | Some data =>
      let! self := get_self in
      _parse_packet8 data (current_tower self) ;;;
      let! self := get_self in
      if 128 <? hvs_num_cells self then setattr _state := 11
      else next_tower_or_done
  | None => setattr _state := 0
  end.

Definition _state11_send_request9 : M unit :=
  _send_request (_requests switch_pass) ;;;
  let! data := _receive_response in
  let! checked := data_and_check_packet data in
  match checked with
  | Some data => setattr _state := 12
  | None => setattr _state := 0
  end.

Definition _state12_send_request10 : M unit :=
  send_start_measurement ;;;
  let! data := _receive_response in
  let! checked := data_and_check_packet data in
  match checked with
  | Some data =>
      sleep ;;;
      setattr _state := 13
  | None => setattr _state := 0
  end.

Definition _state13_send_request11 : M unit :=
  _send_request (_requests read_measurement_status) ;;;
  let! data := _receive_response in
  let! checked := data_and_check_packet data in
  match checked with
  | Some data => setattr _state := 14
  | None => setattr _state := 0
  end.

Definition _state14_send_request12 : M unit :=
  _send_request (_requests read_cell_volt_temp) ;;;
  let! data := _receive_response in
  let! checked := data_and_check_packet data in
  match checked with
  | Some data =>
      let! self := get_self in
      _parse_packet12 data (current_tower self) ;;;
      setattr _state := 15
  | None => setattr _state := 0
  end.

Definition _state15_send_request13 : M unit :=
  _send_request (_requests read_cell_volt_temp) ;;;
  let! data := _receive_response in
  let! checked := data_and_check_packet data in
  match checked with
  | Some data =>
      let! self := get_self in
      _parse_packet13 data (current_tower self) ;;;
      next_tower_or_done
  | None => setattr _state := 0
  end.

(** The [state_actions] dictionary of [poll]. *)
Definition state_actions (state : Z) : option (M unit) :=
  if state =? 2 then Some _state2_send_request0
  else if state =? 3 then Some _state3_send_request1
  else if state =? 4 then Some _state4_send_request2
  else if state =? 5 then Some _state5_start_measurement
  else if state =? 6 then Some _state6_send_request4
  else if state =? 7 then Some _state7_send_request5
  else if state =? 8 then Some _state8_send_request6
  else if state =? 9 then Some _state9_send_request7
  else if state =? 10 then Some _state10_send_request8
  else if state =? 11 then Some _state11_send_request9
  else if state =? 12 then Some _state12_send_request10
  else if state =? 13 then Some _state13_send_request11
  else if state =? 14 then Some _state14_send_request12
  else if state =? 15 then Some _state15_send_request13
  else None.

(** One turn of the loop body of [poll]: log the state, run its action. *)
Definition poll_step : M unit :=
  let! self := get_self in
  let action := state_actions (_state self) in
  setattr state_action_list := state_action_list self ++ [_state self] ;;;
  match action with
  | Some run => run
  | None => setattr _state := 0
  end.

(** [while self._state != 0: ...], with fuel bounding the number of turns. *)
Fixpoint poll_loop (fuel : nat) : M unit :=
  let! self := get_self in
  if _state self =? 0 then ret tt
  else
    match fuel with
    | O => lift OutOfFuel
    | S fuel' => poll_step ;;; poll_loop fuel'
    end.

(** [poll]. *)
Definition poll (fuel : nat) : M unit :=
  let! self := get_self in
  if negb (_state self =? 0) then ret tt
  else
    setattr _state := 1 ;;;
    setattr current_tower := 0 ;;;
    setattr state_action_list := [] ;;;
    _connect ;;;
    poll_loop fuel ;;;
    _close ;;;
    setattr _state := 0.

End Protocol.

(** A number of loop turns no cycle exceeds: at most 15 towers, at most 11
    states per tower, and three states before the first tower. *)
Definition poll_fuel : nat := 256.

(** ** Frames and scripted peers for the examples *)

(** A body followed by its CRC, low byte first, as the device sends it. *)
Definition add_crc (body : Py.bytes) : Py.bytes :=
  body ++ [Py.byte_of_Z (CRC16 body mod 256); Py.byte_of_Z (CRC16 body / 256)].

(** A reply to a register read: unit 1, function 3, byte count, payload. *)
Definition read_reply (payload : list Z) : Py.bytes :=
  add_crc (Py.bytes_of ([1; 3; Py.len payload] ++ payload)).

(** The acknowledgement of a register write: unit 1, function 16, start
    address and register count. *)
Definition write_ack : Py.bytes := add_crc (Py.bytes_of [1; 16; 5; 80; 0; 2]).

(** The shortest frame with function code 16: header and CRC only. *)
Definition short_ack : Py.bytes := add_crc (Py.bytes_of [1; 16; 0]).

(** An identity reply of 41 bytes: a 19-character serial whose third
    character is the hardware type, and the packed towers/modules byte at
    offset 36. *)
Definition identity_reply (hardware_type packed : Z) : Py.bytes :=
  read_reply ([80; 48; hardware_type] ++ repeat 48 16 ++ repeat 0 14
              ++ [packed] ++ repeat 0 2).

(** A status reply of 47 bytes, all readings zero. *)
Definition status_reply : Py.bytes := read_reply (repeat 0 42).

(** A battery-info reply: inverter type 0 and the given battery type. *)
Definition battery_info_reply (batt_type : Z) : Py.bytes :=
  read_reply [0; 0; batt_type; 0; 0; 0].

(** A measurement-status reply (one register). *)
Definition measurement_status_reply : Py.bytes := read_reply [0; 0].

(** A cell block reply to the 65-register read: 130 payload bytes, 135 in
    all. *)
Definition cell_reply : Py.bytes := read_reply (repeat 0 130).

(** A peer that accepts the connection and every write, and answers the
    k-th read with the k-th reply of the list (then stays silent). *)
Definition script (replies : list Py.bytes) : Env := {|
  env_connect := ConnectOk;
  env_send := fun _ => SendOk;
  env_recv := fun k =>
    match replies !! k with
    | Some d => RecvData d
    | None => RecvTimeoutError
    end;
  env_close := CloseOk
|}.


(** A peer that accepts the connection and resets it during the first
    read: the read fails, and [wait_closed] re-raises the reset. *)
Definition connection_reset : Env := {|
  env_connect := ConnectOk;
  env_send := fun _ => SendOk;
  env_recv := fun _ => RecvOSError;
  env_close := CloseConnectionResetError
|}.

(** An HVS tower of two modules answering every request in full. *)
Definition hvs_two_modules : Env :=
  script [ identity_reply 51 18; status_reply; battery_info_reply 2;
           write_ack; measurement_status_reply;
           cell_reply; cell_reply; cell_reply; cell_reply ].

(** The same dialogue, except that the first cell block request is answered
    with the five-byte frame. *)
Definition hvs_short_block : Env :=
  script [ identity_reply 51 18; status_reply; battery_info_reply 2;
           write_ack; measurement_status_reply; short_ack ].


(** A fresh object whose single tower has been allocated by state 2 and
    whose cell target is 8. *)
Definition one_tower_eight_cells : BYDHVS :=
  (__init__ "192.168.16.254" 8080)
    <| hvs_towers := 1 |> <| hvs_modules := 1 |>
    <| hvs_num_cells := 8 |> <| hvs_num_temps := 4 |>
    <| tower_attributes :=
         [ <["cell_temperatures" := PList []]>
             (<["cell_voltages" := PList []]> ∅) ] |>.

(** The list stored under a key of a tower's dictionary. *)
Definition tower_list (self : BYDHVS) (tower : nat) (key : string) : option (list Z) :=
  match tower_attributes self !! tower with
  | Some d =>
      match d !! key with
      | Some (PList l) => Some l
      | _ => None
      end
  | None => None
  end.

(** The byte value at a position known to be in range (0 otherwise). *)
Definition peek (data : Py.bytes) (i : Z) : Z :=
  Py.byte_val (nth (Z.to_nat i) data "000"%byte).

(** Exceptions of the transport layer, as opposed to those a decoder can
    raise on a buffer it cannot index. *)
Definition transport_exn (e : exn) : bool :=
  match e with
  | BYDHVSTimeoutError => true
  | BYDHVSConnectionError => true
  | ConnectionResetError => true
  | BrokenPipeError => true
  | OSError => true
  | _ => false
  end.

(** ** Vocabulary of the proofs *)

(** The shape shared by the fourteen state handlers: send, receive, test
    [data and self._check_packet(data)], then either the state's own
    continuation on the valid buffer or [self._state = 0]. Each handler is
    this combinator at its request and continuation, by unfolding. *)
Definition exchange (E : Env) (send : M unit) (on_valid : Py.bytes -> M unit) : M unit :=
  send ;;;
  let! data := _receive_response E in
  let! checked := data_and_check_packet data in
  match checked with
  | Some data => on_valid data
  | None => setattr _state := 0
  end.

(** A sending step: it returns normally, touches nothing in the world but
    the list of written requests, and leaves the object alone or sets
    [_state] to 0. *)
Definition send_like (send : M unit) : Prop :=
  forall (self : BYDHVS) (w : World),
  exists sent,
    send (self, w) = (Ok tt, (self, w <| w_sent := sent |>))
    \/ send (self, w) = (Ok tt, (self <| _state := 0 |>, w <| w_sent := sent |>)).

(** The buffer a state goes on to decode, given what [_receive_response]
    returned. *)
Definition accepted (data : option Py.bytes) : option Py.bytes :=
  match data with
  | Some (b :: rest) =>
      match _check_packet (b :: rest) with
      | Ok true => Some (b :: rest)
      | _ => None
      end
  | _ => None
  end.

(** What [_receive_response] will return in a given state of the object and
    the world. *)
Definition next_reply (E : Env) (self : BYDHVS) (w : World) : option Py.bytes :=
  match _reader self with
  | Some _ =>
      match env_recv E (w_reads w) with
      | RecvData data => Some data
      | _ => None
      end
  | None => None
  end.

(** A result that is a value or an exception a decoder can raise. *)
Definition clean {A} (r : res A) : Prop :=
  match r with
  | Ok _ => True
  | Raise e => transport_exn e = false
  | OutOfFuel => False
  end.








(** The attributes no snapshot decoder assigns: the streams, the state
    machine's variables and the tower list. *)
Definition session (self : BYDHVS) :
  option stream * option stream * Z * Z * list Z * list (gmap string pyval) :=
  (_reader self, _writer self, _state self, current_tower self,
   state_action_list self, tower_attributes self).

(** What the identity reply fixes for the rest of the cycle. *)
Definition layout (self : BYDHVS) : Z * Z * string :=
  (hvs_modules self, hvs_towers self, hvs_batt_type_from_serial self).

(** The cell and temperature targets. *)
Definition targets (self : BYDHVS) : Z * Z :=
  (hvs_num_cells self, hvs_num_temps self).

(** Cells and temperature sensors per module, as [_parse_packet2] resolves
    them from the serial hint and the battery type code. *)
Definition per_module (hint : string) (batt_type : Z) : Z * Z :=
  if String.eqb hint "LVS" then (8, 4)
  else match batt_type_map batt_type with
       | Some (_, cells, temps) => (cells, temps)
       | None => (0, 0)
       end.

(** The state machine is in [state] with tower 0 current, a reader at hand
    and [trace] as the states visited so far. *)
Definition running (self : BYDHVS) (state : Z) (trace : list Z) : Prop :=
  _state self = state
  /\ state_action_list self = trace
  /\ current_tower self = 0
  /\ exists r, _reader self = Some r.

(** The tower list is a single dictionary holding the two sequences. *)
Definition single_tower (self : BYDHVS) : Prop :=
  exists d vs ts,
    tower_attributes self = [d]
    /\ d !! "cell_voltages" = Some (PList vs)
    /\ d !! "cell_temperatures" = Some (PList ts).

(** One tower of two modules without an LVS hint, its dictionary allocated. *)
Definition one_tower_two_modules (self : BYDHVS) : Prop :=
  hvs_modules self = 2
  /\ hvs_towers self = 1
  /\ hvs_batt_type_from_serial self <> "LVS"%string
  /\ single_tower self.

(** The targets of two HVS modules. *)
Definition two_hvs_modules_targets (self : BYDHVS) : Prop :=
  hvs_num_cells self = 64 /\ hvs_num_temps self = 24.


(** ** Vocabulary of the further properties *)

(** [P] holds for the [n] integers from [start] on; used to check a
    property of every 16-bit value by computation. *)
Fixpoint forall_from (n : nat) (start : Z) (P : Z -> bool) : bool :=
  match n with
  | O => true
  | S n' => P start && forall_from n' (start + 1) P
  end.

(** The inverse of [Crcmod.shift_bit] on 16-bit values: bit 15 of the
    result tells whether the polynomial was applied. *)
Definition unshift_bit (y : Z) : Z :=
  if Z.testbit y 15 then Z.shiftl (Z.lxor y 0xA001) 1 + 1 else Z.shiftl y 1.
(** * Properties *)

(** ** Python sequences *)

Lemma byte_val_range (b : byte) : 0 <= Py.byte_val b < 256.
Proof.
  unfold Py.byte_val. pose proof (Byte.to_N_bounded b). lia.
Qed.

Lemma peek_range (data : Py.bytes) (i : Z) : 0 <= peek data i < 256.
Proof. apply byte_val_range. Qed.

Lemma getitem_in_range {A} (l : list A) (i : Z) (d : A) :
  0 <= i < Py.len l -> Py.getitem l i = Ok (nth (Z.to_nat i) l d).
Proof.
  intros Hi. unfold Py.getitem, Py.len in *.
  destruct (i <? 0) eqn:Hneg; [lia|].
  rewrite Hneg.
  destruct (l !! Z.to_nat i) as [x|] eqn:Hl.
  - f_equal. symmetry. apply nth_lookup_Some with (d := d) in Hl. exact Hl.
  - apply lookup_ge_None in Hl. lia.
Qed.

Lemma getitem_past_end {A} (l : list A) (i : Z) :
  Py.len l <= i -> Py.getitem l i = Raise IndexError.
Proof.
  intros Hi. unfold Py.getitem, Py.len in *.
  destruct (i <? 0) eqn:Hneg; [lia|].
  rewrite Hneg.
  destruct (l !! Z.to_nat i) as [x|] eqn:Hl; [|reflexivity].
  apply lookup_lt_Some in Hl. lia.
Qed.

Lemma read_byte_in_range (data : Py.bytes) (i : Z) :
  0 <= i < Py.len data -> read_byte data i = Ok (peek data i).
Proof.
  intros Hi. unfold read_byte, peek.
  rewrite (getitem_in_range data i "000"%byte Hi). reflexivity.
Qed.

Lemma read_byte_ok_inv (data : Py.bytes) (i v : Z) :
  0 <= i -> read_byte data i = Ok v -> i < Py.len data /\ v = peek data i.
Proof.
  intros Hi H.
  destruct (Z_lt_le_dec i (Py.len data)) as [Hlt|Hge].
  - rewrite read_byte_in_range in H by lia. split; [lia|congruence].
  - unfold read_byte in H. rewrite getitem_past_end in H by lia. discriminate.
Qed.

Lemma buf2int32_us_in_range (data : Py.bytes) (pos : Z) :
  0 <= pos -> pos + 4 <= Py.len data ->
  _buf2int32_us data pos =
    Ok (peek data (pos + 2) * 16777216 + peek data (pos + 3) * 65536
        + peek data pos * 256 + peek data (pos + 1)).
Proof.
  intros H0 H4. unfold _buf2int32_us.
  rewrite !read_byte_in_range by lia. reflexivity.
Qed.

(** ** The CRC of crcmod

    The model of the 'modbus' CRC gives the catalogued check value 0x4B37 on
    the ASCII digits 1 to 9, and every request of the class, which carries
    its own checksum, has CRC zero over the whole frame. *)

Lemma crc16_check_value :
  CRC16 (list_byte_of_string "123456789") = 19255.
Proof. vm_compute. reflexivity. Qed.

Lemma requests_carry_their_crc :
  Forall (fun r => CRC16 (_requests r) = 0)
    [ read_serial_number; read_status_information; read_battery_info;
      start_measure_box_1; read_measurement_status; read_cell_volt_temp;
      switch_pass; start_measure_box_2; start_measure_box_3;
      EVT_MSG_0_0; EVT_MSG_0_1; EVT_MSG_0_2; EVT_MSG_0_3 ].
Proof. repeat constructor; vm_compute; reflexivity. Qed.

(** ** Packet validation *)

(** C1. [_check_packet] never raises, and it accepts a buffer exactly when
    the buffer has at least five bytes, starts with unit id 1, carries
    function code 3 with [d[2] + 5 = len(d)] or function code 16 (with no
    condition on the length), and has CRC-16/MODBUS zero over the whole
    buffer. Every other buffer is rejected. *)
Theorem check_packet_accepts_iff (d : Py.bytes) :
  (_check_packet d = Ok true <->
     5 <= Py.len d /\
     read_byte d 0 = Ok 1 /\
     ((read_byte d 1 = Ok 3 /\ exists n, read_byte d 2 = Ok n /\ n + 5 = Py.len d)
      \/ read_byte d 1 = Ok 16) /\
     CRC16 d = 0)
  /\ (_check_packet d = Ok true \/ _check_packet d = Ok false).
Proof.
  unfold _check_packet.
  destruct (Py.len d <? 5) eqn:Hlen.
  - split; [|right; reflexivity].
    split; [discriminate|]. intros (H & _). lia.
  - assert (Hl : 5 <= Py.len d) by lia.
    rewrite !read_byte_in_range by lia. cbn [res_bind].
    destruct (peek d 0 =? 1) eqn:H0; cbn [negb].
    + destruct (peek d 1 =? 3) eqn:H1.
      * destruct (peek d 2 + 5 =? Py.len d) eqn:H2; cbn [negb].
        -- destruct (CRC16 d =? 0) eqn:Hc.
           ++ split; [|left; reflexivity].
              split; [intros _|reflexivity].
              repeat split; try lia; try (f_equal; lia).
              left. split; [f_equal; lia|].
              exists (peek d 2). split; [reflexivity|lia].
           ++ split; [|right; reflexivity].
              split; [discriminate|]. intros (_ & _ & _ & Hcrc). lia.
        -- split; [|right; reflexivity].
           split; [discriminate|].
           intros (_ & _ & [[_ (n & Hn & Hsum)]|H16] & _).
           ++ injection Hn as <-. lia.
           ++ injection H16 as H16. lia.
      * destruct (peek d 1 =? 16) eqn:H16; cbn [negb].
        -- destruct (CRC16 d =? 0) eqn:Hc.
           ++ split; [|left; reflexivity].
              split; [intros _|reflexivity].
              repeat split; try lia; try (f_equal; lia).
              right. f_equal. lia.
           ++ split; [|right; reflexivity].
              split; [discriminate|]. intros (_ & _ & _ & Hcrc). lia.
        -- split; [|right; reflexivity].
           split; [discriminate|].
           intros (_ & _ & [[H3 _]|H16'] & _).
           ++ injection H3 as H3. lia.
           ++ injection H16' as H16'. lia.
    + split; [|right; reflexivity].
      split; [discriminate|]. intros (_ & H1 & _).
      injection H1 as H1. lia.
Qed.

(** ** The 32-bit field decoder *)

(** C6. With four bytes available from [pos], [_buf2int32_us] returns
    [data[pos+2]*2^24 + data[pos+3]*2^16 + data[pos]*2^8 + data[pos+1]],
    a value below [2^32]; on the buffer 01 02 03 04 this is neither the
    big-endian nor the little-endian reading. *)
Theorem buf2int32_us_permutation (data : Py.bytes) (pos : Z) :
  0 <= pos -> pos + 4 <= Py.len data ->
  (exists b0 b1 b2 b3,
      read_byte data pos = Ok b0 /\ read_byte data (pos + 1) = Ok b1 /\
      read_byte data (pos + 2) = Ok b2 /\ read_byte data (pos + 3) = Ok b3 /\
      _buf2int32_us data pos = Ok (b2 * 2 ^ 24 + b3 * 2 ^ 16 + b0 * 2 ^ 8 + b1) /\
      0 <= b2 * 2 ^ 24 + b3 * 2 ^ 16 + b0 * 2 ^ 8 + b1 < 2 ^ 32)
  /\ _buf2int32_us (Py.bytes_of [1; 2; 3; 4]) 0 = Ok 50594050
  /\ Py.int_from_bytes_big (Py.bytes_of [1; 2; 3; 4]) = 16909060
  /\ Py.int_from_bytes_big (rev (Py.bytes_of [1; 2; 3; 4])) = 67305985.
Proof.
  intros H0 H4. split; [|repeat split; reflexivity].
  exists (peek data pos), (peek data (pos + 1)),
         (peek data (pos + 2)), (peek data (pos + 3)).
  rewrite !read_byte_in_range by lia.
  rewrite buf2int32_us_in_range by lia.
  pose proof (peek_range data pos).
  pose proof (peek_range data (pos + 1)).
  pose proof (peek_range data (pos + 2)).
  pose proof (peek_range data (pos + 3)).
  repeat split; try reflexivity; lia.
Qed.

Lemma buf2int32_us_permutation_witness :
  exists v, _buf2int32_us (Py.bytes_of [0; 0; 0; 7; 208; 0; 0]) 3 = Ok v /\ v = 2000.
Proof.
  destruct (buf2int32_us_permutation (Py.bytes_of [0; 0; 0; 7; 208; 0; 0]) 3)
    as [(b0 & b1 & b2 & b3 & H0 & H1 & H2 & H3 & Hv & _) _].
  - lia.
  - vm_compute. discriminate.
  - exists (b2 * 2 ^ 24 + b3 * 2 ^ 16 + b0 * 2 ^ 8 + b1). split; [exact Hv|].
    vm_compute in H0, H1, H2, H3.
    injection H0 as <-. injection H1 as <-. injection H2 as <-. injection H3 as <-.
    reflexivity.
Defined.

(** ** The entry guard of [poll] *)

(** C8. Called while [_state] is not 0, [poll] returns at once and leaves
    the object (state variable, tower index, trace, tower list and every
    snapshot attribute) and the world exactly as they were. *)
Theorem poll_while_running_is_noop (E : Env) (fuel : nat) (self : BYDHVS) (w : World) :
  _state self <> 0 ->
  poll E fuel (self, w) = (Ok tt, (self, w)).
Proof.
  intros Hrun. unfold poll, bind, get_self. cbn [fst snd].
  destruct (_state self =? 0) eqn:H0; [lia|]. reflexivity.
Qed.

Lemma poll_while_running_is_noop_witness :
  poll hvs_two_modules poll_fuel
       ((__init__ "192.168.16.254" 8080) <| _state := 7 |>, world0)
  = (Ok tt, ((__init__ "192.168.16.254" 8080) <| _state := 7 |>, world0)).
Proof.
  apply (poll_while_running_is_noop hvs_two_modules poll_fuel
           ((__init__ "192.168.16.254" 8080) <| _state := 7 |>) world0).
  cbn. discriminate.
Defined.

(** ** Validation does not bound what the decoders index *)

(** C10. The five-byte frame 01 10 00 + CRC passes [_check_packet], yet
    [_parse_packet5] raises [IndexError] on it (its first indexed byte is
    [data[9]]); delivered in state 7 of an otherwise complete dialogue, the
    exception leaves [poll] with [_state] still 7 and the connection open. *)
Theorem validated_frame_can_fault_decoder :
  exists d : Py.bytes,
    Py.len d = 5 /\ read_byte d 1 = Ok 16 /\
    _check_packet d = Ok true /\
    read_byte d 9 = Raise IndexError /\
    fst (_parse_packet5 d 0 (one_tower_eight_cells, world0)) = Raise IndexError /\
    env_recv hvs_short_block 5 = RecvData d /\
    let run := poll hvs_short_block poll_fuel (__init__ "192.168.16.254" 8080, world0) in
    fst run = Raise IndexError /\
    _state (fst (snd run)) = 7 /\
    state_action_list (fst (snd run)) = [2; 3; 4; 5; 6; 7] /\
    last (w_decoded (snd (snd run))) = Some (5, d) /\
    w_open (snd (snd run)) = {[ 0%nat ]}.
Proof.
  exists short_ack. vm_compute. repeat split; reflexivity.
Qed.

(** ** The temperature sequence can outgrow its cap *)

(** C5, evaluated where the code departs from it. An HVS tower of two
    modules: the counts are 64 cells and 24 temperatures, below the caps of
    160 and 64, and every reply is the full 135-byte block. State 9 stores
    the 24 temperatures; in state 10 [_parse_packet8] computes
    [max_temps = min(24 - 30, 34) = -6] and takes [data[5:-1]], 129 bytes,
    so the tower ends the cycle with 153 temperature readings. *)
Theorem temperatures_exceed_cap_on_two_hvs_modules :
  let run := poll hvs_two_modules poll_fuel (__init__ "192.168.16.254" 8080, world0) in
  fst run = Ok tt /\
  hvs_num_cells (fst (snd run)) = 64 /\
  hvs_num_temps (fst (snd run)) = 24 /\
  state_action_list (fst (snd run)) = [2; 3; 4; 5; 6; 7; 8; 9; 10] /\
  (length <$> tower_list (fst (snd run)) 0 "cell_voltages") = Some 64%nat /\
  (length <$> tower_list (fst (snd run)) 0 "cell_temperatures") = Some 153%nat /\
  Py.len (Py.slice cell_reply 5 (5 + Z.min (24 - 30) 34)) = 129 /\
  MAX_TEMPS < 153.
Proof.
  vm_compute. repeat split; reflexivity.
Qed.

(** ** Counterexamples to the claims that need amending *)


(** It fails after a connection as well: when the peer resets the
    connection, the failed read is caught, but [wait_closed] re-raises the
    reset out of [poll], and reader and writer are not cleared. *)
Lemma connection_reset_escapes_poll :
  let run := poll connection_reset poll_fuel (__init__ "192.168.16.254" 8080, world0) in
  fst run = Raise ConnectionResetError /\
  _reader (fst (snd run)) = Some (Stream 0) /\
  _writer (fst (snd run)) = Some (Stream 0) /\
  state_action_list (fst (snd run)) = [2].
Proof.
  vm_compute. repeat split; reflexivity.
Qed.


(** C9 as stated fails: every reply below passes [_check_packet], the
    identity reply declares one tower of two modules and the battery-info
    reply type 2, but the reply of state 7 is the five-byte frame; the cycle
    then ends in [IndexError] with [_state] 7, and states 8 to 10 are never
    visited. *)
Lemma valid_replies_do_not_complete_cycle :
  let replies := [ identity_reply 51 18; status_reply; battery_info_reply 2;
                   write_ack; measurement_status_reply; short_ack ] in
  let run := poll (script replies) poll_fuel (__init__ "192.168.16.254" 8080, world0) in
  Forall (fun d => _check_packet d = Ok true) replies /\
  read_byte (identity_reply 51 18) 36 = Ok (1 * 16 + 2) /\
  read_byte (battery_info_reply 2) 5 = Ok 2 /\
  fst run = Raise IndexError /\
  _state (fst (snd run)) = 7 /\
  state_action_list (fst (snd run)) = [2; 3; 4; 5; 6; 7] /\
  hvs_num_cells (fst (snd run)) = 64.
Proof.
  cbv zeta. split.
  - repeat constructor; vm_compute; reflexivity.
  - vm_compute. repeat split; reflexivity.
Qed.

(** ** Running the monad *)

(** Unfolds the monadic plumbing of a computation applied to a state. *)
Ltac mrun :=
  cbv [bind ret raise lift get_self set_self get_world set_world fst snd
       tower_ref tower_set tower_get tower_extend log_decoder byte_at sleep].


Lemma getitem_lookup {A} (l : list A) (i : Z) (x : A) :
  0 <= i -> l !! Z.to_nat i = Some x -> Py.getitem l i = Ok x.
Proof.
  intros Hi Hl. unfold Py.getitem.
  destruct (i <? 0) eqn:Hneg; [lia|]. rewrite Hneg, Hl. reflexivity.
Qed.

Lemma check_packet_total (d : Py.bytes) :
  _check_packet d = Ok true \/ _check_packet d = Ok false.
Proof.
  unfold _check_packet.
  destruct (Py.len d <? 5) eqn:Hlen; [right; reflexivity|].
  rewrite !read_byte_in_range by lia. cbn [res_bind].
  repeat match goal with
         | |- context [if ?b then _ else _] => destruct b
         end; auto; destruct (CRC16 d =? 0); auto.
Qed.

(** ** Sending, receiving and checking *)

Lemma world_sent_same (w : World) : w <| w_sent := w_sent w |> = w.
Proof. destruct w. reflexivity. Qed.

Lemma send_request_send_like (E : Env) (request : Py.bytes) :
  send_like (_send_request E request).
Proof.
  intros self w. unfold _send_request. mrun.
  destruct (_writer self).
  - exists (w_sent w ++ [request]).
    destruct (env_send E (length (w_sent w))); [left|right]; reflexivity.
  - exists (w_sent w). left. rewrite world_sent_same. reflexivity.
Qed.

Lemma send_start_measurement_send_like (E : Env) :
  send_like (send_start_measurement E).
Proof.
  intros self w. unfold send_start_measurement.
  cbv [bind get_self fst snd].
  destruct (current_tower self =? 0); [apply send_request_send_like|].
  destruct (current_tower self =? 1); [apply send_request_send_like|].
  destruct (current_tower self =? 2); [apply send_request_send_like|].
  exists (w_sent w). left. rewrite world_sent_same. reflexivity.
Qed.

(** [_receive_response] returns [next_reply]; it counts the read when there
    is a reader, and sets [_state] to 0 when the read fails. *)
Lemma receive_response_run (E : Env) (self : BYDHVS) (w : World) :
  exists self' w',
    _receive_response E (self, w) = (Ok (next_reply E self w), (self', w'))
    /\ (self' = self \/ (self' = self <| _state := 0 |> /\ next_reply E self w = None))
    /\ w' = w <| w_reads := w_reads w' |>
    /\ (forall r, _reader self = Some r -> w_reads w' = S (w_reads w)).
Proof.
  unfold _receive_response, next_reply. mrun.
  destruct (_reader self) as [r|].
  - destruct (env_recv E (w_reads w));
      eexists; eexists; (split; [reflexivity|]);
      (split; [first [left; reflexivity | right; split; reflexivity]|]);
      split; try reflexivity; intros; reflexivity.
  - exists self, w. split; [reflexivity|]. split; [left; reflexivity|].
    split; [destruct w; reflexivity|]. intros r Hr. discriminate.
Qed.

(** [data_and_check_packet] returns [accepted] and changes nothing. *)
Lemma data_and_check_packet_run (data : option Py.bytes) (s : St) :
  data_and_check_packet data s = (Ok (accepted data), s).
Proof.
  unfold data_and_check_packet, accepted.
  destruct data as [[|b rest]|]; try reflexivity.
  mrun. destruct (check_packet_total (b :: rest)) as [H|H]; rewrite H; reflexivity.
Qed.

Lemma accepted_Some (data : option Py.bytes) (d : Py.bytes) :
  accepted data = Some d -> data = Some d /\ d <> [] /\ _check_packet d = Ok true.
Proof.
  unfold accepted. destruct data as [[|b rest]|]; try discriminate.
  destruct (_check_packet (b :: rest)) as [[|]| |] eqn:H; try discriminate.
  intros [= <-]. repeat split; [discriminate|exact H].
Qed.

Lemma accepted_valid (d : Py.bytes) :
  d <> [] -> _check_packet d = Ok true -> accepted (Some d) = Some d.
Proof.
  intros Hne Hv. unfold accepted. destruct d; [congruence|]. rewrite Hv. reflexivity.
Qed.

(** A rejected reply: the handler ends with [_state] 0, the object is
    otherwise untouched and no decoder has been entered. *)
Lemma exchange_rejected (E : Env) (send : M unit) (on_valid : Py.bytes -> M unit)
      (self : BYDHVS) (w : World) :
  send_like send ->
  accepted (next_reply E self w) = None ->
  exists w',
    exchange E send on_valid (self, w) = (Ok tt, (self <| _state := 0 |>, w'))
    /\ w_decoded w' = w_decoded w /\ w_open w' = w_open w
    /\ w_opened w' = w_opened w /\ w_sleeps w' = w_sleeps w.
Proof.
  intros Hsend Hrej. unfold exchange.
  destruct (Hsend self w) as (sent & [Hs|Hs]);
    cbv [bind]; rewrite Hs.
  - destruct (receive_response_run E self (w <| w_sent := sent |>))
      as (self' & w' & Hr & Hself & Hw & _).
    change (next_reply E self (w <| w_sent := sent |>)) with (next_reply E self w) in Hr.
    rewrite Hr, data_and_check_packet_run, Hrej.
    exists w'. split.
    + destruct Hself as [->|[-> _]]; reflexivity.
    + rewrite Hw. repeat split.
  - destruct (receive_response_run E (self <| _state := 0 |>) (w <| w_sent := sent |>))
      as (self' & w' & Hr & Hself & Hw & _).
    change (next_reply E (self <| _state := 0 |>) (w <| w_sent := sent |>))
      with (next_reply E self w) in Hr.
    rewrite Hr, data_and_check_packet_run, Hrej.
    exists w'. split.
    + destruct Hself as [->|[-> _]]; reflexivity.
    + rewrite Hw. repeat split.
Qed.

(** An accepted reply: the handler continues with the state's own code on
    the buffer, from an object that differs from the initial one at most in
    [_state] (0 after a failed write) and a world with one more read. *)
Lemma exchange_accepted (E : Env) (send : M unit) (on_valid : Py.bytes -> M unit)
      (self : BYDHVS) (w : World) (d : Py.bytes) :
  send_like send ->
  accepted (next_reply E self w) = Some d ->
  exists self1 w1,
    exchange E send on_valid (self, w) = on_valid d (self1, w1)
    /\ (self1 = self \/ self1 = self <| _state := 0 |>)
    /\ w_reads w1 = S (w_reads w)
    /\ w_decoded w1 = w_decoded w /\ w_open w1 = w_open w
    /\ w_opened w1 = w_opened w /\ w_sleeps w1 = w_sleeps w.
Proof.
  intros Hsend Hacc. unfold exchange.
  assert (Hreader : exists r, _reader self = Some r).
  { unfold next_reply in Hacc. destruct (_reader self) as [r|]; [eauto|].
    discriminate. }
  destruct Hreader as [r Hreader].
  destruct (Hsend self w) as (sent & [Hs|Hs]);
    cbv [bind]; rewrite Hs.
  - destruct (receive_response_run E self (w <| w_sent := sent |>))
      as (self' & w' & Hr & Hself & Hw & Hn).
    change (next_reply E self (w <| w_sent := sent |>)) with (next_reply E self w) in Hr, Hself.
    rewrite Hr, data_and_check_packet_run, Hacc.
    exists self', w'. split; [reflexivity|].
    split.
    { destruct Hself as [->|[_ Hnone]]; [left; reflexivity|].
      rewrite Hnone in Hacc. discriminate. }
    split; [exact (Hn r Hreader)|].
    rewrite Hw. repeat split.
  - destruct (receive_response_run E (self <| _state := 0 |>) (w <| w_sent := sent |>))
      as (self' & w' & Hr & Hself & Hw & Hn).
    change (next_reply E (self <| _state := 0 |>) (w <| w_sent := sent |>))
      with (next_reply E self w) in Hr, Hself.
    rewrite Hr, data_and_check_packet_run, Hacc.
    exists self', w'. split; [reflexivity|].
    split.
    { destruct Hself as [->|[_ Hnone]]; [right; reflexivity|].
      rewrite Hnone in Hacc. discriminate. }
    split; [exact (Hn r Hreader)|].
    rewrite Hw. repeat split.
Qed.

(** Every state from 2 to 15 is handled by an exchange. *)
Lemma state_actions_exchange (E : Env) (state : Z) :
  2 <= state <= 15 ->
  exists send on_valid,
    send_like send /\ state_actions E state = Some (exchange E send on_valid).
Proof.
  intros Hs.
  assert (Hcases : state = 2 \/ state = 3 \/ state = 4 \/ state = 5 \/ state = 6
                   \/ state = 7 \/ state = 8 \/ state = 9 \/ state = 10
                   \/ state = 11 \/ state = 12 \/ state = 13 \/ state = 14
                   \/ state = 15) by lia.
  repeat (destruct Hcases as [->|Hcases]); [..|subst state];
    (eexists; eexists; split; [|reflexivity]);
    first [apply send_request_send_like | apply send_start_measurement_send_like].
Qed.

(** ** An invalid reply ends the cycle *)

(** C2. In every state from 2 to 15, when the reply is absent, empty or
    fails [_check_packet], the loop logs the state, sets [_state] to 0 and
    stops: the trace ends with that state's number, nothing else in the
    object changes, and the log of decoder calls is as it was, so no decoder
    ran on the buffer. *)
Theorem invalid_reply_ends_cycle (E : Env) (fuel : nat) (self : BYDHVS) (w : World) :
  2 <= _state self <= 15 ->
  accepted (next_reply E self w) = None ->
  exists w',
    poll_loop E (S fuel) (self, w)
    = (Ok tt,
       (self <| state_action_list := state_action_list self ++ [_state self] |>
             <| _state := 0 |>, w'))
    /\ last (state_action_list self ++ [_state self]) = Some (_state self)
    /\ w_decoded w' = w_decoded w.
Proof.
  intros Hstate Hrej.
  destruct (state_actions_exchange E (_state self) Hstate)
    as (send & on_valid & Hsend & Hact).
  set (self1 := self <| state_action_list := state_action_list self ++ [_state self] |>).
  destruct (exchange_rejected E send on_valid self1 w Hsend Hrej)
    as (w' & Hrun & Hdec & _).
  exists w'. split; [|split; [apply last_snoc|exact Hdec]].
  cbn [poll_loop]. unfold poll_step. cbv [bind get_self set_self fst snd].
  destruct (_state self =? 0) eqn:H0; [lia|].
  rewrite Hact.
  change (exchange E send on_valid (self1, w)) with (exchange E send on_valid (self1, w)).
  fold self1. rewrite Hrun.
  destruct fuel; reflexivity.
Qed.

Lemma invalid_reply_ends_cycle_witness :
  exists w',
    poll_loop (script [short_ack; Py.bytes_of [1; 3; 0; 0; 0]]) 3
      ((__init__ "192.168.16.254" 8080)
         <| _state := 9 |> <| _reader := Some (Stream 0) |>,
       world0 <| w_reads := 1%nat |>)
    = (Ok tt,
       ((__init__ "192.168.16.254" 8080)
          <| _state := 9 |> <| _reader := Some (Stream 0) |>
          <| state_action_list := [9] |> <| _state := 0 |>, w'))
    /\ w_decoded w' = [].
Proof.
  destruct (invalid_reply_ends_cycle
              (script [short_ack; Py.bytes_of [1; 3; 0; 0; 0]]) 2
              ((__init__ "192.168.16.254" 8080)
                 <| _state := 9 |> <| _reader := Some (Stream 0) |>)
              (world0 <| w_reads := 1%nat |>))
    as (w' & Hrun & _ & Hdec).
  - change (2 <= 9 <= 15). lia.
  - vm_compute. reflexivity.
  - exists w'. split; [exact Hrun|exact Hdec].
Defined.

(** ** What the decoders leave alone *)









Lemma clean_getitem {A} (l : list A) (i : Z) : clean (Py.getitem l i).
Proof.
  unfold Py.getitem.
  destruct (_ <? 0); [reflexivity|]. destruct (l !! _); reflexivity.
Qed.





















(** ** The handlers as exchanges *)

Lemma state2_shape (E : Env) :
  _state2_send_request0 E
  = exchange E (_send_request E (_requests read_serial_number))
      (fun data =>
         _parse_packet0 data ;;;
         let! self := get_self in
         setattr tower_attributes :=
           map (fun _ => ∅)
             (Py.range (if hvs_towers self =? 0 then 1 else hvs_towers self)) ;;;
         setattr tower_attributes ::=
           map (fun tower =>
                  <["cell_temperatures" := PList []]>
                    (<["cell_voltages" := PList []]> tower)) ;;;
         setattr _state := 3).
Proof. reflexivity. Qed.

Lemma state3_shape (E : Env) :
  _state3_send_request1 E
  = exchange E (_send_request E (_requests read_status_information))
      (fun data => _parse_packet1 data ;;; setattr _state := 4).
Proof. reflexivity. Qed.

Lemma state4_shape (E : Env) :
  _state4_send_request2 E
  = exchange E (_send_request E (_requests read_battery_info))
      (fun data =>
         _parse_packet2 data ;;;
         let! self := get_self in
         if (0 <? hvs_num_cells self) && (0 <? hvs_num_temps self)
         then setattr _state := 5
         else setattr _state := 0).
Proof. reflexivity. Qed.

Lemma state5_shape (E : Env) :
  _state5_start_measurement E
  = exchange E (send_start_measurement E) (fun data => sleep ;;; setattr _state := 6).
Proof. reflexivity. Qed.

Lemma state6_shape (E : Env) :
  _state6_send_request4 E
  = exchange E (_send_request E (_requests read_measurement_status))
      (fun data => setattr _state := 7).
Proof. reflexivity. Qed.

Lemma state7_shape (E : Env) :
  _state7_send_request5 E
  = exchange E (_send_request E (_requests read_cell_volt_temp))
      (fun data =>
         let! self := get_self in
         _parse_packet5 data (current_tower self) ;;; setattr _state := 8).
Proof. reflexivity. Qed.

Lemma state8_shape (E : Env) :
  _state8_send_request6 E
  = exchange E (_send_request E (_requests read_cell_volt_temp))
      (fun data =>
         let! self := get_self in
         _parse_packet6 data (current_tower self) ;;; setattr _state := 9).
Proof. reflexivity. Qed.

Lemma state9_shape (E : Env) :
  _state9_send_request7 E
  = exchange E (_send_request E (_requests read_cell_volt_temp))
      (fun data =>
         let! self := get_self in
         _parse_packet7 data (current_tower self) ;;; setattr _state := 10).
Proof. reflexivity. Qed.

Lemma state10_shape (E : Env) :
  _state10_send_request8 E
  = exchange E (_send_request E (_requests read_cell_volt_temp))
      (fun data =>
         let! self := get_self in
         _parse_packet8 data (current_tower self) ;;;
         let! self := get_self in
         if 128 <? hvs_num_cells self then setattr _state := 11
         else next_tower_or_done).
Proof. reflexivity. Qed.

Lemma state11_shape (E : Env) :
  _state11_send_request9 E
  = exchange E (_send_request E (_requests switch_pass))
      (fun data => setattr _state := 12).
Proof. reflexivity. Qed.

Lemma state12_shape (E : Env) :
  _state12_send_request10 E
  = exchange E (send_start_measurement E) (fun data => sleep ;;; setattr _state := 13).
Proof. reflexivity. Qed.

Lemma state13_shape (E : Env) :
  _state13_send_request11 E
  = exchange E (_send_request E (_requests read_measurement_status))
      (fun data => setattr _state := 14).
Proof. reflexivity. Qed.



(** One loop turn, as the action of the state run on the object with the
    state logged. *)
Lemma poll_step_run (E : Env) (self : BYDHVS) (w : World) :
  poll_step E (self, w)
  = match state_actions E (_state self) with
    | Some run =>
        run (self <| state_action_list := state_action_list self ++ [_state self] |>, w)
    | None =>
        (Ok tt,
         (self <| state_action_list := state_action_list self ++ [_state self] |>
               <| _state := 0 |>, w))
    end.
Proof.
  unfold poll_step. cbv [bind get_self set_self fst snd].
  destruct (state_actions E (_state self)); reflexivity.
Qed.

(** Reads an attribute through the updates applied to a record. *)
Ltac proj_step :=
  match goal with
  | |- context [?p (apply_update (mk_update ?g ?t) ?r)] =>
      first [ change (p (apply_update (mk_update g t) r)) with (p r)
            | change (p (apply_update (mk_update g t) r)) with (t (p r)) ]
  | H : context [?p (apply_update (mk_update ?g ?t) ?r)] |- _ =>
      first [ change (p (apply_update (mk_update g t) r)) with (p r) in H
            | change (p (apply_update (mk_update g t) r)) with (t (p r)) in H ]
  end.

Ltac proj_simpl := repeat proj_step; cbv [constant] in *.

(** ** Every cycle ends *)








(** ** The outcome of [poll] *)



(** ** Slices, blocks and renderings *)

Lemma slice_len {A} (l : list A) (lo hi : Z) :
  Py.len (Py.slice l lo hi)
  = Z.max 0 (Py.slice_bound (Py.len l) hi - Py.slice_bound (Py.len l) lo).
Proof.
  unfold Py.slice, Py.len.
  pose proof (Nat2Z.is_nonneg (length l)) as Hn.
  assert (Hlo : 0 <= Py.slice_bound (Z.of_nat (length l)) lo <= Z.of_nat (length l)).
  { unfold Py.slice_bound. destruct (lo <? 0) eqn:H; lia. }
  assert (Hhi : 0 <= Py.slice_bound (Z.of_nat (length l)) hi <= Z.of_nat (length l)).
  { unfold Py.slice_bound. destruct (hi <? 0) eqn:H; lia. }
  rewrite length_take, length_drop. lia.
Qed.


Lemma hex_value_hex_digit (n : Z) :
  0 <= n < 16 -> Py.hex_value (Py.hex_digit n) = Some n.
Proof.
  intros Hn.
  assert (Hk : (Z.to_nat n < 16)%nat) by lia.
  replace n with (Z.of_nat (Z.to_nat n)) by lia.
  revert Hk. generalize (Z.to_nat n) as k. intros k Hk.
  do 16 (destruct k as [|k]; [reflexivity|]). lia.
Qed.

Lemma int_of_hex_from_hex (bs : Py.bytes) (acc : Z) :
  Py.int_of_hex_from acc (Py.hex bs)
  = Ok (fold_left (fun a b => a * 256 + Py.byte_val b) bs acc).
Proof.
  revert acc. induction bs as [|b bs IH]; intros acc; [reflexivity|].
  pose proof (byte_val_range b) as Hb.
  cbn [Py.hex Py.int_of_hex_from fold_left].
  rewrite !hex_value_hex_digit.
  - rewrite IH. do 2 f_equal.
    pose proof (Z.div_mod (Py.byte_val b) 16). lia.
  - apply Z.mod_pos_bound. lia.
  - split; [apply Z.div_pos; lia|apply Z.div_lt_upper_bound; lia].
Qed.

(** [int(bs.hex(), 16)] is the big-endian value of a non-empty [bs]. *)
Lemma int_of_hex_hex (bs : Py.bytes) :
  bs <> [] -> Py.int_of_hex (Py.hex bs) = Ok (Py.int_from_bytes_big bs).
Proof.
  intros Hne. destruct bs as [|b bs]; [congruence|].
  unfold Py.int_of_hex. cbn [Py.hex].
  change (String ?a (String ?c (Py.hex bs))) with (Py.hex (b :: bs)).
  apply int_of_hex_from_hex.
Qed.

Lemma forallb_range (P : Z -> bool) (n : Z) :
  forallb P (Py.range n) = true -> forall x, 0 <= x < n -> P x = true.
Proof.
  intros H x Hx. rewrite forallb_forall in H. apply H.
  unfold Py.range. apply in_map_iff. exists (Z.to_nat x).
  split; [lia|]. apply in_seq. lia.
Qed.

(** The two-byte status rendered by the f-string always parses back. *)
Lemma int_of_str_two_bytes (a b : Z) :
  0 <= a < 256 -> 0 <= b < 256 ->
  exists v, Py.int_of_str (Py.str a +:+ Py.str b) = Ok v.
Proof.
  intros Ha Hb.
  assert (Hall : forallb (fun x =>
                   forallb (fun y =>
                     match Py.int_of_str (Py.str x +:+ Py.str y) with
                     | Ok _ => true
                     | _ => false
                     end) (Py.range 256)) (Py.range 256) = true)
    by (vm_compute; reflexivity).
  pose proof (forallb_range _ _ (forallb_range _ _ Hall a Ha) b Hb) as H.
  cbv beta in H.
  destruct (Py.int_of_str (Py.str a +:+ Py.str b)) as [v| |]; [eauto|discriminate..].
Qed.

Lemma int_truediv_nonzero (a b : Z) :
  b <> 0 ->
  Py.int_truediv a b = Ok (PrimFloat.div (Py.float_of_int a) (Py.float_of_int b)).
Proof. intros Hb. unfold Py.int_truediv. destruct (b =? 0) eqn:H; [lia|reflexivity]. Qed.

(** ** The per-tower dictionaries *)

Lemma alter_as_insert {A} (f : A -> A) (l : list A) (i : nat) (x : A) :
  l !! i = Some x -> alter f i l = <[i := f x]> l.
Proof.
  revert i. induction l as [|y l IH]; intros [|i] H; try discriminate.
  - injection H as ->. reflexivity.
  - cbn in *. f_equal. apply IH. exact H.
Qed.

Lemma insert_insert_list {A} (l : list A) (i : nat) (x y : A) :
  <[i := y]> (<[i := x]> l) = <[i := y]> l.
Proof.
  revert i. induction l as [|z l IH]; intros [|i]; cbn; try reflexivity.
  f_equal. apply IH.
Qed.

Lemma tower_list_insert (self : BYDHVS) (l : list (gmap string pyval)) (i : nat)
      (d : gmap string pyval) (key : string) (v : list Z) :
  (i < length l)%nat -> d !! key = Some (PList v) ->
  tower_list (self <| tower_attributes := <[i := d]> l |>) i key = Some v.
Proof.
  intros Hi Hd. unfold tower_list.
  change (tower_attributes (self <| tower_attributes := <[i := d]> l |>))
    with (<[i := d]> l).
  rewrite list_lookup_insert_eq by exact Hi. rewrite Hd. reflexivity.
Qed.

(** Extending a list stored in the tower's dictionary. *)
Lemma tower_extend_run (self : BYDHVS) (w : World) (tower : nat) (key : string)
      (d : gmap string pyval) (old items : list Z) :
  tower_attributes self !! tower = Some d ->
  d !! key = Some (PList old) ->
  tower_extend tower key items (self, w)
  = (Ok tt,
     (self <| tower_attributes :=
                <[tower := <[key := PList (old ++ items)]> d]> (tower_attributes self) |>,
      w)).
Proof.
  intros Ht Hd. unfold tower_extend, tower_get, tower_set.
  cbv [bind get_self set_self ret fst snd]. rewrite Ht, Hd.
  rewrite <- (alter_as_insert _ _ _ _ Ht). reflexivity.
Qed.

Lemma tower_ref_run (self : BYDHVS) (w : World) (tower_number : Z)
      (d : gmap string pyval) :
  0 <= tower_number ->
  tower_attributes self !! Z.to_nat tower_number = Some d ->
  tower_ref tower_number (self, w) = (Ok (Z.to_nat tower_number), (self, w)).
Proof.
  intros H0 Hd. unfold tower_ref. cbv [bind get_self lift ret fst snd].
  rewrite (getitem_lookup _ _ _ H0 Hd).
  destruct (tower_number <? 0) eqn:Hneg; [lia|]. reflexivity.
Qed.

(** ** The cell-block decoders, run *)

Lemma parse_packet6_run (self : BYDHVS) (w : World) (data : Py.bytes)
      (tower_number : Z) (d : gmap string pyval) (old : list Z) :
  0 <= tower_number ->
  tower_attributes self !! Z.to_nat tower_number = Some d ->
  d !! "cell_voltages" = Some (PList old) ->
  _parse_packet6 data tower_number (self, w)
  = (Ok tt,
     (self <| tower_attributes :=
                <[Z.to_nat tower_number :=
                    <["cell_voltages" :=
                        PList (old ++ cell_block data 5
                                        (Z.min (hvs_num_cells self - 16) 64))]> d]>
                  (tower_attributes self) |>,
      w <| w_decoded := w_decoded w ++ [(6, data)] |>)).
Proof.
  intros H0 Ht Hd. unfold _parse_packet6, log_decoder.
  cbv [bind set_world get_self fst snd].
  rewrite (tower_ref_run _ _ _ d H0 Ht).
  rewrite (tower_extend_run _ _ _ _ d old _ Ht Hd). reflexivity.
Qed.


Lemma parse_packet8_run (self : BYDHVS) (w : World) (data : Py.bytes)
      (tower_number : Z) (d : gmap string pyval) (old : list Z) :
  0 <= tower_number ->
  tower_attributes self !! Z.to_nat tower_number = Some d ->
  d !! "cell_temperatures" = Some (PList old) ->
  _parse_packet8 data tower_number (self, w)
  = (Ok tt,
     (self <| tower_attributes :=
                <[Z.to_nat tower_number :=
                    <["cell_temperatures" :=
                        PList (old ++ map Py.byte_val
                                        (Py.slice data 5
                                           (5 + Z.min (hvs_num_temps self - 30) 34)))]> d]>
                  (tower_attributes self) |>,
      w <| w_decoded := w_decoded w ++ [(8, data)] |>)).
Proof.
  intros H0 Ht Hd. unfold _parse_packet8, log_decoder.
  cbv [bind set_world get_self fst snd].
  rewrite (tower_ref_run _ _ _ d H0 Ht).
  rewrite (tower_extend_run _ _ _ _ d old _ Ht Hd). reflexivity.
Qed.

Lemma parse_packet7_run (self : BYDHVS) (w : World) (data : Py.bytes)
      (tower_number : Z) (d : gmap string pyval) (old : list Z) :
  0 <= tower_number ->
  tower_attributes self !! Z.to_nat tower_number = Some d ->
  d !! "cell_voltages" = Some (PList old) ->
  _parse_packet7 data tower_number (self, w)
  = (Ok tt,
     (self <| tower_attributes :=
                <[Z.to_nat tower_number :=
                    <["cell_temperatures" :=
                        PList (map Py.byte_val
                                 (Py.slice data 103
                                    (103 + Z.min (hvs_num_temps self) 30)))]>
                      (<["cell_voltages" :=
                           PList (old ++ cell_block data 5
                                           (Z.min (hvs_num_cells self - 80) 48))]> d)]>
                  (tower_attributes self) |>,
      w <| w_decoded := w_decoded w ++ [(7, data)] |>)).
Proof.
  intros H0 Ht Hd. unfold _parse_packet7, log_decoder.
  cbv [bind set_world get_self fst snd].
  rewrite (tower_ref_run _ _ _ d H0 Ht).
  rewrite (tower_extend_run _ _ _ _ d old _ Ht Hd).
  unfold tower_set. cbv [set_self fst snd]. proj_simpl.
  assert (Hlt : (Z.to_nat tower_number < length (tower_attributes self))%nat)
    by (apply lookup_lt_Some in Ht; exact Ht).
  f_equal. f_equal.
  match goal with
  | |- ?a = ?b => assert (Hta : tower_attributes a = tower_attributes b)
  end.
  { proj_simpl.
    erewrite alter_as_insert by (apply list_lookup_insert_eq; exact Hlt).
    apply insert_insert_list. }
  proj_simpl. rewrite <- Hta. reflexivity.
Qed.

Lemma parse_packet12_run (self : BYDHVS) (w : World) (data : Py.bytes)
      (tower_number : Z) (d : gmap string pyval) (old : list Z) :
  0 <= tower_number ->
  tower_attributes self !! Z.to_nat tower_number = Some d ->
  d !! "cell_voltages" = Some (PList old) ->
  _parse_packet12 data tower_number (self, w)
  = (Ok tt,
     (self <| tower_attributes :=
                <[Z.to_nat tower_number :=
                    <["cell_voltages" := PList (old ++ cell_block data 101 16)]>
                      (<["balancing_count" :=
                           PInt (Py.bin_count_ones
                                   (Py.int_from_bytes_big (Py.slice data 17 33)))]> d)]>
                  (tower_attributes self) |>,
      w <| w_decoded := w_decoded w ++ [(12, data)] |>)).
Proof.
  intros H0 Ht Hd. unfold _parse_packet12, log_decoder.
  cbv [bind set_world get_self fst snd].
  rewrite (tower_ref_run _ _ _ d H0 Ht).
  unfold tower_set at 1. cbv [set_self fst snd].
  assert (Hlt : (Z.to_nat tower_number < length (tower_attributes self))%nat)
    by (apply lookup_lt_Some in Ht; exact Ht).
  erewrite tower_extend_run.
  - f_equal. f_equal.
    match goal with
    | |- ?a = ?b => assert (Hta : tower_attributes a = tower_attributes b)
    end.
    { proj_simpl. rewrite (alter_as_insert _ _ _ _ Ht).
      apply insert_insert_list. }
    proj_simpl. rewrite <- Hta. reflexivity.
  - proj_simpl. rewrite (alter_as_insert _ _ _ _ Ht).
    apply list_lookup_insert_eq. exact Hlt.
  - rewrite lookup_insert_ne by discriminate. exact Hd.
Qed.

Lemma alter_insert_same {A} (f : A -> A) (l : list A) (i : nat) (x : A) :
  (i < length l)%nat -> alter f i (<[i := x]> l) = <[i := f x]> l.
Proof.
  intros Hi.
  rewrite (alter_as_insert f _ i x) by (apply list_lookup_insert_eq; exact Hi).
  apply insert_insert_list.
Qed.

Lemma towers_only (self self' : BYDHVS) (l : list (gmap string pyval)) :
  self' = self <| tower_attributes := tower_attributes self' |> ->
  tower_attributes self' = l ->
  self' = self <| tower_attributes := l |>.
Proof. intros H <-. exact H. Qed.

(** The successive reads of a decoder on a buffer long enough for them. *)
Ltac read_all :=
  repeat (first [ rewrite read_byte_in_range by lia
                | rewrite buf2int32_us_in_range by lia ];
          cbv beta iota).

(** [_parse_packet5] on a buffer of at least 61 bytes: it succeeds, stores
    exactly the 16 readings at offsets 101 to 132 whatever the targets are,
    leaves the temperatures alone, and derives the efficiency from the two
    totals with the zero guard. *)
Lemma parse_packet5_run (self : BYDHVS) (w : World) (data : Py.bytes)
      (tower_number : Z) (d : gmap string pyval) :
  0 <= tower_number ->
  tower_attributes self !! Z.to_nat tower_number = Some d ->
  61 <= Py.len data ->
  exists (d' : gmap string pyval) (charge discharge : Z),
    _parse_packet5 data tower_number (self, w)
    = (Ok tt,
       (self <| tower_attributes :=
                  <[Z.to_nat tower_number := d']> (tower_attributes self) |>,
        w <| w_decoded := w_decoded w ++ [(5, data)] |>))
    /\ d' !! "cell_voltages" = Some (PList (cell_block data 101 16))
    /\ d' !! "cell_temperatures" = d !! "cell_temperatures"
    /\ _buf2int32_us data 33 = Ok charge
    /\ _buf2int32_us data 37 = Ok discharge
    /\ d' !! "charge_total" = Some (PInt charge)
    /\ d' !! "discharge_total" = Some (PInt discharge)
    /\ d' !! "eta"
       = Some (if charge =? 0 then PInt 0
               else PFloat (PrimFloat.div (Py.float_of_int (100 * discharge))
                              (Py.float_of_int charge))).
Proof.
  intros H0 Ht Hlen.
  assert (Hlt : (Z.to_nat tower_number < length (tower_attributes self))%nat)
    by (apply lookup_lt_Some in Ht; exact Ht).
  assert (Hflags : Py.slice data 17 33 <> []).
  { intros Hnil. pose proof (slice_len data 17 33) as Hl. rewrite Hnil in Hl.
    unfold Py.slice_bound in Hl. cbn [Z.ltb Z.compare] in Hl.
    change (Py.len (@nil byte)) with 0 in Hl. lia. }
  destruct (int_of_str_two_bytes (peek data 59) (peek data 60)
              (peek_range _ _) (peek_range _ _)) as [state_int Hstate].
  rewrite !buf2int32_us_in_range by lia.
  set (charge := peek data (33 + 2) * 16777216 + peek data (33 + 3) * 65536
                 + peek data 33 * 256 + peek data (33 + 1)).
  set (discharge := peek data (37 + 2) * 16777216 + peek data (37 + 3) * 65536
                    + peek data 37 * 256 + peek data (37 + 1)).
  unfold _parse_packet5, log_decoder.
  cbv [bind set_world fst snd].
  rewrite (tower_ref_run _ _ _ d H0 Ht).
  unfold tower_set, byte_at.
  cbv [bind set_self lift ret get_self fst snd].
  read_all.
  rewrite (int_of_hex_hex _ Hflags). cbv beta iota.
  read_all.
  fold charge. fold discharge.
  destruct (charge =? 0) eqn:Hc; cbv [negb]; cbv beta iota;
    rewrite ?int_truediv_nonzero by lia; cbv beta iota;
    read_all; rewrite Hstate; cbv beta iota;
    eexists; exists charge, discharge;
    (split;
     [ f_equal; f_equal; apply towers_only; [reflexivity|];
       proj_simpl;
       rewrite (alter_as_insert _ _ _ _ Ht);
       repeat rewrite alter_insert_same by exact Hlt;
       reflexivity
     | ]);
    repeat match goal with |- _ /\ _ => split end;
    first [ reflexivity
          | rewrite buf2int32_us_in_range by lia; reflexivity
          | rewrite ?Hc;
            repeat (rewrite lookup_insert_ne by discriminate);
            first [apply lookup_insert_eq | reflexivity] ].
Qed.

(** ** The snapshot decoders, run *)

(** Splits on the conditions a computation branches on. *)
Ltac branch_all :=
  repeat match goal with
         | |- context [if ?c then _ else _] => destruct c eqn:?; mrun
         end.

(** [_parse_packet1] on a buffer of at least 45 bytes: it succeeds, leaves
    the session, the layout and the targets alone, and derives the
    efficiency from the two totals with the zero guard. *)
Lemma parse_packet1_run (self : BYDHVS) (w : World) (data : Py.bytes) :
  45 <= Py.len data ->
  exists (self' : BYDHVS) (charge discharge : Z),
    _parse_packet1 data (self, w)
    = (Ok tt, (self', w <| w_decoded := w_decoded w ++ [(1, data)] |>))
    /\ session self' = session self
    /\ layout self' = layout self
    /\ targets self' = targets self
    /\ _buf2int32_us data 37 = Ok charge
    /\ _buf2int32_us data 41 = Ok discharge
    /\ hvs_charge_total self'
       = PrimFloat.div (Py.float_of_int charge) (Py.float_of_int 10)
    /\ hvs_discharge_total self'
       = PrimFloat.div (Py.float_of_int discharge) (Py.float_of_int 10)
    /\ hvs_eta self'
       = if Py.float_truthy (hvs_charge_total self')
         then PFloat (PrimFloat.div (PrimFloat.mul 100 (hvs_discharge_total self'))
                        (hvs_charge_total self'))
         else PInt 0.
Proof.
  intros Hlen.
  unfold _parse_packet1. mrun. read_all.
  rewrite !int_truediv_nonzero by lia. cbv beta iota.
  proj_simpl. unfold Py.truediv, Py.float_truthy.
  set (charge := peek data (37 + 2) * 16777216 + peek data (37 + 3) * 65536
                 + peek data 37 * 256 + peek data (37 + 1)).
  set (discharge := peek data (41 + 2) * 16777216 + peek data (41 + 3) * 65536
                    + peek data 41 * 256 + peek data (41 + 1)).
  destruct (PrimFloat.eqb (PrimFloat.div (Py.float_of_int charge) (Py.float_of_int 10)) 0)
    eqn:Hz; cbv [negb]; cbv beta iota;
    eexists; exists charge, discharge;
    (split; [reflexivity|]);
    repeat match goal with |- _ /\ _ => split end;
    first [ reflexivity
          | rewrite buf2int32_us_in_range by lia; reflexivity
          | proj_simpl; rewrite Hz; reflexivity ].
Qed.

(** [_parse_packet2] on a buffer of at least 6 bytes: it succeeds, leaves
    the session and the layout alone, and sets the targets to the module
    count times the per-module counts, capped at 160 and 64. *)
Lemma parse_packet2_run (self : BYDHVS) (w : World) (data : Py.bytes) :
  6 <= Py.len data ->
  exists self' : BYDHVS,
    _parse_packet2 data (self, w)
    = (Ok tt, (self', w <| w_decoded := w_decoded w ++ [(2, data)] |>))
    /\ session self' = session self
    /\ layout self' = layout self
    /\ hvs_num_cells self'
       = Z.min (hvs_modules self
                * fst (per_module (hvs_batt_type_from_serial self) (peek data 5)))
           MAX_CELLS
    /\ hvs_num_temps self'
       = Z.min (hvs_modules self
                * snd (per_module (hvs_batt_type_from_serial self) (peek data 5)))
           MAX_TEMPS.
Proof.
  intros Hlen.
  pose proof (peek_range data 3) as H3.
  assert (Hinv : forall i, 0 <= i -> (i <? Py.len _inverters) = true ->
                           exists name, Py.getitem _inverters i = Ok name).
  { intros i Hi Hb. exists (nth (Z.to_nat i) _inverters ""%string).
    apply getitem_in_range. lia. }
  assert (Hlvs : forall i, 0 <= i -> (i <? Py.len _lvs_inverters) = true ->
                           exists name, Py.getitem _lvs_inverters i = Ok name).
  { intros i Hi Hb. exists (nth (Z.to_nat i) _lvs_inverters ""%string).
    apply getitem_in_range. lia. }
  unfold _parse_packet2, per_module. mrun. read_all. proj_simpl.
  destruct (batt_type_map (peek data 5)) as [[[bname bcells] btemps]|];
    (destruct (peek data 3 <? Py.len _inverters) eqn:Hi;
     [destruct (Hinv _ (proj1 H3) Hi) as [name ->]|]; mrun;
     (destruct (String.eqb (hvs_batt_type_from_serial self) "LVS") eqn:Hhint; mrun;
      [ destruct (peek data 3 <? Py.len _lvs_inverters) eqn:Hi2;
        [destruct (Hlvs _ (proj1 H3) Hi2) as [name2 ->]|]; mrun
      | ]);
     eexists; (split; [reflexivity|]);
     repeat match goal with |- _ /\ _ => split end;
     reflexivity).
Qed.

(** [_parse_packet0] on a buffer of at least 39 bytes with an ASCII serial:
    it succeeds, leaves the session alone, and stores the two nibbles of
    byte 36 and the hint the hardware type gives (or keeps the old hint). *)
Lemma parse_packet0_run (self : BYDHVS) (w : World) (data : Py.bytes) (serial : string) :
  39 <= Py.len data ->
  Py.decode_ascii (Py.slice data 3 22) = Ok serial ->
  exists self' : BYDHVS,
    _parse_packet0 data (self, w)
    = (Ok tt, (self', w <| w_decoded := w_decoded w ++ [(0, data)] |>))
    /\ session self' = session self
    /\ hvs_modules self' = peek data 36 mod 16
    /\ hvs_towers self' = peek data 36 / 16
    /\ hvs_batt_type_from_serial self'
       = if peek data 5 =? 51 then "HVS"%string
         else if (peek data 5 =? 49) || (peek data 5 =? 50) then "LVS"%string
              else hvs_batt_type_from_serial self.
Proof.
  intros Hlen Hserial.
  unfold _parse_packet0. mrun. rewrite Hserial. cbv beta iota. read_all.
  destruct (peek data 5 =? 51) eqn:H51; mrun; read_all;
    [|destruct ((peek data 5 =? 49) || (peek data 5 =? 50)) eqn:H49; mrun; read_all];
    (destruct (peek data 33 =? 0) eqn:H33; mrun; read_all);
    eexists; (split; [reflexivity|]);
    repeat match goal with |- _ /\ _ => split end;
    reflexivity.
Qed.

(** X11. On a battery-info reply of at least 6 bytes [_parse_packet2]
    returns and the targets it stores never exceed the caps of 160 cells
    and 64 temperatures: ten modules of 32 cells and 12 sensors give 320
    and 120 and are stored as 160 and 64. *)
Lemma targets_capped (self : BYDHVS) (w : World) (data : Py.bytes) :
  6 <= Py.len data ->
  exists self' w',
    _parse_packet2 data (self, w) = (Ok tt, (self', w'))
    /\ hvs_num_cells self' <= MAX_CELLS
    /\ hvs_num_temps self' <= MAX_TEMPS
    /\ (hvs_modules self = 10 -> per_module (hvs_batt_type_from_serial self) (peek data 5) = (32, 12) ->
        hvs_num_cells self' = 160 /\ hvs_num_temps self' = 64).
Proof.
  intros Hlen.
  destruct (parse_packet2_run self w data Hlen) as (self' & Hrun & _ & _ & Hc & Ht).
  exists self'. eexists. split; [exact Hrun|].
  rewrite Hc, Ht. unfold MAX_CELLS, MAX_TEMPS.
  split; [lia|]. split; [lia|].
  intros -> ->. cbn [fst snd]. split; reflexivity.
Qed.

Lemma targets_capped_witness :
  exists self' w',
    _parse_packet2 (battery_info_reply 2)
      ((__init__ "192.168.16.254" 8080) <| hvs_modules := 10 |>, world0)
    = (Ok tt, (self', w'))
    /\ hvs_num_cells self' = 160 /\ hvs_num_temps self' = 64.
Proof.
  destruct (targets_capped ((__init__ "192.168.16.254" 8080) <| hvs_modules := 10 |>)
              world0 (battery_info_reply 2))
    as (self' & w' & Hrun & _ & _ & Hten).
  - vm_compute. discriminate.
  - exists self', w'. split; [exact Hrun|].
    apply Hten; [reflexivity|vm_compute; reflexivity].
Defined.

(** ** Efficiency *)



(** ** What each cell-block decoder appends *)





(** ** The cycle of one tower of two HVS modules *)

Lemma check_packet_nonempty (d : Py.bytes) : _check_packet d = Ok true -> d <> [].
Proof. intros H ->. vm_compute in H. discriminate. Qed.

(** A turn whose reply is valid runs the state's own code on the buffer. *)
Lemma poll_step_accepted (E : Env) (self : BYDHVS) (w : World) (d : Py.bytes)
      (send : M unit) (on_valid : Py.bytes -> M unit) (state : Z) (trace : list Z) :
  running self state trace ->
  state_actions E state = Some (exchange E send on_valid) ->
  send_like send ->
  env_recv E (w_reads w) = RecvData d ->
  _check_packet d = Ok true ->
  exists self1 w1,
    poll_step E (self, w) = on_valid d (self1, w1)
    /\ w_reads w1 = S (w_reads w)
    /\ (self1 = self <| state_action_list := trace ++ [state] |>
        \/ self1 = self <| state_action_list := trace ++ [state] |> <| _state := 0 |>).
Proof.
  intros (Hs & Htr & _ & r & Hr) Hact Hsend Hrecv Hvalid.
  rewrite poll_step_run, Hs, Htr, Hact.
  destruct (exchange_accepted E send on_valid
              (self <| state_action_list := trace ++ [state] |>) w d Hsend)
    as (self1 & w1 & Hrun & Hself & Hreads & _).
  { unfold next_reply. proj_simpl. rewrite Hr, Hrecv.
    apply accepted_valid; [apply check_packet_nonempty|]; exact Hvalid. }
  exists self1, w1. split; [exact Hrun|]. split; [exact Hreads|exact Hself].
Qed.

Lemma poll_loop_turn (E : Env) (fuel : nat) (self self' : BYDHVS) (w w' : World) :
  (0 < fuel)%nat -> _state self <> 0 ->
  poll_step E (self, w) = (Ok tt, (self', w')) ->
  poll_loop E fuel (self, w) = poll_loop E (pred fuel) (self', w').
Proof.
  intros Hfuel Hs Hstep. destruct fuel as [|fuel]; [lia|].
  cbn [poll_loop pred]. cbv [bind get_self fst snd].
  destruct (_state self =? 0) eqn:H0; [lia|]. rewrite Hstep. reflexivity.
Qed.

Lemma poll_loop_done (E : Env) (fuel : nat) (self : BYDHVS) (w : World) :
  _state self = 0 -> poll_loop E fuel (self, w) = (Ok tt, (self, w)).
Proof.
  intros Hs. destruct fuel; cbn [poll_loop]; cbv [bind get_self fst snd];
    rewrite Hs; reflexivity.
Qed.

(** Unpacks the facts of a turn and rebuilds them for the next state. *)
Ltac scenario_facts :=
  unfold one_tower_two_modules, two_hvs_modules_targets, running, single_tower in *;
  repeat match goal with
         | H : _ /\ _ |- _ => destruct H
         | H : exists _, _ |- _ => destruct H
         end.

Ltac rebuild :=
  repeat match goal with
         | |- _ /\ _ => split
         | |- exists _, _ => eexists
         end;
  proj_simpl;
  try solve [ eauto | congruence | lia
            | etransitivity; [eassumption|]; eauto ].

(** State 2: the identity reply of one tower of two modules. *)
Lemma turn_identity (E : Env) (self : BYDHVS) (w : World) (d : Py.bytes)
      (trace : list Z) (serial : string) (hw : Z) :
  running self 2 trace ->
  env_recv E (w_reads w) = RecvData d ->
  _check_packet d = Ok true ->
  39 <= Py.len d ->
  Py.decode_ascii (Py.slice d 3 22) = Ok serial ->
  read_byte d 36 = Ok 18 ->
  read_byte d 5 = Ok hw ->
  hw = 51 \/ (hw <> 49 /\ hw <> 50 /\ hvs_batt_type_from_serial self <> "LVS"%string) ->
  exists self' w',
    poll_step E (self, w) = (Ok tt, (self', w'))
    /\ w_reads w' = S (w_reads w)
    /\ running self' 3 (trace ++ [2])
    /\ one_tower_two_modules self'.
Proof.
  intros Hrun Hrecv Hvalid Hlen Hserial H36 H5 Hhint.
  destruct (poll_step_accepted E self w d _ _ 2 trace Hrun (f_equal Some (state2_shape E))
              (send_request_send_like E _) Hrecv Hvalid)
    as (self1 & w1 & -> & Hreads & Hself).
  apply read_byte_ok_inv in H36; [|lia]. destruct H36 as [_ H36].
  apply read_byte_ok_inv in H5; [|lia]. destruct H5 as [_ H5].
  destruct (parse_packet0_run self1 w1 d serial Hlen Hserial)
    as (self2 & Hdec & Hsess & Hmod & Htow & Hh).
  rewrite <- H36 in Hmod, Htow. rewrite <- H5 in Hh.
  change (18 mod 16) with 2 in Hmod. change (18 / 16) with 1 in Htow.
  cbv [bind]. rewrite Hdec. cbv [get_self set_self fst snd]. rewrite Htow.
  change (Py.range (if 1 =? 0 then 1 else 1)) with [0].
  unfold session in Hsess. injection Hsess as Hr Hw Hst Hct Htr Hta.
  assert (Hnolvs : hvs_batt_type_from_serial self2 <> "LVS"%string).
  { rewrite Hh. destruct Hhint as [->|(H49 & H50 & Hold)]; [discriminate|].
    destruct (hw =? 51); [discriminate|].
    destruct (hw =? 49) eqn:E49; [lia|]. destruct (hw =? 50) eqn:E50; [lia|].
    assert (Hsame : hvs_batt_type_from_serial self1 = hvs_batt_type_from_serial self)
      by (destruct Hself as [->| ->]; reflexivity).
    cbn [orb]. rewrite Hsame. exact Hold. }
  scenario_facts.
  eexists. eexists. split; [reflexivity|].
  split; [rewrite <- Hreads; reflexivity|].
  destruct Hself as [->| ->]; proj_simpl; rebuild.
Qed.

(** State 3: the status reply. *)
Lemma turn_status (E : Env) (self : BYDHVS) (w : World) (d : Py.bytes) (trace : list Z) :
  running self 3 trace ->
  one_tower_two_modules self ->
  env_recv E (w_reads w) = RecvData d ->
  _check_packet d = Ok true ->
  45 <= Py.len d ->
  exists self' w',
    poll_step E (self, w) = (Ok tt, (self', w'))
    /\ w_reads w' = S (w_reads w)
    /\ running self' 4 (trace ++ [3])
    /\ one_tower_two_modules self'.
Proof.
  intros Hrun Hone Hrecv Hvalid Hlen.
  destruct (poll_step_accepted E self w d _ _ 3 trace Hrun (f_equal Some (state3_shape E))
              (send_request_send_like E _) Hrecv Hvalid)
    as (self1 & w1 & -> & Hreads & Hself).
  destruct (parse_packet1_run self1 w1 d Hlen)
    as (self2 & c & dis & Hdec & Hsess & Hlay & _).
  cbv [bind]. rewrite Hdec. cbv [set_self fst snd].
  unfold session in Hsess. injection Hsess as Hr Hw Hst Hct Htr Hta.
  unfold layout in Hlay. injection Hlay as Hm Ht Hh.
  scenario_facts.
  eexists. eexists. split; [reflexivity|].
  split; [rewrite <- Hreads; reflexivity|].
  destruct Hself as [->| ->]; proj_simpl; rebuild.
Qed.

(** State 4: the battery-info reply declaring type 2. *)
Lemma turn_battery_info (E : Env) (self : BYDHVS) (w : World) (d : Py.bytes)
      (trace : list Z) :
  running self 4 trace ->
  one_tower_two_modules self ->
  env_recv E (w_reads w) = RecvData d ->
  _check_packet d = Ok true ->
  read_byte d 5 = Ok 2 ->
  exists self' w',
    poll_step E (self, w) = (Ok tt, (self', w'))
    /\ w_reads w' = S (w_reads w)
    /\ running self' 5 (trace ++ [4])
    /\ one_tower_two_modules self'
    /\ two_hvs_modules_targets self'.
Proof.
  intros Hrun Hone Hrecv Hvalid H5.
  destruct (poll_step_accepted E self w d _ _ 4 trace Hrun (f_equal Some (state4_shape E))
              (send_request_send_like E _) Hrecv Hvalid)
    as (self1 & w1 & -> & Hreads & Hself).
  apply read_byte_ok_inv in H5; [|lia]. destruct H5 as [Hlen H5].
  destruct (parse_packet2_run self1 w1 d ltac:(lia))
    as (self2 & Hdec & Hsess & Hlay & Hcells & Htemps).
  rewrite <- H5 in Hcells, Htemps.
  unfold session in Hsess. injection Hsess as Hr Hw Hst Hct Htr Hta.
  unfold layout in Hlay. injection Hlay as Hm Ht Hh.
  scenario_facts.
  assert (Hmod1 : hvs_modules self1 = 2)
    by (destruct Hself as [->| ->]; proj_simpl; assumption).
  assert (Hhint1 : hvs_batt_type_from_serial self1 <> "LVS"%string)
    by (destruct Hself as [->| ->]; proj_simpl; assumption).
  apply String.eqb_neq in Hhint1.
  unfold per_module in Hcells, Htemps. rewrite Hhint1, Hmod1 in Hcells, Htemps.
  change (Z.min (2 * fst (32, 12)) MAX_CELLS) with 64 in Hcells.
  change (Z.min (2 * snd (32, 12)) MAX_TEMPS) with 24 in Htemps.
  cbv [bind]. rewrite Hdec. cbv [get_self fst snd]. rewrite Hcells, Htemps.
  cbn [Z.ltb Z.compare andb]. cbv [set_self fst snd].
  apply String.eqb_neq in Hhint1.
  eexists. eexists. split; [reflexivity|].
  split; [rewrite <- Hreads; reflexivity|].
  destruct Hself as [->| ->]; proj_simpl; rebuild.
Qed.

(** States 5 and 6: the measurement is started and its status read. *)
Lemma turn_start_measurement (E : Env) (self : BYDHVS) (w : World) (d : Py.bytes)
      (trace : list Z) :
  running self 5 trace ->
  one_tower_two_modules self ->
  two_hvs_modules_targets self ->
  env_recv E (w_reads w) = RecvData d ->
  _check_packet d = Ok true ->
  exists self' w',
    poll_step E (self, w) = (Ok tt, (self', w'))
    /\ w_reads w' = S (w_reads w)
    /\ running self' 6 (trace ++ [5])
    /\ one_tower_two_modules self'
    /\ two_hvs_modules_targets self'.
Proof.
  intros Hrun Hone Htar Hrecv Hvalid.
  destruct (poll_step_accepted E self w d _ _ 5 trace Hrun (f_equal Some (state5_shape E))
              (send_start_measurement_send_like E) Hrecv Hvalid)
    as (self1 & w1 & -> & Hreads & Hself).
  cbv [bind sleep set_world set_self fst snd].
  scenario_facts.
  eexists. eexists. split; [reflexivity|].
  split; [rewrite <- Hreads; reflexivity|].
  destruct Hself as [->| ->]; proj_simpl; rebuild.
Qed.

Lemma turn_measurement_status (E : Env) (self : BYDHVS) (w : World) (d : Py.bytes)
      (trace : list Z) :
  running self 6 trace ->
  one_tower_two_modules self ->
  two_hvs_modules_targets self ->
  env_recv E (w_reads w) = RecvData d ->
  _check_packet d = Ok true ->
  exists self' w',
    poll_step E (self, w) = (Ok tt, (self', w'))
    /\ w_reads w' = S (w_reads w)
    /\ running self' 7 (trace ++ [6])
    /\ one_tower_two_modules self'
    /\ two_hvs_modules_targets self'.
Proof.
  intros Hrun Hone Htar Hrecv Hvalid.
  destruct (poll_step_accepted E self w d _ _ 6 trace Hrun (f_equal Some (state6_shape E))
              (send_request_send_like E _) Hrecv Hvalid)
    as (self1 & w1 & -> & Hreads & Hself).
  cbv [set_self fst snd].
  scenario_facts.
  eexists. eexists. split; [reflexivity|].
  split; [exact Hreads|].
  destruct Hself as [->| ->]; proj_simpl; rebuild.
Qed.

(** What the object of an accepted exchange shares with the one it started
    from. *)
Lemma accepted_object (self self1 : BYDHVS) (state : Z) (trace : list Z) :
  self1 = self <| state_action_list := trace ++ [state] |>
  \/ self1 = self <| state_action_list := trace ++ [state] |> <| _state := 0 |> ->
  state_action_list self1 = trace ++ [state]
  /\ current_tower self1 = current_tower self
  /\ _reader self1 = _reader self
  /\ layout self1 = layout self
  /\ targets self1 = targets self
  /\ tower_attributes self1 = tower_attributes self.
Proof. intros [->| ->]; repeat split. Qed.

(** Facts of a turn that decodes a block into the single tower. *)
Ltac block_turn_facts Hrun Hone Htar Hself :=
  let Htr := fresh "Htr" in
  let Hct := fresh "Hct" in
  let Hr := fresh "Hr" in
  let Hlay := fresh "Hlay" in
  let Htg := fresh "Htg" in
  let Hta := fresh "Hta" in
  destruct (accepted_object _ _ _ _ Hself) as (Htr & Hct & Hr & Hlay & Htg & Hta);
  unfold layout in Hlay; injection Hlay as ? ? ?;
  unfold targets in Htg; injection Htg as ? ?;
  scenario_facts.

Ltac block_turn_done :=
  unfold one_tower_two_modules, two_hvs_modules_targets, running, single_tower;
  repeat match goal with
         | |- _ /\ _ => split
         end;
  proj_simpl;
  try solve [ congruence
            | eexists; etransitivity; eassumption
            | match goal with
              | Hta : tower_attributes ?s = [_] |- _ =>
                  rewrite Hta; cbn [insert list_insert];
                  eexists; eexists; eexists;
                  (split; [reflexivity|]);
                  split;
                  first [ apply lookup_insert_eq
                        | rewrite lookup_insert_ne by discriminate; eassumption
                        | rewrite lookup_insert_ne by discriminate;
                          apply lookup_insert_eq
                        | eassumption ]
              end ].

(** State 7: the first cell block. *)
Lemma turn_block5 (E : Env) (self : BYDHVS) (w : World) (d : Py.bytes) (trace : list Z) :
  running self 7 trace ->
  one_tower_two_modules self ->
  two_hvs_modules_targets self ->
  env_recv E (w_reads w) = RecvData d ->
  _check_packet d = Ok true ->
  61 <= Py.len d ->
  exists self' w',
    poll_step E (self, w) = (Ok tt, (self', w'))
    /\ w_reads w' = S (w_reads w)
    /\ running self' 8 (trace ++ [7])
    /\ one_tower_two_modules self'
    /\ two_hvs_modules_targets self'.
Proof.
  intros Hrun Hone Htar Hrecv Hvalid Hlen.
  destruct (poll_step_accepted E self w d _ _ 7 trace Hrun (f_equal Some (state7_shape E))
              (send_request_send_like E _) Hrecv Hvalid)
    as (self1 & w1 & -> & Hreads & Hself).
  block_turn_facts Hrun Hone Htar Hself.
  cbv [bind get_self fst snd].
  replace (current_tower self1) with 0 by congruence.
  match goal with
  | Hd : tower_attributes self = [?dict] |- _ =>
      destruct (parse_packet5_run self1 w1 d 0 dict ltac:(lia)
                  ltac:(rewrite Hta, Hd; reflexivity) Hlen)
        as (d' & c & dis & Hdec & Hv & Ht & _)
  end.
  rewrite Hdec. cbv [set_self fst snd].
  eexists. eexists. split; [reflexivity|].
  split; [rewrite <- Hreads; reflexivity|].
  match goal with
  | Hd : tower_attributes self = [?dict],
    Hts : ?dict !! "cell_temperatures" = Some (PList ?ts) |- _ =>
      assert (Hta1 : tower_attributes self1 = [dict]) by congruence;
      assert (Ht' : d' !! "cell_temperatures" = Some (PList ts)) by congruence
  end.
  block_turn_done.
Qed.

(** State 8: the second cell block. *)
Lemma turn_block6 (E : Env) (self : BYDHVS) (w : World) (d : Py.bytes) (trace : list Z) :
  running self 8 trace ->
  one_tower_two_modules self ->
  two_hvs_modules_targets self ->
  env_recv E (w_reads w) = RecvData d ->
  _check_packet d = Ok true ->
  exists self' w',
    poll_step E (self, w) = (Ok tt, (self', w'))
    /\ w_reads w' = S (w_reads w)
    /\ running self' 9 (trace ++ [8])
    /\ one_tower_two_modules self'
    /\ two_hvs_modules_targets self'.
Proof.
  intros Hrun Hone Htar Hrecv Hvalid.
  destruct (poll_step_accepted E self w d _ _ 8 trace Hrun (f_equal Some (state8_shape E))
              (send_request_send_like E _) Hrecv Hvalid)
    as (self1 & w1 & -> & Hreads & Hself).
  block_turn_facts Hrun Hone Htar Hself.
  cbv [bind get_self fst snd].
  replace (current_tower self1) with 0 by congruence.
  match goal with
  | Hd : tower_attributes self = [?dict],
    Hvs : ?dict !! "cell_voltages" = Some (PList ?vs) |- _ =>
      assert (Hta1 : tower_attributes self1 = [dict]) by congruence;
      rewrite (parse_packet6_run self1 w1 d 0 dict vs ltac:(lia)
                 ltac:(rewrite Hta1; reflexivity) Hvs)
  end.
  cbv [set_self fst snd].
  eexists. eexists. split; [reflexivity|].
  split; [rewrite <- Hreads; reflexivity|].
  block_turn_done.
Qed.

(** State 9: the third cell block and the first temperatures. *)
Lemma turn_block7 (E : Env) (self : BYDHVS) (w : World) (d : Py.bytes) (trace : list Z) :
  running self 9 trace ->
  one_tower_two_modules self ->
  two_hvs_modules_targets self ->
  env_recv E (w_reads w) = RecvData d ->
  _check_packet d = Ok true ->
  exists self' w',
    poll_step E (self, w) = (Ok tt, (self', w'))
    /\ w_reads w' = S (w_reads w)
    /\ running self' 10 (trace ++ [9])
    /\ one_tower_two_modules self'
    /\ two_hvs_modules_targets self'.
Proof.
  intros Hrun Hone Htar Hrecv Hvalid.
  destruct (poll_step_accepted E self w d _ _ 9 trace Hrun (f_equal Some (state9_shape E))
              (send_request_send_like E _) Hrecv Hvalid)
    as (self1 & w1 & -> & Hreads & Hself).
  block_turn_facts Hrun Hone Htar Hself.
  cbv [bind get_self fst snd].
  replace (current_tower self1) with 0 by congruence.
  match goal with
  | Hd : tower_attributes self = [?dict],
    Hvs : ?dict !! "cell_voltages" = Some (PList ?vs) |- _ =>
      assert (Hta1 : tower_attributes self1 = [dict]) by congruence;
      rewrite (parse_packet7_run self1 w1 d 0 dict vs ltac:(lia)
                 ltac:(rewrite Hta1; reflexivity) Hvs)
  end.
  cbv [set_self fst snd].
  eexists. eexists. split; [reflexivity|].
  split; [rewrite <- Hreads; reflexivity|].
  block_turn_done.
Qed.

(** State 10: the remaining temperatures; with 64 cells and one tower the
    cycle is over. *)
Lemma turn_block8 (E : Env) (self : BYDHVS) (w : World) (d : Py.bytes) (trace : list Z) :
  running self 10 trace ->
  one_tower_two_modules self ->
  two_hvs_modules_targets self ->
  env_recv E (w_reads w) = RecvData d ->
  _check_packet d = Ok true ->
  exists self' w',
    poll_step E (self, w) = (Ok tt, (self', w'))
    /\ running self' 0 (trace ++ [10])
    /\ one_tower_two_modules self'
    /\ two_hvs_modules_targets self'.
Proof.
  intros Hrun Hone Htar Hrecv Hvalid.
  destruct (poll_step_accepted E self w d _ _ 10 trace Hrun (f_equal Some (state10_shape E))
              (send_request_send_like E _) Hrecv Hvalid)
    as (self1 & w1 & -> & Hreads & Hself).
  block_turn_facts Hrun Hone Htar Hself.
  cbv [bind get_self fst snd].
  replace (current_tower self1) with 0 by congruence.
  match goal with
  | Hd : tower_attributes self = [?dict],
    Hts : ?dict !! "cell_temperatures" = Some (PList ?ts) |- _ =>
      assert (Hta1 : tower_attributes self1 = [dict]) by congruence;
      rewrite (parse_packet8_run self1 w1 d 0 dict ts ltac:(lia)
                 ltac:(rewrite Hta1; reflexivity) Hts)
  end.
  unfold next_tower_or_done. cbv [bind get_self fst snd]. proj_simpl.
  replace (hvs_num_cells self1) with 64 by congruence.
  change (128 <? 64) with false. cbv beta iota. cbv [fst snd]. proj_simpl.
  replace (current_tower self1) with 0 by congruence.
  replace (hvs_towers self1) with 1 by congruence.
  change (0 + 1 <? 1) with false. cbv beta iota. cbv [set_self fst snd].
  eexists. eexists. split; [reflexivity|].
  block_turn_done.
Qed.

(** C9, amended. A cycle started in state 0 against a peer that accepts
    the connection and answers the nine requests with replies that all pass
    [_check_packet] and are long enough for the decoder that reads them
    (identity: 39 bytes with an ASCII serial; status: 45; first cell block:
    61), where the identity reply declares one tower of two modules without
    an LVS hint and the battery-info reply declares type 2, and where
    closing the connection succeeds ([wait_closed] returns): [poll] returns,
    the snapshot has exactly one tower, 64 cells and 24 temperatures, and
    the trace is 2, 3, ..., 10, so that states 7 to 10 are visited once and
    states 11 to 15 never. A failed write does not change this. *)
Theorem two_hvs_modules_cycle (E : Env) (fuel : nat) (self : BYDHVS) (w : World)
        (identity status info ack measured b5 b6 b7 b8 : Py.bytes)
        (serial : string) (hw : Z) :
  _state self = 0 ->
  (poll_fuel <= fuel)%nat ->
  env_connect E = ConnectOk ->
  env_close E = CloseOk ->
  env_recv E (w_reads w) = RecvData identity ->
  env_recv E (w_reads w + 1)%nat = RecvData status ->
  env_recv E (w_reads w + 2)%nat = RecvData info ->
  env_recv E (w_reads w + 3)%nat = RecvData ack ->
  env_recv E (w_reads w + 4)%nat = RecvData measured ->
  env_recv E (w_reads w + 5)%nat = RecvData b5 ->
  env_recv E (w_reads w + 6)%nat = RecvData b6 ->
  env_recv E (w_reads w + 7)%nat = RecvData b7 ->
  env_recv E (w_reads w + 8)%nat = RecvData b8 ->
  Forall (fun d => _check_packet d = Ok true)
         [identity; status; info; ack; measured; b5; b6; b7; b8] ->
  39 <= Py.len identity ->
  Py.decode_ascii (Py.slice identity 3 22) = Ok serial ->
  45 <= Py.len status ->
  61 <= Py.len b5 ->
  read_byte identity 36 = Ok (1 * 16 + 2) ->
  read_byte identity 5 = Ok hw ->
  hw = 51 \/ (hw <> 49 /\ hw <> 50 /\ hvs_batt_type_from_serial self <> "LVS"%string) ->
  read_byte info 5 = Ok 2 ->
  exists self' w',
    poll E fuel (self, w) = (Ok tt, (self', w'))
    /\ length (tower_attributes self') = 1%nat
    /\ hvs_num_cells self' = 64
    /\ hvs_num_temps self' = 24
    /\ state_action_list self' = [2; 3; 4; 5; 6; 7; 8; 9; 10]
    /\ _state self' = 0.
Proof.
  intros Hs Hfuel Hconn Hclose R0 R1 R2 R3 R4 R5 R6 R7 R8 Hvalid
         Hlen0 Hserial Hlen1 Hlen5 H36 H5 Hhint Hinfo.
  unfold poll_fuel in Hfuel.
  repeat match goal with
         | H : Forall _ (_ :: _) |- _ => apply Forall_cons in H; destruct H as [? H]
         end.
  unfold poll. cbv [bind get_self set_self fst snd].
  rewrite Hs. cbn [Z.eqb negb].
  unfold _connect. rewrite Hconn. cbv [bind get_world set_world set_self fst snd].
  match goal with
  | |- context [poll_loop E fuel (?s0, ?w0)] =>
      set (self0 := s0); set (w0' := w0)
  end.
  assert (Hrun0 : running self0 2 []).
  { subst self0. unfold running. proj_simpl. repeat split. eexists. reflexivity. }
  assert (Hreads0 : w_reads w0' = w_reads w) by reflexivity.
  assert (Hhint0 : hw = 51 \/ (hw <> 49 /\ hw <> 50
                               /\ hvs_batt_type_from_serial self0 <> "LVS"%string))
    by exact Hhint.
  clearbody self0 w0'.
  destruct (turn_identity E self0 w0' identity [] serial hw Hrun0
              ltac:(rewrite Hreads0; exact R0) ltac:(assumption)
              Hlen0 Hserial H36 H5 Hhint0)
    as (self1 & w1 & Hstep1 & Hreads1 & Hrun1 & Hone1).
  destruct (turn_status E self1 w1 status _ Hrun1 Hone1
              ltac:(rewrite Hreads1, Hreads0, <- Nat.add_1_r; exact R1)
              ltac:(assumption) Hlen1)
    as (self2 & w2 & Hstep2 & Hreads2 & Hrun2 & Hone2).
  destruct (turn_battery_info E self2 w2 info _ Hrun2 Hone2
              ltac:(rewrite Hreads2, Hreads1, Hreads0;
                    replace (S (S (w_reads w))) with (w_reads w + 2)%nat by lia; exact R2)
              ltac:(assumption) Hinfo)
    as (self3 & w3 & Hstep3 & Hreads3 & Hrun3 & Hone3 & Htar3).
  destruct (turn_start_measurement E self3 w3 ack _ Hrun3 Hone3 Htar3
              ltac:(rewrite Hreads3, Hreads2, Hreads1, Hreads0;
                    replace (S (S (S (w_reads w)))) with (w_reads w + 3)%nat by lia;
                    exact R3)
              ltac:(assumption))
    as (self4 & w4 & Hstep4 & Hreads4 & Hrun4 & Hone4 & Htar4).
  destruct (turn_measurement_status E self4 w4 measured _ Hrun4 Hone4 Htar4
              ltac:(rewrite Hreads4, Hreads3, Hreads2, Hreads1, Hreads0;
                    replace (S (S (S (S (w_reads w))))) with (w_reads w + 4)%nat by lia;
                    exact R4)
              ltac:(assumption))
    as (self5 & w5 & Hstep5 & Hreads5 & Hrun5 & Hone5 & Htar5).
  destruct (turn_block5 E self5 w5 b5 _ Hrun5 Hone5 Htar5
              ltac:(rewrite Hreads5, Hreads4, Hreads3, Hreads2, Hreads1, Hreads0;
                    replace (S (S (S (S (S (w_reads w)))))) with (w_reads w + 5)%nat by lia;
                    exact R5)
              ltac:(assumption) Hlen5)
    as (self6 & w6 & Hstep6 & Hreads6 & Hrun6 & Hone6 & Htar6).
  destruct (turn_block6 E self6 w6 b6 _ Hrun6 Hone6 Htar6
              ltac:(rewrite Hreads6, Hreads5, Hreads4, Hreads3, Hreads2, Hreads1, Hreads0;
                    replace (S (S (S (S (S (S (w_reads w)))))))
                      with (w_reads w + 6)%nat by lia;
                    exact R6)
              ltac:(assumption))
    as (self7 & w7 & Hstep7 & Hreads7 & Hrun7 & Hone7 & Htar7).
  destruct (turn_block7 E self7 w7 b7 _ Hrun7 Hone7 Htar7
              ltac:(rewrite Hreads7, Hreads6, Hreads5, Hreads4, Hreads3, Hreads2,
                      Hreads1, Hreads0;
                    replace (S (S (S (S (S (S (S (w_reads w))))))))
                      with (w_reads w + 7)%nat by lia;
                    exact R7)
              ltac:(assumption))
    as (self8 & w8 & Hstep8 & Hreads8 & Hrun8 & Hone8 & Htar8).
  destruct (turn_block8 E self8 w8 b8 _ Hrun8 Hone8 Htar8
              ltac:(rewrite Hreads8, Hreads7, Hreads6, Hreads5, Hreads4, Hreads3,
                      Hreads2, Hreads1, Hreads0;
                    replace (S (S (S (S (S (S (S (S (w_reads w)))))))))
                      with (w_reads w + 8)%nat by lia;
                    exact R8)
              ltac:(assumption))
    as (self9 & w9 & Hstep9 & Hrun9 & Hone9 & Htar9).
  assert (Hloop : poll_loop E fuel (self0, w0') = (Ok tt, (self9, w9))).
  {
    rewrite (poll_loop_turn E (fuel) self0 self1 w0' w1 ltac:(lia)
               ltac:(destruct Hrun0 as [-> _]; lia) Hstep1).
    rewrite (poll_loop_turn E (pred fuel) self1 self2 w1 w2 ltac:(lia)
               ltac:(destruct Hrun1 as [-> _]; lia) Hstep2).
    rewrite (poll_loop_turn E (pred (pred fuel)) self2 self3 w2 w3 ltac:(lia)
               ltac:(destruct Hrun2 as [-> _]; lia) Hstep3).
    rewrite (poll_loop_turn E (pred (pred (pred fuel))) self3 self4 w3 w4 ltac:(lia)
               ltac:(destruct Hrun3 as [-> _]; lia) Hstep4).
    rewrite (poll_loop_turn E (pred (pred (pred (pred fuel)))) self4 self5 w4 w5 ltac:(lia)
               ltac:(destruct Hrun4 as [-> _]; lia) Hstep5).
    rewrite (poll_loop_turn E (pred (pred (pred (pred (pred fuel))))) self5 self6 w5 w6 ltac:(lia)
               ltac:(destruct Hrun5 as [-> _]; lia) Hstep6).
    rewrite (poll_loop_turn E (pred (pred (pred (pred (pred (pred fuel)))))) self6 self7 w6 w7 ltac:(lia)
               ltac:(destruct Hrun6 as [-> _]; lia) Hstep7).
    rewrite (poll_loop_turn E (pred (pred (pred (pred (pred (pred (pred fuel))))))) self7 self8 w7 w8 ltac:(lia)
               ltac:(destruct Hrun7 as [-> _]; lia) Hstep8).
    rewrite (poll_loop_turn E (pred (pred (pred (pred (pred (pred (pred (pred fuel)))))))) self8 self9 w8 w9 ltac:(lia)
               ltac:(destruct Hrun8 as [-> _]; lia) Hstep9).
    apply poll_loop_done. destruct Hrun9 as [Hzero _]. exact Hzero. }
  rewrite Hloop.
  destruct Hrun9 as (_ & Htrace & _).
  destruct Hone9 as (_ & _ & _ & (dict & vs & ts & Hta & _)).
  destruct Htar9 as [Hcells Htemps].
  unfold _close. cbv [bind get_self fst snd]. rewrite Hclose. cbn [close_exn].
  destruct (_writer self9) as [[c]|];
    cbv [bind set_world set_self fst snd];
    eexists; eexists; (split; [reflexivity|]);
    proj_simpl; rewrite Hta, Hcells, Htemps, Htrace;
    repeat split.
Qed.

Lemma two_hvs_modules_cycle_witness :
  exists self' w',
    poll hvs_two_modules poll_fuel (__init__ "192.168.16.254" 8080, world0)
    = (Ok tt, (self', w'))
    /\ length (tower_attributes self') = 1%nat
    /\ hvs_num_cells self' = 64
    /\ hvs_num_temps self' = 24
    /\ state_action_list self' = [2; 3; 4; 5; 6; 7; 8; 9; 10]
    /\ _state self' = 0.
Proof.
  apply (two_hvs_modules_cycle hvs_two_modules poll_fuel
           (__init__ "192.168.16.254" 8080) world0
           (identity_reply 51 18) status_reply (battery_info_reply 2)
           write_ack measurement_status_reply
           cell_reply cell_reply cell_reply cell_reply
           "P030000000000000000" 51).
  - reflexivity.
  - apply le_n.
  - reflexivity.
  - reflexivity.
  - reflexivity.
  - reflexivity.
  - reflexivity.
  - reflexivity.
  - reflexivity.
  - reflexivity.
  - reflexivity.
  - reflexivity.
  - reflexivity.
  - repeat constructor; vm_compute; reflexivity.
  - vm_compute. discriminate.
  - vm_compute. reflexivity.
  - vm_compute. discriminate.
  - vm_compute. discriminate.
  - vm_compute. reflexivity.
  - vm_compute. reflexivity.
  - left. reflexivity.
  - vm_compute. reflexivity.
Defined.

(** * Further properties of the driver *)

(** ** The 16-bit and 32-bit field readers at the edges of a buffer *)

Lemma lookup_nth {A} (l : list A) (i : nat) (d : A) :
  (i < length l)%nat -> l !! i = Some (nth i l d).
Proof.
  intros Hi. destruct (lookup_lt_is_Some_2 l i Hi) as [x Hx].
  rewrite Hx. f_equal. symmetry. apply nth_lookup_Some with (d := d) in Hx. exact Hx.
Qed.

Lemma slice_two (data : Py.bytes) (pos : Z) :
  0 <= pos -> pos + 2 <= Py.len data ->
  Py.slice data pos (pos + 2)
  = [nth (Z.to_nat pos) data "000"%byte; nth (Z.to_nat (pos + 1)) data "000"%byte].
Proof.
  intros H0 H2. unfold Py.slice, Py.slice_bound, Py.len in *.
  destruct (pos <? 0) eqn:Hp; [lia|]. destruct (pos + 2 <? 0) eqn:Hp2; [lia|].
  rewrite !Z.min_l by lia.
  replace (Z.to_nat (pos + 2 - pos)) with 2%nat by lia.
  replace (Z.to_nat (pos + 1)) with (S (Z.to_nat pos)) by lia.
  assert (Ha : data !! Z.to_nat pos = Some (nth (Z.to_nat pos) data "000"%byte)).
  { apply lookup_nth. lia. }
  assert (Hb : data !! S (Z.to_nat pos) = Some (nth (S (Z.to_nat pos)) data "000"%byte)).
  { apply lookup_nth. lia. }
  rewrite (drop_S _ _ _ Ha), (drop_S _ _ _ Hb). reflexivity.
Qed.

Lemma slice_one (data : Py.bytes) (pos : Z) :
  0 <= pos -> pos + 1 = Py.len data ->
  Py.slice data pos (pos + 2) = [nth (Z.to_nat pos) data "000"%byte].
Proof.
  intros H0 H1. unfold Py.slice, Py.slice_bound, Py.len in *.
  destruct (pos <? 0) eqn:Hp; [lia|]. destruct (pos + 2 <? 0) eqn:Hp2; [lia|].
  rewrite (Z.min_l pos) by lia. rewrite (Z.min_r (pos + 2)) by lia.
  replace (Z.to_nat (Z.of_nat (length data) - pos)) with 1%nat by lia.
  assert (Ha : data !! Z.to_nat pos = Some (nth (Z.to_nat pos) data "000"%byte)).
  { apply lookup_nth. lia. }
  rewrite (drop_S _ _ _ Ha). reflexivity.
Qed.

Lemma slice_past_end {A} (l : list A) (lo hi : Z) :
  Py.len l <= lo -> 0 <= lo -> Py.slice l lo hi = [].
Proof.
  intros Hlo H0. apply length_zero_iff_nil.
  pose proof (slice_len l lo hi) as Hl. unfold Py.len in *.
  unfold Py.slice_bound in Hl.
  destruct (lo <? 0) eqn:Hp; [lia|]. destruct (hi <? 0) eqn:Hh; lia.
Qed.

Lemma buf2int16_si_range (data : Py.bytes) (pos : Z) :
  0 <= pos -> -32768 <= _buf2int16_si data pos < 32768.
Proof.
  intros H0. unfold _buf2int16_si, Py.int_from_bytes_big_signed.
  destruct (Z_le_gt_dec (Py.len data) pos) as [Hend|Hin].
  - rewrite (slice_past_end data pos (pos + 2) Hend H0).
    change (8 * Py.len (@nil byte) =? 0) with true. cbv iota. lia.
  - destruct (Z.eq_dec (pos + 1) (Py.len data)) as [Hlast|Hmore].
    + rewrite (slice_one data pos H0 Hlast).
      pose proof (byte_val_range (nth (Z.to_nat pos) data "000"%byte)) as Hb.
      change (Py.len [nth (Z.to_nat pos) data "000"%byte]) with 1.
      change (8 * 1 =? 0) with false. change (2 ^ (8 * 1 - 1)) with 128.
      change (2 ^ (8 * 1)) with 256.
      unfold Py.int_from_bytes_big. cbn [fold_left].
      destruct (0 * 256 + Py.byte_val (nth (Z.to_nat pos) data "000"%byte) <? 128)
        eqn:Hs; lia.
    + rewrite (slice_two data pos H0 ltac:(lia)).
      pose proof (byte_val_range (nth (Z.to_nat pos) data "000"%byte)) as Hb.
      pose proof (byte_val_range (nth (Z.to_nat (pos + 1)) data "000"%byte)) as Hc.
      change (Py.len [nth (Z.to_nat pos) data "000"%byte;
                      nth (Z.to_nat (pos + 1)) data "000"%byte]) with 2.
      change (8 * 2 =? 0) with false. change (2 ^ (8 * 2 - 1)) with 32768.
      change (2 ^ (8 * 2)) with 65536.
      unfold Py.int_from_bytes_big. cbn [fold_left].
      destruct ((0 * 256 + Py.byte_val (nth (Z.to_nat pos) data "000"%byte)) * 256
                + Py.byte_val (nth (Z.to_nat (pos + 1)) data "000"%byte) <? 32768)
        eqn:Hs; lia.
Qed.

(** X1. With two bytes at [pos], the unsigned reader returns
    [data[pos] * 256 + data[pos+1]], a value below 65536, and the signed
    reader returns the same 16 bits in two's complement: the unsigned value
    below 32768, and 65536 less from there on. *)
Theorem buf2int16_two_bytes (data : Py.bytes) (pos : Z) :
  0 <= pos -> pos + 2 <= Py.len data ->
  exists b0 b1,
    read_byte data pos = Ok b0 /\ read_byte data (pos + 1) = Ok b1
    /\ _buf2int16_us data pos = b0 * 256 + b1
    /\ _buf2int16_si data pos
       = (if b0 * 256 + b1 <? 32768 then b0 * 256 + b1 else b0 * 256 + b1 - 65536)
    /\ 0 <= _buf2int16_us data pos < 65536
    /\ -32768 <= _buf2int16_si data pos < 32768
    /\ _buf2int16_si data pos mod 65536 = _buf2int16_us data pos.
Proof.
  intros H0 H2.
  exists (peek data pos), (peek data (pos + 1)).
  rewrite !read_byte_in_range by lia.
  pose proof (peek_range data pos) as Ha.
  pose proof (peek_range data (pos + 1)) as Hb.
  unfold _buf2int16_us, _buf2int16_si, Py.int_from_bytes_big_signed.
  rewrite (slice_two data pos H0 H2).
  change (Py.len [nth (Z.to_nat pos) data "000"%byte;
                  nth (Z.to_nat (pos + 1)) data "000"%byte]) with 2.
  change (8 * 2 =? 0) with false. change (2 ^ (8 * 2 - 1)) with 32768.
  change (2 ^ (8 * 2)) with 65536.
  assert (Hus : Py.int_from_bytes_big
                  [nth (Z.to_nat pos) data "000"%byte;
                   nth (Z.to_nat (pos + 1)) data "000"%byte]
                = peek data pos * 256 + peek data (pos + 1)).
  { unfold Py.int_from_bytes_big, peek. cbn [fold_left]. lia. }
  rewrite Hus. cbv iota.
  set (us := peek data pos * 256 + peek data (pos + 1)).
  assert (Hr : 0 <= us < 65536) by (unfold us; lia).
  repeat match goal with |- _ /\ _ => split end; try reflexivity; try lia.
  - destruct (us <? 32768) eqn:Hs; lia.
  - destruct (us <? 32768) eqn:Hs; lia.
  - destruct (us <? 32768) eqn:Hs.
    + apply Z.mod_small. lia.
    + replace (us - 65536) with (us + (-1) * 65536) by lia.
      rewrite Z.mod_add by lia. apply Z.mod_small. lia.
Qed.

Lemma buf2int16_two_bytes_witness :
  exists b0 b1,
    read_byte (Py.bytes_of [255; 56]) 0 = Ok b0
    /\ read_byte (Py.bytes_of [255; 56]) (0 + 1) = Ok b1
    /\ _buf2int16_us (Py.bytes_of [255; 56]) 0 = b0 * 256 + b1
    /\ _buf2int16_si (Py.bytes_of [255; 56]) 0 = -200.
Proof.
  destruct (buf2int16_two_bytes (Py.bytes_of [255; 56]) 0)
    as (b0 & b1 & Hb0 & Hb1 & Hus & Hsi & _).
  - lia.
  - vm_compute. discriminate.
  - exists b0, b1. split; [exact Hb0|]. split; [exact Hb1|]. split; [exact Hus|].
    vm_compute. reflexivity.
Defined.

(** X2. The 16-bit readers slice the buffer, so they do not fault where
    the buffer ends: at or past the end both return 0, and on the last byte
    alone the unsigned reader returns that byte and the signed reader its
    value as a signed 8-bit number. *)
Theorem buf2int16_short_reads (data : Py.bytes) (pos : Z) :
  0 <= pos ->
  (Py.len data <= pos ->
   _buf2int16_us data pos = 0 /\ _buf2int16_si data pos = 0)
  /\ (pos + 1 = Py.len data ->
      exists b,
        read_byte data pos = Ok b
        /\ _buf2int16_us data pos = b
        /\ _buf2int16_si data pos = (if b <? 128 then b else b - 256)).
Proof.
  intros H0. split.
  - intros Hend. unfold _buf2int16_us, _buf2int16_si, Py.int_from_bytes_big_signed.
    rewrite (slice_past_end data pos (pos + 2) Hend H0). split; reflexivity.
  - intros Hlast. exists (peek data pos).
    rewrite read_byte_in_range by lia.
    pose proof (peek_range data pos) as Ha.
    unfold _buf2int16_us, _buf2int16_si, Py.int_from_bytes_big_signed.
    rewrite (slice_one data pos H0 Hlast).
    change (Py.len [nth (Z.to_nat pos) data "000"%byte]) with 1.
    change (8 * 1 =? 0) with false. change (2 ^ (8 * 1 - 1)) with 128.
    change (2 ^ (8 * 1)) with 256.
    assert (Hus : Py.int_from_bytes_big [nth (Z.to_nat pos) data "000"%byte]
                  = peek data pos).
    { unfold Py.int_from_bytes_big, peek. cbn [fold_left]. lia. }
    rewrite Hus. repeat split.
Qed.

Lemma buf2int16_short_reads_witness :
  _buf2int16_us (Py.bytes_of [1; 16; 255]) 3 = 0
  /\ _buf2int16_si (Py.bytes_of [1; 16; 255]) 3 = 0
  /\ _buf2int16_us (Py.bytes_of [1; 16; 255]) 2 = 255
  /\ _buf2int16_si (Py.bytes_of [1; 16; 255]) 2 = -1.
Proof.
  destruct (buf2int16_short_reads (Py.bytes_of [1; 16; 255]) 3 ltac:(lia))
    as [Hend _].
  destruct (Hend ltac:(vm_compute; discriminate)) as [Hus Hsi].
  split; [exact Hus|]. split; [exact Hsi|].
  vm_compute. split; reflexivity.
Defined.

Lemma read_byte_raises (data : Py.bytes) (i : Z) (e : exn) :
  read_byte data i = Raise e -> e = IndexError.
Proof.
  unfold read_byte. pose proof (clean_getitem data i) as Hc.
  destruct (Py.getitem data i) as [b|e'|] eqn:Hg; cbn [res_bind]; try discriminate.
  intros [= <-]. unfold Py.getitem in Hg. cbv zeta in Hg.
  destruct ((if i <? 0 then i + Py.len data else i) <? 0);
    [injection Hg as <-; reflexivity|].
  match type of Hg with
  | match ?x with _ => _ end = _ => destruct x
  end; [discriminate|injection Hg as <-; reflexivity].
Qed.

Lemma read_byte_cases (data : Py.bytes) (i : Z) :
  0 <= i ->
  (i < Py.len data /\ read_byte data i = Ok (peek data i))
  \/ (Py.len data <= i /\ read_byte data i = Raise IndexError).
Proof.
  intros Hi. destruct (Z_lt_le_dec i (Py.len data)) as [Hlt|Hge].
  - left. split; [exact Hlt|]. apply read_byte_in_range. lia.
  - right. split; [exact Hge|]. unfold read_byte.
    rewrite getitem_past_end by exact Hge. reflexivity.
Qed.

Lemma buf2int32_us_short (data : Py.bytes) (pos : Z) :
  0 <= pos -> Py.len data < pos + 4 -> _buf2int32_us data pos = Raise IndexError.
Proof.
  intros H0 Hlen. unfold _buf2int32_us.
  destruct (read_byte_cases data (pos + 2) ltac:(lia)) as [[H2 ->]|[_ ->]];
    [|reflexivity].
  destruct (read_byte_cases data (pos + 3) ltac:(lia)) as [[H3 ->]|[_ ->]];
    [lia|reflexivity].
Qed.

(** X3. The 32-bit reader indexes the buffer, so unlike the 16-bit readers
    it faults at the end of the buffer: from a position [pos >= 0] it raises
    [IndexError] exactly when fewer than four bytes are left, and it raises
    nothing else. *)
Theorem buf2int32_us_index_error (data : Py.bytes) (pos : Z) :
  0 <= pos ->
  (_buf2int32_us data pos = Raise IndexError <-> Py.len data < pos + 4)
  /\ (forall e, _buf2int32_us data pos = Raise e -> e = IndexError)
  /\ _buf2int32_us data pos <> OutOfFuel.
Proof.
  intros H0.
  destruct (Z_lt_le_dec (Py.len data) (pos + 4)) as [Hlt|Hge].
  - rewrite (buf2int32_us_short data pos H0 Hlt).
    repeat split; [lia|congruence|discriminate].
  - rewrite (buf2int32_us_in_range data pos H0 Hge).
    repeat split; [discriminate|lia|discriminate|discriminate].
Qed.

Lemma buf2int32_us_index_error_witness :
  _buf2int32_us (Py.bytes_of [1; 2; 3]) 0 = Raise IndexError
  /\ _buf2int16_us (Py.bytes_of [1; 2; 3]) 2 = 3.
Proof.
  split.
  - apply (buf2int32_us_index_error (Py.bytes_of [1; 2; 3]) 0 ltac:(lia)).
    vm_compute. reflexivity.
  - vm_compute. reflexivity.
Defined.

(** ** The checksum *)

Lemma forall_from_spec (n : nat) (start : Z) (P : Z -> bool) :
  forall_from n start P = true ->
  forall x, start <= x < start + Z.of_nat n -> P x = true.
Proof.
  revert start. induction n as [|n IH]; intros start H x Hx; [lia|].
  cbn [forall_from] in H. apply andb_prop in H. destruct H as [H0 Hn].
  destruct (Z.eq_dec x start) as [->|Hne]; [exact H0|].
  apply (IH (start + 1) Hn). lia.
Qed.

Lemma shift_bit_facts (x : Z) :
  0 <= x < 65536 ->
  0 <= Crcmod.shift_bit x < 65536 /\ unshift_bit (Crcmod.shift_bit x) = x.
Proof.
  intros Hx.
  assert (Hall : forall_from (Z.to_nat 65536) 0 (fun x =>
                   (0 <=? Crcmod.shift_bit x) && (Crcmod.shift_bit x <? 65536)
                   && (unshift_bit (Crcmod.shift_bit x) =? x)) = true)
    by (vm_compute; reflexivity).
  pose proof (forall_from_spec _ _ _ Hall x ltac:(lia)) as H. cbv beta in H.
  clear Hall.
  apply andb_prop in H. destruct H as [H H3].
  apply andb_prop in H. destruct H as [H1 H2].
  lia.
Qed.

Lemma shift_bits_range (n : nat) (x : Z) :
  0 <= x < 65536 -> 0 <= Nat.iter n Crcmod.shift_bit x < 65536.
Proof.
  intros Hx. induction n as [|n IH]; [exact Hx|].
  cbn [Nat.iter]. apply shift_bit_facts. exact IH.
Qed.

Lemma shift_bits_inj (n : nat) (x y : Z) :
  0 <= x < 65536 -> 0 <= y < 65536 ->
  Nat.iter n Crcmod.shift_bit x = Nat.iter n Crcmod.shift_bit y -> x = y.
Proof.
  intros Hx Hy. induction n as [|n IH]; [trivial|].
  intros H. apply IH.
  change (Crcmod.shift_bit (Nat.iter n Crcmod.shift_bit x)
          = Crcmod.shift_bit (Nat.iter n Crcmod.shift_bit y)) in H.
  pose proof (proj2 (shift_bit_facts _ (shift_bits_range n x Hx))) as Ex.
  pose proof (proj2 (shift_bit_facts _ (shift_bits_range n y Hy))) as Ey.
  congruence.
Qed.

Lemma lxor_16_bits (a b : Z) :
  0 <= a < 65536 -> 0 <= b < 65536 -> 0 <= Z.lxor a b < 65536.
Proof.
  intros Ha Hb.
  assert (H0 : 0 <= Z.lxor a b) by (apply Z.lxor_nonneg; lia).
  split; [exact H0|].
  destruct (Z.eq_dec (Z.lxor a b) 0) as [->|Hne]; [lia|].
  change 65536 with (2 ^ 16). apply Z.log2_lt_pow2; [lia|].
  pose proof (Z.log2_lxor a b ltac:(lia) ltac:(lia)) as Hl.
  assert (Hla : Z.log2 a < 16).
  { destruct (Z.eq_dec a 0) as [->|]; [cbn; lia|].
    apply Z.log2_lt_pow2; [lia|]. change (2 ^ 16) with 65536. lia. }
  assert (Hlb : Z.log2 b < 16).
  { destruct (Z.eq_dec b 0) as [->|]; [cbn; lia|].
    apply Z.log2_lt_pow2; [lia|]. change (2 ^ 16) with 65536. lia. }
  lia.
Qed.

Lemma lxor_cancel_l (a b : Z) : Z.lxor a (Z.lxor a b) = b.
Proof. rewrite <- Z.lxor_assoc, Z.lxor_nilpotent, Z.lxor_0_l. reflexivity. Qed.

Lemma byte_val_inj (b b' : byte) : Py.byte_val b = Py.byte_val b' -> b = b'.
Proof.
  unfold Py.byte_val. intros H. apply N2Z.inj in H.
  pose proof (Byte.of_to_N b) as Hb. rewrite H, Byte.of_to_N in Hb. congruence.
Qed.

Lemma update_byte_range (crc : Z) (b : byte) :
  0 <= crc < 65536 -> 0 <= Crcmod.update_byte crc b < 65536.
Proof.
  intros Hc. unfold Crcmod.update_byte. apply shift_bits_range.
  apply lxor_16_bits; [exact Hc|]. pose proof (byte_val_range b). lia.
Qed.

Lemma update_bytes_range (data : Py.bytes) (crc : Z) :
  0 <= crc < 65536 -> 0 <= fold_left Crcmod.update_byte data crc < 65536.
Proof.
  revert crc. induction data as [|b data IH]; intros crc Hc; [exact Hc|].
  cbn [fold_left]. apply IH, update_byte_range, Hc.
Qed.

Lemma crc16_range (data : Py.bytes) : 0 <= CRC16 data < 65536.
Proof. apply update_bytes_range. lia. Qed.

(** Two different bytes send a CRC state to two different states, and one
    byte sends two different states to two different states. *)
Lemma update_byte_inj_byte (crc : Z) (b b' : byte) :
  0 <= crc < 65536 ->
  Crcmod.update_byte crc b = Crcmod.update_byte crc b' -> b = b'.
Proof.
  intros Hc H. unfold Crcmod.update_byte in H.
  pose proof (byte_val_range b) as Hb. pose proof (byte_val_range b') as Hb'.
  apply shift_bits_inj in H; [|apply lxor_16_bits; lia..].
  apply byte_val_inj.
  apply (f_equal (Z.lxor crc)) in H. rewrite !lxor_cancel_l in H. exact H.
Qed.

Lemma update_byte_inj_state (crc crc' : Z) (b : byte) :
  0 <= crc < 65536 -> 0 <= crc' < 65536 ->
  Crcmod.update_byte crc b = Crcmod.update_byte crc' b -> crc = crc'.
Proof.
  intros Hc Hc' H. unfold Crcmod.update_byte in H.
  pose proof (byte_val_range b) as Hb.
  apply shift_bits_inj in H; [|apply lxor_16_bits; lia..].
  apply (f_equal (Z.lxor (Py.byte_val b))) in H.
  rewrite !(Z.lxor_comm _ (Py.byte_val b)), !lxor_cancel_l in H. exact H.
Qed.

Lemma update_bytes_inj (data : Py.bytes) (crc crc' : Z) :
  0 <= crc < 65536 -> 0 <= crc' < 65536 ->
  fold_left Crcmod.update_byte data crc = fold_left Crcmod.update_byte data crc' ->
  crc = crc'.
Proof.
  revert crc crc'. induction data as [|b data IH]; intros crc crc' Hc Hc' H;
    [exact H|].
  cbn [fold_left] in H.
  apply IH in H; [|apply update_byte_range; assumption..].
  exact (update_byte_inj_state _ _ _ Hc Hc' H).
Qed.

(** Feeding a state its own two bytes, low byte first, brings it to zero. *)
Lemma own_bytes_cancel (crc : Z) :
  0 <= crc < 65536 ->
  Crcmod.update_byte (Crcmod.update_byte crc (Py.byte_of_Z (crc mod 256)))
    (Py.byte_of_Z (crc / 256)) = 0.
Proof.
  intros Hc.
  assert (Hall : forall_from (Z.to_nat 65536) 0 (fun x =>
                   Crcmod.update_byte
                     (Crcmod.update_byte x (Py.byte_of_Z (x mod 256)))
                     (Py.byte_of_Z (x / 256)) =? 0) = true)
    by (vm_compute; reflexivity).
  pose proof (forall_from_spec _ _ _ Hall crc ltac:(lia)) as H. cbv beta in H.
  clear Hall. lia.
Qed.

Lemma crc16_add_crc (body : Py.bytes) : CRC16 (add_crc body) = 0.
Proof.
  unfold add_crc, CRC16, Crcmod.modbus. rewrite fold_left_app.
  cbn [fold_left]. apply own_bytes_cancel. apply crc16_range.
Qed.

(** X4. The CRC of any byte string is a 16-bit value, and the string
    followed by that value, low byte first, has CRC zero: the residue that
    [_check_packet] tests for. *)
Theorem crc16_residue (m : Py.bytes) :
  0 <= CRC16 m < 65536
  /\ CRC16 (m ++ [Py.byte_of_Z (CRC16 m mod 256); Py.byte_of_Z (CRC16 m / 256)]) = 0.
Proof.
  split; [apply crc16_range|]. exact (crc16_add_crc m).
Qed.

Lemma len_add_crc (body : Py.bytes) : Py.len (add_crc body) = Py.len body + 2.
Proof. unfold add_crc, Py.len. rewrite length_app. cbn [length]. lia. Qed.

Lemma read_byte_app_l (l1 l2 : Py.bytes) (i : Z) :
  0 <= i < Py.len l1 -> read_byte (l1 ++ l2) i = read_byte l1 i.
Proof.
  intros Hi. unfold read_byte, Py.getitem.
  destruct (i <? 0) eqn:Hneg; [lia|]. rewrite Hneg.
  unfold Py.len in Hi. rewrite lookup_app_l by lia. reflexivity.
Qed.

(** X5. Every frame built the way the device builds them is accepted: a
    body of at least three bytes that starts with unit id 1 and carries
    either function code 16, or function code 3 with its third byte equal
    to the number of bytes that follow it, passes [_check_packet] once its
    CRC is appended low byte first. *)
Theorem framed_body_is_accepted (body : Py.bytes) :
  3 <= Py.len body ->
  read_byte body 0 = Ok 1 ->
  read_byte body 1 = Ok 16
  \/ (read_byte body 1 = Ok 3 /\ read_byte body 2 = Ok (Py.len body - 3)) ->
  _check_packet (add_crc body) = Ok true.
Proof.
  intros Hlen H0 Hfn. unfold _check_packet.
  rewrite len_add_crc.
  destruct (Py.len body + 2 <? 5) eqn:H5; [lia|].
  unfold add_crc at 1 2 3. rewrite !read_byte_app_l by lia.
  rewrite H0. cbn [res_bind Z.eqb Pos.eqb negb].
  rewrite crc16_add_crc.
  destruct Hfn as [H1|[H1 H2]]; rewrite H1.
  - destruct (read_byte_cases body 2 ltac:(lia)) as [[_ ->]|[Hge _]]; [|lia].
    reflexivity.
  - rewrite H2. cbn [res_bind Z.eqb Pos.eqb].
    destruct (Py.len body - 3 + 5 =? Py.len body + 2) eqn:He; [reflexivity|lia].
Qed.

Lemma framed_body_is_accepted_witness :
  _check_packet (add_crc (Py.bytes_of [1; 3; 2; 0; 7])) = Ok true
  /\ _check_packet (add_crc (Py.bytes_of [1; 16; 5; 80; 0; 2])) = Ok true.
Proof.
  split.
  - apply (framed_body_is_accepted (Py.bytes_of [1; 3; 2; 0; 7])).
    + vm_compute. discriminate.
    + reflexivity.
    + right. split; reflexivity.
  - apply (framed_body_is_accepted (Py.bytes_of [1; 16; 5; 80; 0; 2])).
    + vm_compute. discriminate.
    + reflexivity.
    + left. reflexivity.
Defined.

Lemma check_packet_crc (d : Py.bytes) : _check_packet d = Ok true -> CRC16 d = 0.
Proof.
  unfold _check_packet.
  destruct (Py.len d <? 5); [discriminate|].
  destruct (read_byte d 0) as [d0| |]; cbn [res_bind]; try discriminate.
  destruct (negb (d0 =? 1)); [discriminate|].
  destruct (read_byte d 1) as [d1| |]; cbn [res_bind]; try discriminate.
  destruct (read_byte d 2) as [d2| |]; cbn [res_bind]; try discriminate.
  destruct (d1 =? 3).
  - destruct (negb (d2 + 5 =? Py.len d)); [discriminate|].
    intros [= H]. lia.
  - destruct (negb (d1 =? 16)); [discriminate|].
    intros [= H]. lia.
Qed.

Lemma crc16_one_byte_apart (pre suf : Py.bytes) (b b' : byte) :
  b <> b' -> CRC16 (pre ++ b :: suf) <> CRC16 (pre ++ b' :: suf).
Proof.
  intros Hne H. apply Hne.
  unfold CRC16, Crcmod.modbus in H. rewrite !fold_left_app in H.
  cbn [fold_left] in H.
  assert (Hs : 0 <= fold_left Crcmod.update_byte pre 65535 < 65536)
    by (apply update_bytes_range; lia).
  apply update_bytes_inj in H; [|apply update_byte_range; exact Hs..].
  exact (update_byte_inj_byte _ _ _ Hs H).
Qed.

(** X6. The checksum catches every corruption of a single byte: two
    buffers that differ in exactly one position have different CRCs, so
    [_check_packet] never accepts both. *)
Theorem single_byte_corruption_is_rejected (pre suf : Py.bytes) (b b' : byte) :
  b <> b' ->
  CRC16 (pre ++ b :: suf) <> CRC16 (pre ++ b' :: suf)
  /\ (_check_packet (pre ++ b :: suf) = Ok true ->
      _check_packet (pre ++ b' :: suf) = Ok false).
Proof.
  intros Hne. pose proof (crc16_one_byte_apart pre suf b b' Hne) as Hcrc.
  split; [exact Hcrc|].
  intros Hok. apply check_packet_crc in Hok.
  destruct (check_packet_total (pre ++ b' :: suf)) as [H|H]; [|exact H].
  apply check_packet_crc in H. congruence.
Qed.

Lemma single_byte_corruption_is_rejected_witness :
  _check_packet (add_crc (Py.bytes_of [1; 16; 5; 80; 0; 2])) = Ok true
  /\ _check_packet
       (Py.bytes_of [1; 16; 5] ++ Py.byte_of_Z 81
          :: Py.bytes_of [0; 2] ++ Py.bytes_of [65; 21]) = Ok false.
Proof.
  assert (Hok : _check_packet
                  (Py.bytes_of [1; 16; 5] ++ Py.byte_of_Z 80
                     :: Py.bytes_of [0; 2] ++ Py.bytes_of [65; 21]) = Ok true)
    by (vm_compute; reflexivity).
  split; [exact Hok|].
  apply (single_byte_corruption_is_rejected (Py.bytes_of [1; 16; 5])
           (Py.bytes_of [0; 2] ++ Py.bytes_of [65; 21])
           (Py.byte_of_Z 80) (Py.byte_of_Z 81)).
  - discriminate.
  - exact Hok.
Defined.

(** ** The names of the set bits of a status word *)

Lemma land_bit (word i : Z) :
  0 <= i -> (Z.land word (Z.shiftl 1 i) <> 0 <-> Z.testbit word i = true).
Proof.
  intros Hi. rewrite Z.shiftl_1_l. split.
  - intros Hne. destruct (Z.testbit word i) eqn:Hb; [reflexivity|].
    exfalso. apply Hne. apply Z.bits_inj'. intros n Hn.
    rewrite Z.land_spec, Z.bits_0, Z.pow2_bits_eqb by exact Hi.
    destruct (Z.eqb_spec i n) as [->|_]; [rewrite Hb; reflexivity|apply andb_false_r].
  - intros Hb Hz.
    assert (Hbit : Z.testbit (Z.land word (2 ^ i)) i = true)
      by (rewrite Z.land_spec, Hb, Z.pow2_bits_true by exact Hi; reflexivity).
    rewrite Hz, Z.bits_0 in Hbit. discriminate.
Qed.

Lemma enumerate_from_elem {A} (table : list A) (start : nat) (i : Z) (x : A) :
  In (i, x) (combine (map Z.of_nat (seq start (length table))) table)
  <-> exists k : nat, i = Z.of_nat (start + k) /\ table !! k = Some x.
Proof.
  revert start. induction table as [|y table IH]; intros start; cbn [length seq map combine In].
  - split; [contradiction|]. intros (k & _ & Hk). destruct k; discriminate.
  - rewrite IH. split.
    + intros [[= <- <-]|(k & -> & Hk)].
      * exists 0%nat. split; [f_equal; lia|reflexivity].
      * exists (S k). split; [f_equal; lia|exact Hk].
    + intros ([|k] & -> & Hk).
      * left. injection Hk as ->. f_equal. f_equal. lia.
      * right. exists k. split; [f_equal; lia|exact Hk].
Qed.

Lemma enumerate_snd {A} (table : list A) : map snd (Py.enumerate table) = table.
Proof.
  unfold Py.enumerate. generalize 0%nat.
  induction table as [|y table IH]; intros start; [reflexivity|].
  cbn [length seq map combine snd]. f_equal. apply IH.
Qed.

Lemma joined_names (names : list string) :
  Forall (fun n => n <> ""%string) names ->
  Py.str_or (Py.join "; " names) "No Error"
  = match names with
    | [] => "No Error"%string
    | _ => String.concat "; " names
    end.
Proof.
  intros Hne. destruct names as [|n rest]; [reflexivity|].
  apply Forall_cons in Hne. destruct Hne as [Hn _].
  unfold Py.join. destruct n as [|c n]; [congruence|].
  destruct rest; reflexivity.
Qed.

(** The string [bit_names] builds, described by the names that make it up:
    they are taken from the table in its order, and the name at position
    [i] is among them exactly when bit [i] of the word is set. *)
Lemma bit_names_spec (table : list string) (word : Z) :
  NoDup table ->
  Forall (fun n => n <> ""%string) table ->
  exists names : list string,
    bit_names table word
    = match names with
      | [] => "No Error"%string
      | _ => String.concat "; " names
      end
    /\ names `sublist_of` table
    /\ (forall (i : nat) (name : string),
           table !! i = Some name ->
           (In name names <-> Z.testbit word (Z.of_nat i) = true)).
Proof.
  intros Hnodup Hne.
  set (P := fun p : Z * string => Z.land word (Z.shiftl 1 (fst p)) <> 0).
  exists (map snd (filter P (Py.enumerate table))).
  assert (Hsub : map snd (filter P (Py.enumerate table)) `sublist_of` table).
  { rewrite <- (enumerate_snd table) at 2.
    apply (fmap_sublist snd). apply sublist_filter. }
  split; [|split; [exact Hsub|]].
  - unfold bit_names. fold P. apply joined_names.
    apply Forall_forall. intros n Hn.
    rewrite Forall_forall in Hne. apply Hne.
    eapply elem_of_sublist; [exact Hn|exact Hsub].
  - intros i name Hi. rewrite in_map_iff. split.
    + intros ([j n] & Hn & Hin). cbn [snd] in Hn. subst n.
      apply list_elem_of_In, list_elem_of_filter in Hin. destruct Hin as [HP Hin].
      apply list_elem_of_In in Hin. unfold Py.enumerate in Hin.
      apply enumerate_from_elem in Hin. destruct Hin as (k & -> & Hk).
      assert (k = i) by (eapply NoDup_lookup; eassumption). subst k.
      unfold P in HP. cbn [fst] in HP. apply land_bit in HP; [exact HP|lia].
    + intros Hb. exists (Z.of_nat i, name). split; [reflexivity|].
      apply list_elem_of_In, list_elem_of_filter. split.
      * unfold P. cbn [fst]. apply land_bit; [lia|exact Hb].
      * apply list_elem_of_In. unfold Py.enumerate.
        apply enumerate_from_elem. exists i. split; [reflexivity|exact Hi].
Qed.

Lemma errors_table : NoDup _errors /\ Forall (fun n => n <> ""%string) _errors.
Proof.
  split.
  - apply (bool_decide_unpack _). vm_compute. exact I.
  - repeat constructor; discriminate.
Qed.

Lemma stat_tower_table :
  NoDup _stat_tower /\ Forall (fun n => n <> ""%string) _stat_tower.
Proof.
  split.
  - apply (bool_decide_unpack _). vm_compute. exact I.
  - repeat constructor; discriminate.
Qed.

(** ** How the snapshot decoders end *)

(** Resolves the next indexed read of a decoder: either the byte is there,
    or the read raises [IndexError] and the decoder ends with it. *)
Ltac read_or_raise :=
  match goal with
  | |- context [read_byte ?d ?k] =>
      let Hin := fresh "Hin" in
      destruct (read_byte_cases d k ltac:(lia)) as [[Hin ->]|[Hin ->]];
      cbv beta iota; mrun
  end.

Ltac branch_or_read :=
  repeat first
    [ read_or_raise
    | match goal with
      | |- context [if ?c then _ else _] => destruct c eqn:?; mrun
      end ].

Lemma parse_packet0_result (data : Py.bytes) (s : St) :
  fst (_parse_packet0 data s)
  = if forallb (fun b => Py.byte_val b <? 128) (Py.slice data 3 22)
    then if Py.len data <? 39 then Raise IndexError else Ok tt
    else Raise UnicodeDecodeError.
Proof.
  destruct s as [self w].
  destruct (forallb (fun b => Py.byte_val b <? 128) (Py.slice data 3 22)) eqn:Hascii.
  - destruct (Py.len data <? 39) eqn:Hlen.
    + unfold _parse_packet0. mrun. unfold Py.decode_ascii. rewrite Hascii.
      cbv beta iota. mrun.
      branch_or_read; try reflexivity; lia.
    + destruct (parse_packet0_run self w data (string_of_list_byte (Py.slice data 3 22)))
        as (self' & -> & _); [lia| |reflexivity].
      unfold Py.decode_ascii. rewrite Hascii. reflexivity.
  - unfold _parse_packet0. mrun. unfold Py.decode_ascii. rewrite Hascii. reflexivity.
Qed.

Lemma parse_packet1_result (data : Py.bytes) (s : St) :
  fst (_parse_packet1 data s)
  = if Py.len data <? 45 then Raise IndexError else Ok tt.
Proof.
  destruct s as [self w].
  destruct (Py.len data <? 45) eqn:Hlen.
  - unfold _parse_packet1. mrun.
    read_or_raise; [|reflexivity].
    read_or_raise; [|reflexivity].
    destruct (Z_lt_le_dec (Py.len data) 41) as [H41|H41].
    + rewrite (buf2int32_us_short data 37) by lia. reflexivity.
    + rewrite (buf2int32_us_in_range data 37) by lia. cbv beta iota.
      rewrite int_truediv_nonzero by lia. cbv beta iota.
      rewrite (buf2int32_us_short data 41) by lia. reflexivity.
  - destruct (parse_packet1_run self w data ltac:(lia)) as (self' & c & d & -> & _).
    reflexivity.
Qed.

Lemma parse_packet2_result (data : Py.bytes) (s : St) :
  fst (_parse_packet2 data s)
  = if Py.len data <? 6 then Raise IndexError else Ok tt.
Proof.
  destruct s as [self w].
  destruct (Py.len data <? 6) eqn:Hlen.
  - unfold _parse_packet2. mrun.
    read_or_raise; [lia|reflexivity].
  - destruct (parse_packet2_run self w data ltac:(lia)) as (self' & -> & _).
    reflexivity.
Qed.

(** X7. [_parse_packet0] returns exactly when the 19 serial bytes are ASCII
    and the reply has at least 39 bytes; a non-ASCII serial byte raises
    [UnicodeDecodeError] (checked first) and a shorter reply [IndexError].
    When it returns, the module and tower counts are the low and the high
    nibble of byte 36. *)
Theorem identity_decoder_outcome (data : Py.bytes) (self : BYDHVS) (w : World) :
  fst (_parse_packet0 data (self, w))
  = (if forallb (fun b => Py.byte_val b <? 128) (Py.slice data 3 22)
     then if Py.len data <? 39 then Raise IndexError else Ok tt
     else Raise UnicodeDecodeError)
  /\ match _parse_packet0 data (self, w) with
     | (Ok _, (self', _)) =>
         0 <= hvs_modules self' < 16 /\ 0 <= hvs_towers self' < 16
         /\ read_byte data 36 = Ok (hvs_towers self' * 16 + hvs_modules self')
     | _ => True
     end.
Proof.
  split; [apply parse_packet0_result|].
  pose proof (parse_packet0_result data (self, w)) as Hres.
  destruct (forallb (fun b => Py.byte_val b <? 128) (Py.slice data 3 22)) eqn:Hascii;
    [destruct (Py.len data <? 39) eqn:Hlen|].
  - destruct (_parse_packet0 data (self, w)) as [[[]|e|] [self' w']];
      [discriminate|exact I|exact I].
  - destruct (parse_packet0_run self w data (string_of_list_byte (Py.slice data 3 22)))
      as (self' & -> & _ & Hm & Ht & _); [lia| |].
    { unfold Py.decode_ascii. rewrite Hascii. reflexivity. }
    rewrite Hm, Ht, read_byte_in_range by lia.
    pose proof (peek_range data 36) as Hr.
    pose proof (Z.mod_pos_bound (peek data 36) 16 ltac:(lia)) as Hmod.
    pose proof (Z.div_mod (peek data 36) 16 ltac:(lia)) as Hdm.
    pose proof (Z.div_pos (peek data 36) 16 ltac:(lia) ltac:(lia)) as Hd0.
    pose proof (Z.div_lt_upper_bound (peek data 36) 16 16 ltac:(lia) ltac:(lia)) as Hd1.
    split; [lia|]. split; [lia|]. f_equal. lia.
  - destruct (_parse_packet0 data (self, w)) as [[[]|e|] [self' w']];
      [discriminate|exact I|exact I].
Qed.

(** What [_parse_packet1] has written when it ends, with or without an
    exception. *)
Lemma parse_packet1_partial (data : Py.bytes) (self : BYDHVS) (w : World) :
  let self' := fst (snd (_parse_packet1 data (self, w))) in
  hvs_soc self' = _buf2int16_si data 3
  /\ hvs_error self' = _buf2int16_si data 29
  /\ (Py.len data < 41 ->
      hvs_charge_total self' = hvs_charge_total self /\ hvs_eta self' = hvs_eta self)
  /\ (33 <= Py.len data ->
      hvs_error_string self' = bit_names _errors (_buf2int16_si data 29)).
Proof.
  cbv zeta. unfold _parse_packet1. mrun.
  read_or_raise; [|cbv [fst snd]; proj_simpl; repeat split; lia].
  read_or_raise; [|cbv [fst snd]; proj_simpl; repeat split; lia].
  destruct (Z_lt_le_dec (Py.len data) 41) as [H41|H41].
  - rewrite (buf2int32_us_short data 37) by lia. cbv [fst snd]. proj_simpl.
    repeat split.
  - rewrite (buf2int32_us_in_range data 37) by lia. cbv beta iota.
    rewrite int_truediv_nonzero by lia. cbv beta iota.
    destruct (Z_lt_le_dec (Py.len data) 45) as [H45|H45].
    + rewrite (buf2int32_us_short data 41) by lia. cbv [fst snd]. proj_simpl.
      split; [reflexivity|]. split; [reflexivity|]. split; [lia|reflexivity].
    + rewrite (buf2int32_us_in_range data 41) by lia. cbv beta iota.
      rewrite int_truediv_nonzero by lia. cbv beta iota.
      match goal with
      | |- context [if ?c then _ else _] => destruct c
      end; unfold Py.truediv;
        repeat match goal with
               | |- context [if ?c then _ else _] => destruct c
               end;
        mrun; cbv [fst snd]; proj_simpl;
        (split; [reflexivity|]); (split; [reflexivity|]);
        (split; [lia|reflexivity]).
Qed.

(** X8. [_parse_packet1] returns exactly when the reply has at least 45
    bytes and raises [IndexError] otherwise. The attributes are assigned in
    program order, so a short reply leaves a snapshot that is partly new:
    the state of charge and the error word are those of the reply whatever
    the outcome, while below 41 bytes the charge total and the efficiency
    are still the old ones. *)
Theorem status_decoder_outcome (data : Py.bytes) (self : BYDHVS) (w : World) :
  fst (_parse_packet1 data (self, w))
  = (if Py.len data <? 45 then Raise IndexError else Ok tt)
  /\ hvs_soc (fst (snd (_parse_packet1 data (self, w)))) = _buf2int16_si data 3
  /\ hvs_error (fst (snd (_parse_packet1 data (self, w)))) = _buf2int16_si data 29
  /\ (if Py.len data <? 41
      then hvs_charge_total (fst (snd (_parse_packet1 data (self, w))))
           = hvs_charge_total self
           /\ hvs_eta (fst (snd (_parse_packet1 data (self, w)))) = hvs_eta self
      else True).
Proof.
  split; [apply parse_packet1_result|].
  destruct (parse_packet1_partial data self w) as (Hsoc & Herr & Hold & _).
  split; [exact Hsoc|]. split; [exact Herr|].
  destruct (Py.len data <? 41) eqn:Hlen; [apply Hold; lia|exact I].
Qed.

(** Every non-zero 16-bit error word has a bit that names an error. *)
Lemma errors_named (v : Z) :
  -32768 <= v < 32768 -> (bit_names _errors v = "No Error"%string <-> v = 0).
Proof.
  intros Hv.
  assert (Hall : forall_from (Z.to_nat 65536) (-32768)
                   (fun v => Bool.eqb (String.eqb (bit_names _errors v) "No Error")
                               (v =? 0)) = true)
    by (vm_compute; reflexivity).
  pose proof (forall_from_spec _ _ _ Hall v ltac:(lia)) as H. cbv beta in H.
  clear Hall. apply Bool.eqb_prop in H.
  rewrite <- String.eqb_eq, H. lia.
Qed.

(** X9. On a status reply of at least 45 bytes [_parse_packet1] returns,
    the error word is the signed 16-bit value at offset 29, and the error
    string is made of the names of the word's set bits: the names are taken
    from the error table in its order, the name at position [i] is among
    them exactly when bit [i] of the word is set, and the string is these
    names joined by "; ", or "No Error" when there is none. The string is
    "No Error" exactly when the word is 0, so no non-zero word, negative
    ones included, is reported as healthy. *)
Theorem error_string_names_errors (data : Py.bytes) (self : BYDHVS) (w : World) :
  45 <= Py.len data ->
  exists self' w' (names : list string),
    _parse_packet1 data (self, w) = (Ok tt, (self', w'))
    /\ hvs_error self' = _buf2int16_si data 29
    /\ hvs_error_string self'
       = match names with
         | [] => "No Error"%string
         | _ => String.concat "; " names
         end
    /\ names `sublist_of` _errors
    /\ (forall (i : nat) (name : string),
           _errors !! i = Some name ->
           (In name names <-> Z.testbit (hvs_error self') (Z.of_nat i) = true))
    /\ (hvs_error_string self' = "No Error"%string <-> hvs_error self' = 0).
Proof.
  intros Hlen.
  pose proof (parse_packet1_result data (self, w)) as Hres.
  destruct (parse_packet1_partial data self w) as (_ & Herr & _ & Hstr).
  destruct (_parse_packet1 data (self, w)) as [r [self' w']].
  cbn [fst snd] in *.
  destruct (Py.len data <? 45) eqn:H45; [lia|]. subst r.
  specialize (Hstr ltac:(lia)).
  destruct (bit_names_spec _errors (hvs_error self')
              (proj1 errors_table) (proj2 errors_table))
    as (names & Hnames & Hsub & Hbits).
  exists self', w', names. split; [reflexivity|].
  split; [exact Herr|].
  split; [rewrite Hstr, <- Herr; exact Hnames|].
  split; [exact Hsub|]. split; [exact Hbits|].
  rewrite Hstr, Herr.
  apply errors_named. apply buf2int16_si_range. lia.
Qed.

Lemma error_string_names_errors_witness :
  let reply := read_reply (repeat 0 26 ++ [0; 9] ++ repeat 0 14) in
  exists self' w' (names : list string),
    _parse_packet1 reply (__init__ "192.168.16.254" 8080, world0)
    = (Ok tt, (self', w'))
    /\ hvs_error self' = 9
    /\ In "High temperature during charging (cells)"%string names
    /\ In "Overcurrent during charging"%string names
    /\ ~ In "Low temperature during charging (cells)"%string names
    /\ hvs_error_string self'
       = "High temperature during charging (cells); Overcurrent during charging"%string.
Proof.
  intros reply.
  destruct (error_string_names_errors reply (__init__ "192.168.16.254" 8080) world0)
    as (self' & w' & names & Hrun & Herr & _ & _ & Hbits & _).
  - vm_compute. discriminate.
  - assert (H9 : hvs_error self' = 9) by (rewrite Herr; vm_compute; reflexivity).
    assert (Hs : hvs_error_string
                   (fst (snd (_parse_packet1 reply
                                (__init__ "192.168.16.254" 8080, world0))))
                 = "High temperature during charging (cells); Overcurrent during charging"%string)
      by (vm_compute; reflexivity).
    rewrite Hrun in Hs. cbn [fst snd] in Hs.
    rewrite H9 in Hbits.
    exists self', w', names. split; [exact Hrun|]. split; [exact H9|].
    split; [apply (Hbits 0%nat); reflexivity|].
    split; [apply (Hbits 3%nat); reflexivity|].
    split; [|exact Hs].
    intros Hin. apply (Hbits 1%nat) in Hin; [discriminate Hin|reflexivity].
Defined.

(** What [_parse_packet2] stores besides the targets. *)
Lemma parse_packet2_names (self : BYDHVS) (w : World) (data : Py.bytes) :
  6 <= Py.len data ->
  let self' := fst (snd (_parse_packet2 data (self, w))) in
  let lvs := String.eqb (hvs_batt_type_from_serial self) "LVS" in
  hvs_inv_type self' = PInt (peek data 3)
  /\ hvs_inv_type_string self'
     = nth (Z.to_nat (peek data 3)) (if lvs then _lvs_inverters else _inverters)
         "undefined"%string
  /\ hvs_batt_type self' = (if lvs then PStr "LVS" else PInt (peek data 5))
  /\ hvs_batt_type_string self'
     = match batt_type_map (peek data 5) with
       | Some (name, _, _) => name
       | None => ""%string
       end.
Proof.
  intros Hlen. cbv zeta.
  pose proof (peek_range data 3) as H3.
  assert (Hinv : forall i, 0 <= i -> (i <? Py.len _inverters) = true ->
                           Py.getitem _inverters i
                           = Ok (nth (Z.to_nat i) _inverters "undefined"%string)).
  { intros i Hi Hb. apply getitem_in_range. lia. }
  assert (Hlvs : forall i, 0 <= i -> (i <? Py.len _lvs_inverters) = true ->
                           Py.getitem _lvs_inverters i
                           = Ok (nth (Z.to_nat i) _lvs_inverters "undefined"%string)).
  { intros i Hi Hb. apply getitem_in_range. lia. }
  assert (Hno : forall i, (i <? Py.len _inverters) = false ->
                          nth (Z.to_nat i) _inverters "undefined"%string
                          = "undefined"%string).
  { intros i Hb. apply nth_overflow. change (length _inverters) with 20%nat.
    change (Py.len _inverters) with 20 in Hb. lia. }
  assert (Hnol : forall i, (i <? Py.len _lvs_inverters) = false ->
                           nth (Z.to_nat i) _lvs_inverters "undefined"%string
                           = "undefined"%string).
  { intros i Hb. apply nth_overflow. change (length _lvs_inverters) with 21%nat.
    change (Py.len _lvs_inverters) with 21 in Hb. lia. }
  unfold _parse_packet2. mrun. read_all. proj_simpl.
  destruct (batt_type_map (peek data 5)) as [[[bname bcells] btemps]|];
    (destruct (peek data 3 <? Py.len _inverters) eqn:Hi;
     [rewrite (Hinv _ (proj1 H3) Hi)|]; mrun;
     (destruct (String.eqb (hvs_batt_type_from_serial self) "LVS") eqn:Hhint; mrun;
      [ destruct (peek data 3 <? Py.len _lvs_inverters) eqn:Hi2;
        [rewrite (Hlvs _ (proj1 H3) Hi2)|]; mrun
      | ]);
     cbv [fst snd]; proj_simpl;
     repeat match goal with |- _ /\ _ => split end;
     try reflexivity;
     first [ rewrite (Hno _ Hi); reflexivity
           | rewrite (Hnol _ Hi2); reflexivity ]).
Qed.

(** X10. [_parse_packet2] returns exactly when the reply has at least 6
    bytes and raises [IndexError] otherwise. On return the inverter name is
    the table entry of the inverter code (the LVS table when the serial
    number said LVS) or "undefined" past the end of the table, never an
    error; and with the LVS hint the battery type attribute becomes the
    string "LVS" while the type name keeps the one of the type code. *)
Theorem battery_info_decoder_outcome (data : Py.bytes) (self : BYDHVS) (w : World) :
  fst (_parse_packet2 data (self, w))
  = (if Py.len data <? 6 then Raise IndexError else Ok tt)
  /\ (if Py.len data <? 6 then True
      else
        let self' := fst (snd (_parse_packet2 data (self, w))) in
        let lvs := String.eqb (hvs_batt_type_from_serial self) "LVS" in
        exists batt_type inv_type,
          read_byte data 5 = Ok batt_type /\ read_byte data 3 = Ok inv_type
          /\ hvs_inv_type self' = PInt inv_type
          /\ hvs_inv_type_string self'
             = nth (Z.to_nat inv_type) (if lvs then _lvs_inverters else _inverters)
                 "undefined"%string
          /\ hvs_batt_type self' = (if lvs then PStr "LVS" else PInt batt_type)
          /\ hvs_batt_type_string self'
             = match batt_type_map batt_type with
               | Some (name, _, _) => name
               | None => ""%string
               end).
Proof.
  split; [apply parse_packet2_result|].
  destruct (Py.len data <? 6) eqn:Hlen; [exact I|].
  cbv zeta. exists (peek data 5), (peek data 3).
  rewrite !read_byte_in_range by lia.
  split; [reflexivity|]. split; [reflexivity|].
  apply (parse_packet2_names self w data). lia.
Qed.

(** ** The tower decoders *)

Lemma flags_slice_nonempty (data : Py.bytes) :
  18 <= Py.len data -> Py.slice data 17 33 <> [].
Proof.
  intros Hlen Hnil. pose proof (slice_len data 17 33) as Hl. rewrite Hnil in Hl.
  unfold Py.slice_bound in Hl. cbn [Z.ltb Z.compare] in Hl.
  change (Py.len (@nil byte)) with 0 in Hl. lia.
Qed.

(** Ends a case in which the decoder has raised. *)
Ltac raised :=
  cbv [fst];
  repeat match goal with
         | |- context [if ?c then _ else _] => destruct c eqn:?
         end;
  first [reflexivity | lia].

Lemma parse_packet5_result (self : BYDHVS) (w : World) (data : Py.bytes)
      (tower_number : Z) (d : gmap string pyval) :
  0 <= tower_number ->
  tower_attributes self !! Z.to_nat tower_number = Some d ->
  fst (_parse_packet5 data tower_number (self, w))
  = if Py.len data <? 17 then Raise IndexError
    else if Py.len data =? 17 then Raise ValueError
    else if Py.len data <? 61 then Raise IndexError
    else Ok tt.
Proof.
  intros H0 Ht.
  destruct (Z_lt_le_dec (Py.len data) 61) as [Hshort|Hlong].
  - unfold _parse_packet5, log_decoder.
    cbv [bind set_world fst snd].
    rewrite (tower_ref_run _ _ _ d H0 Ht).
    unfold tower_set, byte_at.
    cbv [bind set_self lift ret get_self fst snd].
    do 6 (read_or_raise; [|raised]).
    destruct (Z.eq_dec (Py.len data) 17) as [H17|H17].
    + rewrite (slice_past_end data 17 33) by lia.
      cbn [Py.hex Py.int_of_hex]. raised.
    + rewrite (int_of_hex_hex _ (flags_slice_nonempty data ltac:(lia))).
      cbv beta iota.
      destruct (Z_lt_le_dec (Py.len data) 37) as [H37|H37];
        [rewrite (buf2int32_us_short data 33) by lia; raised|].
      rewrite (buf2int32_us_in_range data 33) by lia. cbv beta iota.
      destruct (Z_lt_le_dec (Py.len data) 41) as [H41|H41];
        [rewrite (buf2int32_us_short data 37) by lia; raised|].
      rewrite (buf2int32_us_in_range data 37) by lia. cbv beta iota.
      match goal with
      | |- context [negb (?c =? 0)] => destruct (c =? 0) eqn:Hc
      end; cbv [negb]; cbv beta iota;
        rewrite ?int_truediv_nonzero by lia; cbv beta iota;
        (read_or_raise; [|raised]); (read_or_raise; [|raised]); lia.
  - destruct (parse_packet5_run self w data tower_number d H0 Ht Hlong)
      as (d' & c & dis & -> & _).
    raised.
Qed.

(** X12. [_parse_packet5] ends in one of four ways, decided by the tower
    index and the length of the reply alone: [IndexError] when the tower
    list has no such tower or the reply has fewer than 17 bytes,
    [ValueError] on exactly 17 bytes (the balancing flags are then the empty
    string, which [int(..., 16)] refuses), [IndexError] again up to 60 bytes,
    and a normal return from 61 bytes on. *)
Theorem first_block_decoder_outcome (self : BYDHVS) (w : World) (data : Py.bytes)
        (tower_number : Z) :
  0 <= tower_number ->
  fst (_parse_packet5 data tower_number (self, w))
  = if Py.len (tower_attributes self) <=? tower_number then Raise IndexError
    else if Py.len data <? 17 then Raise IndexError
    else if Py.len data =? 17 then Raise ValueError
    else if Py.len data <? 61 then Raise IndexError
    else Ok tt.
Proof.
  intros H0.
  destruct (tower_attributes self !! Z.to_nat tower_number) as [d|] eqn:Ht.
  - pose proof (lookup_lt_Some _ _ _ Ht) as Hlt.
    destruct (Py.len (tower_attributes self) <=? tower_number) eqn:Hle;
      [unfold Py.len in Hle; lia|].
    exact (parse_packet5_result self w data tower_number d H0 Ht).
  - pose proof (lookup_ge_None_1 _ _ Ht) as Hge.
    destruct (Py.len (tower_attributes self) <=? tower_number) eqn:Hle;
      [|unfold Py.len in Hle; lia].
    unfold _parse_packet5, log_decoder, tower_ref.
    cbv [bind set_world get_self lift fst snd].
    rewrite getitem_past_end by (unfold Py.len; lia). reflexivity.
Qed.

Lemma first_block_decoder_outcome_witness :
  fst (_parse_packet5 (Py.bytes_of (repeat 0 17)) 0 (one_tower_eight_cells, world0))
  = Raise ValueError
  /\ fst (_parse_packet5 short_ack 0 (one_tower_eight_cells, world0))
     = Raise IndexError.
Proof.
  split.
  - rewrite (first_block_decoder_outcome one_tower_eight_cells world0
               (Py.bytes_of (repeat 0 17)) 0 ltac:(lia)).
    reflexivity.
  - rewrite (first_block_decoder_outcome one_tower_eight_cells world0 short_ack 0
               ltac:(lia)).
    reflexivity.
Defined.

(** The tower summary [_parse_packet5] stores on a reply of at least 61
    bytes. *)
Lemma parse_packet5_fields (self : BYDHVS) (w : World) (data : Py.bytes)
      (tower_number : Z) (d : gmap string pyval) :
  0 <= tower_number ->
  tower_attributes self !! Z.to_nat tower_number = Some d ->
  61 <= Py.len data ->
  exists (d' : gmap string pyval) (state_int : Z),
    _parse_packet5 data tower_number (self, w)
    = (Ok tt,
       (self <| tower_attributes :=
                  <[Z.to_nat tower_number := d']> (tower_attributes self) |>,
        w <| w_decoded := w_decoded w ++ [(5, data)] |>))
    /\ Py.int_of_str (Py.str (peek data 59) +:+ Py.str (peek data 60)) = Ok state_int
    /\ d' !! "no" = Some (PInt tower_number)
    /\ d' !! "balancing_status" = Some (PStr (Py.hex (Py.slice data 17 33)))
    /\ d' !! "balancing_count"
       = Some (PInt (Py.bin_count_ones (Py.int_from_bytes_big (Py.slice data 17 33))))
    /\ d' !! "state"
       = Some (PStr (Py.str (peek data 59) +:+ Py.str (peek data 60)))
    /\ d' !! "state_string" = Some (PStr (bit_names _stat_tower state_int))
    /\ d' !! "cell_voltages" = Some (PList (cell_block data 101 16)).
Proof.
  intros H0 Ht Hlen.
  assert (Hlt : (Z.to_nat tower_number < length (tower_attributes self))%nat)
    by (apply lookup_lt_Some in Ht; exact Ht).
  destruct (int_of_str_two_bytes (peek data 59) (peek data 60)
              (peek_range _ _) (peek_range _ _)) as [state_int Hstate].
  unfold _parse_packet5, log_decoder.
  cbv [bind set_world fst snd].
  rewrite (tower_ref_run _ _ _ d H0 Ht).
  unfold tower_set, byte_at.
  cbv [bind set_self lift ret get_self fst snd].
  read_all.
  rewrite (int_of_hex_hex _ (flags_slice_nonempty data ltac:(lia))). cbv beta iota.
  read_all.
  match goal with
  | |- context [negb (?c =? 0)] => destruct (c =? 0) eqn:Hc
  end; cbv [negb]; cbv beta iota;
    rewrite ?int_truediv_nonzero by lia; cbv beta iota;
    read_all; rewrite Hstate; cbv beta iota;
    eexists; exists state_int;
    (split;
     [ f_equal; f_equal; apply towers_only; [reflexivity|];
       proj_simpl;
       rewrite (alter_as_insert _ _ _ _ Ht);
       repeat rewrite alter_insert_same by exact Hlt;
       reflexivity
     | ]);
    (split; [reflexivity|]);
    repeat match goal with |- _ /\ _ => split end;
    repeat (rewrite lookup_insert_ne by discriminate);
    apply lookup_insert_eq.
Qed.

Lemma popcount_bound (p : positive) :
  forall n, 0 <= n -> Zpos p < 2 ^ n -> 1 <= Py.popcount p <= n.
Proof.
  induction p as [p IH|p IH|]; intros n Hn Hlt.
  - assert (Hn1 : 1 <= n).
    { destruct (Z.eq_dec n 0) as [->|]; [cbn in Hlt; lia|lia]. }
    replace n with (Z.succ (n - 1)) in Hlt by lia.
    rewrite Z.pow_succ_r in Hlt by lia.
    specialize (IH (n - 1) ltac:(lia) ltac:(lia)).
    cbn [Py.popcount]. lia.
  - assert (Hn1 : 1 <= n).
    { destruct (Z.eq_dec n 0) as [->|]; [cbn in Hlt; lia|lia]. }
    replace n with (Z.succ (n - 1)) in Hlt by lia.
    rewrite Z.pow_succ_r in Hlt by lia.
    specialize (IH (n - 1) ltac:(lia) ltac:(lia)).
    cbn [Py.popcount]. lia.
  - assert (Hn1 : 1 <= n).
    { destruct (Z.eq_dec n 0) as [->|]; [cbn in Hlt; lia|lia]. }
    cbn [Py.popcount]. lia.
Qed.

Lemma int_from_bytes_bound (bs : Py.bytes) (acc : Z) :
  0 <= acc ->
  0 <= fold_left (fun a b => a * 256 + Py.byte_val b) bs acc
  < (acc + 1) * 256 ^ Py.len bs.
Proof.
  revert acc. induction bs as [|b bs IH]; intros acc Hacc.
  - cbn [fold_left]. change (Py.len (@nil byte)) with 0. lia.
  - cbn [fold_left]. pose proof (byte_val_range b) as Hb.
    specialize (IH (acc * 256 + Py.byte_val b) ltac:(lia)).
    replace (Py.len (b :: bs)) with (Z.succ (Py.len bs))
      by (unfold Py.len; cbn [length]; lia).
    rewrite Z.pow_succ_r by (unfold Py.len; lia).
    assert (Hp : 0 < 256 ^ Py.len bs) by (apply Z.pow_pos_nonneg; unfold Py.len; lia).
    nia.
Qed.

(** The number of balancing cells is at most the 128 bits of the flags. *)
Lemma balancing_count_range (data : Py.bytes) :
  0 <= Py.bin_count_ones (Py.int_from_bytes_big (Py.slice data 17 33)) <= 128.
Proof.
  pose proof (int_from_bytes_bound (Py.slice data 17 33) 0 ltac:(lia)) as Hb.
  fold (Py.int_from_bytes_big (Py.slice data 17 33)) in Hb.
  assert (Hl : Py.len (Py.slice data 17 33) <= 16).
  { rewrite slice_len. unfold Py.slice_bound. cbn [Z.ltb Z.compare]. lia. }
  assert (Hl0 : 0 <= Py.len (Py.slice data 17 33)) by (unfold Py.len; lia).
  assert (Hpow : 256 ^ Py.len (Py.slice data 17 33) <= 2 ^ 128).
  { change 256 with (2 ^ 8). rewrite <- Z.pow_mul_r by lia.
    apply Z.pow_le_mono_r; lia. }
  destruct (Py.int_from_bytes_big (Py.slice data 17 33)) as [|p|p] eqn:Hv.
  - cbn. lia.
  - cbn [Py.bin_count_ones].
    pose proof (popcount_bound p 128 ltac:(lia) ltac:(lia)). lia.
  - lia.
Qed.

(** X14. The two decoders that count the balancing cells agree: on the
    same reply of at least 61 bytes, [_parse_packet5] (through the
    hexadecimal rendering of bytes 17 to 32) and [_parse_packet12] (through
    [int.from_bytes]) store the same count, the number of set bits among
    those 128, so a value between 0 and 128. *)
Theorem balancing_count_agrees (self : BYDHVS) (w : World) (data : Py.bytes)
        (tower_number : Z) (d : gmap string pyval) (vs : list Z) :
  0 <= tower_number ->
  tower_attributes self !! Z.to_nat tower_number = Some d ->
  d !! "cell_voltages" = Some (PList vs) ->
  61 <= Py.len data ->
  exists count self5 w5 d5 self12 w12 d12,
    _parse_packet5 data tower_number (self, w) = (Ok tt, (self5, w5))
    /\ tower_attributes self5 !! Z.to_nat tower_number = Some d5
    /\ d5 !! "balancing_count" = Some (PInt count)
    /\ _parse_packet12 data tower_number (self, w) = (Ok tt, (self12, w12))
    /\ tower_attributes self12 !! Z.to_nat tower_number = Some d12
    /\ d12 !! "balancing_count" = Some (PInt count)
    /\ count = Py.bin_count_ones (Py.int_from_bytes_big (Py.slice data 17 33))
    /\ 0 <= count <= 128.
Proof.
  intros H0 Ht Hvs Hlen.
  assert (Hlt : (Z.to_nat tower_number < length (tower_attributes self))%nat)
    by (apply lookup_lt_Some in Ht; exact Ht).
  destruct (parse_packet5_fields self w data tower_number d H0 Ht Hlen)
    as (d5 & st & Hrun5 & _ & _ & _ & Hc5 & _).
  pose proof (parse_packet12_run self w data tower_number d vs H0 Ht Hvs) as Hrun12.
  eexists. eexists. eexists. exists d5. eexists. eexists. eexists.
  split; [exact Hrun5|].
  split; [proj_simpl; apply list_lookup_insert_eq; exact Hlt|].
  split; [exact Hc5|].
  split; [exact Hrun12|].
  split; [proj_simpl; apply list_lookup_insert_eq; exact Hlt|].
  split; [rewrite lookup_insert_ne by discriminate; apply lookup_insert_eq|].
  split; [reflexivity|apply balancing_count_range].
Qed.

Lemma balancing_count_agrees_witness :
  exists count self5 w5 d5 self12 w12 d12,
    _parse_packet5 cell_reply 0 (one_tower_eight_cells, world0) = (Ok tt, (self5, w5))
    /\ tower_attributes self5 !! 0%nat = Some d5
    /\ d5 !! "balancing_count" = Some (PInt count)
    /\ _parse_packet12 cell_reply 0 (one_tower_eight_cells, world0)
       = (Ok tt, (self12, w12))
    /\ tower_attributes self12 !! 0%nat = Some d12
    /\ d12 !! "balancing_count" = Some (PInt count)
    /\ 0 <= count <= 128.
Proof.
  destruct (balancing_count_agrees one_tower_eight_cells world0 cell_reply 0
              (<["cell_temperatures" := PList []]> (<["cell_voltages" := PList []]> ∅))
              [])
    as (count & self5 & w5 & d5 & self12 & w12 & d12
        & H5 & Hd5 & Hc5 & H12 & Hd12 & Hc12 & _ & Hr).
  - lia.
  - reflexivity.
  - reflexivity.
  - vm_compute. discriminate.
  - exists count, self5, w5, d5, self12, w12, d12.
    split; [exact H5|]. split; [exact Hd5|]. split; [exact Hc5|].
    split; [exact H12|]. split; [exact Hd12|]. split; [exact Hc12|exact Hr].
Defined.

(** Every status rendered from two bytes parses back, and it names a fault
    unless both bytes are zero. *)
Lemma tower_state_named (a b : Z) :
  0 <= a < 256 -> 0 <= b < 256 ->
  exists v,
    Py.int_of_str (Py.str a +:+ Py.str b) = Ok v
    /\ (bit_names _stat_tower v = "No Error"%string <-> a = 0 /\ b = 0).
Proof.
  intros Ha Hb.
  assert (Hall : forall_from (Z.to_nat 256) 0 (fun x =>
                   forall_from (Z.to_nat 256) 0 (fun y =>
                     match Py.int_of_str (Py.str x +:+ Py.str y) with
                     | Ok v =>
                         Bool.eqb (String.eqb (bit_names _stat_tower v) "No Error")
                           ((x =? 0) && (y =? 0))
                     | _ => false
                     end)) = true)
    by (vm_compute; reflexivity).
  pose proof (forall_from_spec _ _ _ Hall a ltac:(lia)) as H1. cbv beta in H1.
  pose proof (forall_from_spec _ _ _ H1 b ltac:(lia)) as H2. cbv beta in H2.
  clear Hall H1.
  destruct (Py.int_of_str (Py.str a +:+ Py.str b)) as [v| |]; try discriminate.
  exists v. split; [reflexivity|].
  apply Bool.eqb_prop in H2. rewrite <- String.eqb_eq, H2.
  rewrite andb_true_iff. lia.
Qed.

(** X15. On a reply of at least 61 bytes [_parse_packet5] renders the tower
    status as the decimal digits of byte 59 followed by those of byte 60,
    reads that string back as one decimal number and names the set bits of
    the number: the names are taken from the tower status table in its
    order, the name at position [i] is among them exactly when bit [i] of
    the number is set, and the status string is these names joined by "; ",
    or "No Error" when there is none. The status string is "No Error"
    exactly when both bytes are zero. *)
Theorem tower_state_string_healthy (self : BYDHVS) (w : World) (data : Py.bytes)
        (tower_number : Z) (d : gmap string pyval) :
  0 <= tower_number ->
  tower_attributes self !! Z.to_nat tower_number = Some d ->
  61 <= Py.len data ->
  exists self' w' d' a b number text (names : list string),
    _parse_packet5 data tower_number (self, w) = (Ok tt, (self', w'))
    /\ tower_attributes self' !! Z.to_nat tower_number = Some d'
    /\ read_byte data 59 = Ok a /\ read_byte data 60 = Ok b
    /\ d' !! "state" = Some (PStr (Py.str a +:+ Py.str b))
    /\ Py.int_of_str (Py.str a +:+ Py.str b) = Ok number
    /\ d' !! "state_string" = Some (PStr text)
    /\ text = match names with
              | [] => "No Error"%string
              | _ => String.concat "; " names
              end
    /\ names `sublist_of` _stat_tower
    /\ (forall (i : nat) (name : string),
           _stat_tower !! i = Some name ->
           (In name names <-> Z.testbit number (Z.of_nat i) = true))
    /\ (text = "No Error"%string <-> a = 0 /\ b = 0).
Proof.
  intros H0 Ht Hlen.
  assert (Hlt : (Z.to_nat tower_number < length (tower_attributes self))%nat)
    by (apply lookup_lt_Some in Ht; exact Ht).
  destruct (parse_packet5_fields self w data tower_number d H0 Ht Hlen)
    as (d' & st & Hrun & Hst & _ & _ & _ & Hstate & Hstring & _).
  destruct (tower_state_named (peek data 59) (peek data 60)
              (peek_range _ _) (peek_range _ _)) as (v & Hv & Hiff).
  assert (v = st) by congruence. subst v.
  destruct (bit_names_spec _stat_tower st
              (proj1 stat_tower_table) (proj2 stat_tower_table))
    as (names & Hnames & Hsub & Hbits).
  eexists. eexists. exists d', (peek data 59), (peek data 60), st,
    (bit_names _stat_tower st), names.
  split; [exact Hrun|].
  split; [proj_simpl; apply list_lookup_insert_eq; exact Hlt|].
  rewrite !read_byte_in_range by lia.
  split; [reflexivity|]. split; [reflexivity|].
  split; [exact Hstate|]. split; [exact Hst|].
  split; [exact Hstring|]. split; [exact Hnames|].
  split; [exact Hsub|]. split; [exact Hbits|exact Hiff].
Qed.

Lemma tower_state_string_healthy_witness :
  let reply := read_reply (repeat 0 57 ++ [9] ++ repeat 0 72) in
  exists self' w' d' (names : list string),
    _parse_packet5 reply 0 (one_tower_eight_cells, world0) = (Ok tt, (self', w'))
    /\ tower_attributes self' !! 0%nat = Some d'
    /\ d' !! "state" = Some (PStr "09")
    /\ In "Battery Over Voltage"%string names
    /\ In "Cells UnderVoltage"%string names
    /\ ~ In "Battery Under Voltage"%string names
    /\ d' !! "state_string" = Some (PStr "Battery Over Voltage; Cells UnderVoltage").
Proof.
  intros reply.
  destruct (tower_state_string_healthy one_tower_eight_cells world0 reply 0
              (<["cell_temperatures" := PList []]> (<["cell_voltages" := PList []]> ∅)))
    as (self' & w' & d' & a & b & number & text & names
        & Hrun & Hd & Ha & Hb & Hstate & Hnum & Hstring & Htext & _ & Hbits & _).
  - lia.
  - reflexivity.
  - vm_compute. discriminate.
  - assert (Ha0 : a = 0) by (vm_compute in Ha; congruence).
    assert (Hb9 : b = 9) by (vm_compute in Hb; congruence).
    subst a b.
    assert (H9 : number = 9) by (vm_compute in Hnum; congruence).
    subst number.
    assert (Hin0 : In "Battery Over Voltage"%string names)
      by (apply (Hbits 0%nat); reflexivity).
    assert (Hin3 : In "Cells UnderVoltage"%string names)
      by (apply (Hbits 3%nat); reflexivity).
    assert (Hs : match tower_attributes
                         (fst (snd (_parse_packet5 reply 0
                                      (one_tower_eight_cells, world0)))) !! 0%nat with
                 | Some dict => dict !! "state_string"
                 | None => None
                 end = Some (PStr "Battery Over Voltage; Cells UnderVoltage"))
      by (vm_compute; reflexivity).
    change (Z.to_nat 0) with 0%nat in Hd.
    rewrite Hrun in Hs. cbn [fst snd] in Hs. rewrite Hd in Hs.
    exists self', w', d', names. split; [exact Hrun|]. split; [exact Hd|].
    split; [exact Hstate|]. split; [exact Hin0|]. split; [exact Hin3|].
    split; [|exact Hs].
    intros Hin. apply (Hbits 1%nat) in Hin; [discriminate Hin|reflexivity].
Defined.

(** ** Readings past the end of a reply, and the blocks in sequence *)

Lemma map_constant {A B} (f : A -> B) (c : B) (l : list A) :
  (forall x, In x l -> f x = c) -> map f l = repeat c (length l).
Proof.
  induction l as [|x l IH]; intros H; [reflexivity|].
  cbn [map length repeat]. rewrite (H x (or_introl eq_refl)).
  f_equal. apply IH. intros y Hy. apply H. right. exact Hy.
Qed.

Lemma cell_block_past_end (data : Py.bytes) (start count : Z) :
  0 <= start -> Py.len data <= start ->
  cell_block data start count = repeat 0 (Z.to_nat count).
Proof.
  intros H0 Hend. unfold cell_block, Py.range.
  rewrite (map_constant _ 0).
  - rewrite length_map, length_seq. reflexivity.
  - intros i Hi. apply in_map_iff in Hi. destruct Hi as (k & <- & _).
    unfold _buf2int16_si.
    rewrite (slice_past_end data (start + Z.of_nat k * 2)) by lia.
    reflexivity.
Qed.

(** The dictionary behind a stored list. *)
Lemma tower_list_dict (self : BYDHVS) (tower : nat) (key : string) (v : list Z) :
  tower_list self tower key = Some v ->
  exists d, tower_attributes self !! tower = Some d /\ d !! key = Some (PList v).
Proof.
  unfold tower_list. destruct (tower_attributes self !! tower) as [d|]; [|discriminate].
  destruct (d !! key) as [[]|] eqn:Hd; try discriminate.
  intros [= ->]. exists d. split; [reflexivity|exact Hd].
Qed.

(** One appending decoder, seen through the voltage list and the target. *)
Lemma append_step (m : M unit) (self : BYDHVS) (w w' : World) (tower : nat)
      (d d' : gmap string pyval) (v : list Z) :
  tower_attributes self !! tower = Some d ->
  m (self, w)
  = (Ok tt, (self <| tower_attributes := <[tower := d']> (tower_attributes self) |>, w')) ->
  d' !! "cell_voltages" = Some (PList v) ->
  exists self',
    m (self, w) = (Ok tt, (self', w'))
    /\ tower_list self' tower "cell_voltages" = Some v
    /\ hvs_num_cells self' = hvs_num_cells self.
Proof.
  intros Ht Hrun Hd. eexists. split; [exact Hrun|]. split; [|reflexivity].
  apply tower_list_insert; [|exact Hd]. apply lookup_lt_Some in Ht. exact Ht.
Qed.

(** X13. The block decoders do not check that the reply holds the readings
    they take: on a reply of at most 5 bytes (header and checksum only)
    [_parse_packet6] still returns, and every reading it appends is 0. *)
Theorem truncated_block_reads_zero (self : BYDHVS) (w : World) (data : Py.bytes)
        (tower_number : Z) (vs : list Z) :
  0 <= tower_number ->
  tower_list self (Z.to_nat tower_number) "cell_voltages" = Some vs ->
  Py.len data <= 5 ->
  exists self' w',
    _parse_packet6 data tower_number (self, w) = (Ok tt, (self', w'))
    /\ tower_list self' (Z.to_nat tower_number) "cell_voltages"
       = Some (vs ++ repeat 0 (Z.to_nat (Z.min (hvs_num_cells self - 16) 64))).
Proof.
  intros H0 Hvs Hlen.
  destruct (tower_list_dict _ _ _ _ Hvs) as (d & Ht & Hd).
  pose proof (parse_packet6_run self w data tower_number d vs H0 Ht Hd) as Hrun.
  destruct (append_step _ _ _ _ _ _ _ _ Ht Hrun (lookup_insert_eq _ _ _))
    as (self' & Hrun' & Hl & _).
  exists self'. eexists. split; [exact Hrun'|].
  rewrite Hl, cell_block_past_end by lia. reflexivity.
Qed.

Lemma truncated_block_reads_zero_witness :
  exists self' w',
    _parse_packet6 short_ack 0
      (one_tower_eight_cells <| hvs_num_cells := 20 |>, world0)
    = (Ok tt, (self', w'))
    /\ tower_list self' 0 "cell_voltages" = Some [0; 0; 0; 0].
Proof.
  destruct (truncated_block_reads_zero
              (one_tower_eight_cells <| hvs_num_cells := 20 |>) world0 short_ack 0 [])
    as (self' & w' & Hrun & Hl).
  - lia.
  - reflexivity.
  - vm_compute. discriminate.
  - exists self', w'. split; [exact Hrun|exact Hl].
Defined.

(** Each appending decoder in the same form: what it adds to the stored
    voltages, with the cell target left as it was. *)
Section AppendingDecoders.
Variables (self : BYDHVS) (w : World) (data : Py.bytes) (tower_number : Z).
Variable vs : list Z.
Hypothesis Htower : 0 <= tower_number.
Hypothesis Hvs : tower_list self (Z.to_nat tower_number) "cell_voltages" = Some vs.





End AppendingDecoders.





(** ** Turns of the state machine *)

Lemma accepted_reply (E : Env) (self : BYDHVS) (w : World) (r : stream) (d : Py.bytes) :
  _reader self = Some r ->
  env_recv E (w_reads w) = RecvData d ->
  _check_packet d = Ok true ->
  accepted (next_reply E self w) = Some d.
Proof.
  intros Hr Hrecv Hvalid. unfold next_reply. rewrite Hr, Hrecv.
  apply accepted_valid; [|exact Hvalid].
  intros ->. vm_compute in Hvalid. discriminate.
Qed.

(** X17. The five states that only start a measurement, read its status or
    switch the pass (5, 6, 11, 12 and 13) never look at the content of the
    reply: any reply that passes validation moves the machine to the next
    state, also when the write of the request has failed in the same turn.
    States 5 and 12 sleep once before moving on; no decoder is called. *)
Theorem handshake_states_advance (E : Env) (self : BYDHVS) (w : World)
        (r : stream) (d : Py.bytes) (k : Z) (act : M unit) :
  In k [5; 6; 11; 12; 13] ->
  state_actions E k = Some act ->
  _reader self = Some r ->
  env_recv E (w_reads w) = RecvData d ->
  _check_packet d = Ok true ->
  exists w',
    act (self, w) = (Ok tt, (self <| _state := k + 1 |>, w'))
    /\ w_reads w' = S (w_reads w)
    /\ w_decoded w' = w_decoded w
    /\ w_sleeps w'
       = (if (k =? 5) || (k =? 12) then S (w_sleeps w) else w_sleeps w).
Proof.
  intros Hk Hact Hr Hrecv Hvalid.
  pose proof (accepted_reply E self w r d Hr Hrecv Hvalid) as Hacc.
  cbn [In] in Hk.
  repeat (destruct Hk as [<-|Hk]); [..|contradiction];
    cbn [state_actions Z.eqb Pos.eqb] in Hact; injection Hact as <-;
    rewrite ?state5_shape, ?state6_shape, ?state11_shape, ?state12_shape,
      ?state13_shape;
    match goal with
    | |- context [exchange E ?send ?on_valid] =>
        destruct (exchange_accepted E send on_valid self w d
                    ltac:(first [apply send_request_send_like
                                | apply send_start_measurement_send_like]) Hacc)
          as (self1 & w1 & -> & Hself & Hreads & Hdec & _ & _ & Hsl)
    end;
    cbv [bind sleep set_world set_self fst snd];
    eexists; (split; [destruct Hself as [->| ->]; reflexivity|]);
    cbn [Z.eqb Pos.eqb orb]; proj_simpl;
    repeat split; congruence.
Qed.

Lemma handshake_states_advance_witness :
  exists w',
    _state6_send_request4 (script [short_ack])
      ((__init__ "192.168.16.254" 8080)
         <| _state := 6 |> <| _reader := Some (Stream 0) |>, world0)
    = (Ok tt,
       ((__init__ "192.168.16.254" 8080)
          <| _state := 6 |> <| _reader := Some (Stream 0) |> <| _state := 6 + 1 |>, w'))
    /\ w_reads w' = 1%nat.
Proof.
  destruct (handshake_states_advance (script [short_ack])
              ((__init__ "192.168.16.254" 8080)
                 <| _state := 6 |> <| _reader := Some (Stream 0) |>)
              world0 (Stream 0) short_ack 6
              (_state6_send_request4 (script [short_ack])))
    as (w' & Hrun & Hreads & _).
  - cbn. tauto.
  - reflexivity.
  - reflexivity.
  - reflexivity.
  - vm_compute. reflexivity.
  - exists w'. split; [exact Hrun|exact Hreads].
Defined.

(** X18. State 4 on a valid battery-info reply that holds byte 5: the
    handler returns, and the machine goes on to the detailed queries
    (state 5) exactly when the module count is positive and either the
    serial number has announced an LVS battery or the type code of the reply
    is 1 (HVM) or 2 (HVS). In every other case (no module, type code 0
    without the LVS serial, unknown code) the cycle ends here with [_state]
    0 and without an error. *)
Theorem battery_info_decides_cycle (E : Env) (self : BYDHVS) (w : World)
        (r : stream) (d : Py.bytes) (b : Z) :
  _reader self = Some r ->
  env_recv E (w_reads w) = RecvData d ->
  _check_packet d = Ok true ->
  read_byte d 5 = Ok b ->
  exists self' w',
    _state4_send_request2 E (self, w) = (Ok tt, (self', w'))
    /\ (_state self' = 5 \/ _state self' = 0)
    /\ (_state self' = 5
        <-> 0 < hvs_modules self
            /\ (hvs_batt_type_from_serial self = "LVS"%string \/ b = 1 \/ b = 2)).
Proof.
  intros Hr Hrecv Hvalid H5.
  pose proof (accepted_reply E self w r d Hr Hrecv Hvalid) as Hacc.
  apply read_byte_ok_inv in H5; [|lia]. destruct H5 as [Hlen ->].
  rewrite state4_shape.
  match goal with
  | |- context [exchange E ?send ?on_valid] =>
      destruct (exchange_accepted E send on_valid self w d
                  (send_request_send_like E _) Hacc)
        as (self1 & w1 & -> & Hself & _)
  end.
  destruct (parse_packet2_run self1 w1 d ltac:(lia))
    as (self2 & Hdec & _ & _ & Hcells & Htemps).
  assert (Hm : hvs_modules self1 = hvs_modules self)
    by (destruct Hself as [->| ->]; reflexivity).
  assert (Hh : hvs_batt_type_from_serial self1 = hvs_batt_type_from_serial self)
    by (destruct Hself as [->| ->]; reflexivity).
  rewrite Hm, Hh in Hcells, Htemps.
  cbv [bind]. rewrite Hdec. cbv [get_self fst snd]. rewrite Hcells, Htemps.
  unfold per_module, batt_type_map, MAX_CELLS, MAX_TEMPS.
  destruct (String.eqb_spec (hvs_batt_type_from_serial self) "LVS") as [Hlvs|Hlvs];
    [|destruct (Z.eqb_spec (peek d 5) 0);
      [|destruct (Z.eqb_spec (peek d 5) 1); [|destruct (Z.eqb_spec (peek d 5) 2)]]];
    cbn [fst snd];
    match goal with
    | |- context [if ?c then _ else _] => destruct c eqn:Hc
    end;
    cbv [set_self fst snd]; eexists; eexists; (split; [reflexivity|]);
    proj_simpl;
    (split; [first [left; reflexivity | right; reflexivity]|]);
    (split; [intros Hst; try discriminate Hst | intros Hgo]);
    try (apply andb_prop in Hc; destruct Hc as [Hc1 Hc2]);
    try (apply andb_false_iff in Hc);
    try lia; try reflexivity;
    try (split; [lia|tauto]);
    try (exfalso; destruct Hgo as [Hpos [Hl|[Hb|Hb]]]; [contradiction|lia|lia]).
Qed.

Lemma battery_info_decides_cycle_witness :
  exists self' w',
    _state4_send_request2 (script [battery_info_reply 2])
      ((__init__ "192.168.16.254" 8080)
         <| _state := 4 |> <| _reader := Some (Stream 0) |> <| hvs_modules := 2 |>,
       world0)
    = (Ok tt, (self', w'))
    /\ _state self' = 5.
Proof.
  destruct (battery_info_decides_cycle (script [battery_info_reply 2])
              ((__init__ "192.168.16.254" 8080)
                 <| _state := 4 |> <| _reader := Some (Stream 0) |>
                 <| hvs_modules := 2 |>)
              world0 (Stream 0) (battery_info_reply 2) 2)
    as (self' & w' & Hrun & _ & Hiff).
  - reflexivity.
  - reflexivity.
  - vm_compute. reflexivity.
  - vm_compute. reflexivity.
  - exists self', w'. split; [exact Hrun|].
    apply Hiff. split; [reflexivity|right; right; reflexivity].
Defined.

(** X19. States 5 and 12 with a writer at hand: the handler always returns,
    and it writes exactly one request, chosen by the current tower, for the
    towers 0, 1 and 2. For any other tower it writes nothing at all, yet it
    still waits for a reply: the read is made whenever there is a reader. *)
Theorem start_measurement_by_tower (E : Env) (self : BYDHVS) (w : World)
        (c : stream) (k : Z) (act : M unit) :
  In k [5; 12] ->
  state_actions E k = Some act ->
  _writer self = Some c ->
  fst (act (self, w)) = Ok tt
  /\ w_sent (snd (snd (act (self, w))))
     = w_sent w
       ++ (if current_tower self =? 0 then [_requests start_measure_box_1]
           else if current_tower self =? 1 then [_requests start_measure_box_2]
           else if current_tower self =? 2 then [_requests start_measure_box_3]
           else [])
  /\ (forall r, _reader self = Some r ->
                w_reads (snd (snd (act (self, w)))) = S (w_reads w)).
Proof.
  intros Hk Hact Hw.
  assert (Hshape : exists next,
             act = exchange E (send_start_measurement E)
                     (fun _ => sleep ;;; setattr _state := next)).
  { cbn [In] in Hk. destruct Hk as [<-|[<-|[]]];
      cbn [state_actions Z.eqb Pos.eqb] in Hact; injection Hact as <-;
      eexists; reflexivity. }
  destruct Hshape as [next ->].
  unfold exchange, send_start_measurement, _send_request, _receive_response.
  cbv [bind get_self get_world set_world set_self ret fst snd].
  destruct (current_tower self =? 0);
    [|destruct (current_tower self =? 1); [|destruct (current_tower self =? 2)]];
    repeat (cbv [bind get_self get_world set_world set_self ret fst snd sleep];
            proj_simpl; rewrite ?Hw, ?data_and_check_packet_run;
            match goal with
            | |- context [match env_send E ?n with _ => _ end] =>
                destruct (env_send E n)
            | |- context [match _reader self with _ => _ end] =>
                destruct (_reader self) as [rd|] eqn:Hrd
            | |- context [match env_recv E ?n with _ => _ end] =>
                destruct (env_recv E n) as [data| | |]
            | |- context [match accepted ?o with _ => _ end] =>
                destruct (accepted o)
            end);
    cbv [bind get_self get_world set_world set_self ret fst snd sleep];
    (split; [reflexivity|]);
    (split; [proj_simpl; rewrite ?app_nil_r; reflexivity|]);
    intros r' Hr'; first [discriminate Hr' | proj_simpl; reflexivity].
Qed.

Lemma start_measurement_by_tower_witness :
  let self :=
    (__init__ "192.168.16.254" 8080)
      <| _state := 5 |> <| _writer := Some (Stream 0) |> <| current_tower := 3 |> in
  fst (_state5_start_measurement (script [short_ack]) (self, world0)) = Ok tt
  /\ w_sent (snd (snd (_state5_start_measurement (script [short_ack]) (self, world0))))
     = [].
Proof.
  intros self.
  destruct (start_measurement_by_tower (script [short_ack]) self world0 (Stream 0) 5
              (_state5_start_measurement (script [short_ack])))
    as (Hok & Hsent & _).
  - cbn. tauto.
  - reflexivity.
  - reflexivity.
  - split; [exact Hok|exact Hsent].
Defined.
